(** * usePrePackagedRules: the pre-packaged rules hook as an event-driven machine

    Source: x-pack/plugins/security_solution/public/detections/containers/
            detection_engine/rules/use_pre_packaged_rules.tsx

    The hook is asynchronous JavaScript: every [await] and every
    [window.setTimeout] cuts a function into a part that runs now and a
    continuation that the event loop runs later.  The embedding keeps the
    closure variables and the React state of one run of the effect in a
    record [Hook], keeps the host's pending timers and pending API promises
    in two queues, and gives one transition per event of the event loop
    (a consumer calling one of the two exported callbacks, a timer firing,
    an API promise settling, React running the effect's cleanup).  Each
    source function is split at its [await]: [f_call] is the part up to the
    [await], [f_resume] the part after it.

    The API module ([./api]) is the environment: it decides whether and how
    each call settles.  The definitions come first, the proofs after. *)

From stdpp Require Import base tactics option list numbers.

Set Default Proof Using "Type".

(** ** Data *)

(** [interface UsePrePackagedRuleProps]: five [boolean | null] inputs. *)
Record UsePrePackagedRuleProps := {
  canUserCRUD : option bool;
  hasIndexWrite : option bool;
  isAuthenticated : option bool;
  hasEncryptionKey : option bool;
  isSignalIndexExists : option bool
}.

(** JavaScript truthiness of a [boolean | null]. *)
Definition truthy (b : option bool) : bool :=
  match b with
  | Some true => true
  | _ => false
  end.

(** The fields of the response of [getPrePackagedRulesStatus] the hook reads. *)
Record PrePackagedRulesStatusResponse := {
  rules_custom_installed : Z;
  rules_installed : Z;
  rules_not_installed : Z;
  rules_not_updated : Z;
  timelines_installed : Z;
  timelines_not_installed : Z;
  timelines_not_updated : Z
}.

(** The two closures the hook hands out through its state. *)
Inductive Closure :=
| createElasticRules
| fetchPrePackagedRules.

(** The object kept by [useState] as [prepackagedDataStatus]. *)
Record PrepackagedDataStatus := {
  createPrePackagedRules : option Closure;
  refetchPrePackagedRulesStatus : option Closure;
  rulesCustomInstalled : option Z;
  rulesInstalled : option Z;
  rulesNotInstalled : option Z;
  rulesNotUpdated : option Z;
  timelinesInstalled : option Z;
  timelinesNotInstalled : option Z;
  timelinesNotUpdated : option Z
}.

(** Titles from [./translations] used by the hook. *)
Inductive Translation :=
| RULE_AND_TIMELINE_FETCH_FAILURE
| RULE_AND_TIMELINE_PREPACKAGED_FAILURE
| RULE_AND_TIMELINE_PREPACKAGED_SUCCESS.

(** What reaches the toaster: [errorToToaster] or [displaySuccessToast]. *)
Inductive Toast :=
| ErrorToast (title : Translation)
| SuccessToast (title : Translation).

(** A pending promise of the API module, tagged with the continuation
    that awaits it. *)
Inductive Request :=
| ReqCreatePrepackagedRules (sid : nat)
| ReqStatusPoll (sid : nat)
| ReqStatusFetch.

(** One call made to the API module; [call_signal_aborted] is the value of
    [abortCtrl.signal.aborted] when the call was made. *)
Record ApiCall := {
  call_request : Request;
  call_signal_aborted : bool
}.

(** How the environment settles an API promise.  The value
    [createPrepackagedRules] resolves with is never read by the hook. *)
Inductive Settlement :=
| Fulfilled (r : PrePackagedRulesStatusResponse)
| Rejected.

(** A callback registered with [window.setTimeout]; all of them are the
    callback of [reFetch] of some invocation of [createElasticRules]. *)
Record Timer := {
  timer_id : Z;
  timer_session : nat;
  timer_delay : nat
}.

(** The variables of one invocation of [createElasticRules]: the two [let]s,
    the response bound by the latest run of the timer callback, and the
    settled value of the promise the invocation returned. *)
Record Session := {
  iterationTryOfFetchingPrePackagedCount : nat;
  timeoutId : Z;
  prePackagedRuleStatusResponse : option PrePackagedRulesStatusResponse;
  resolved : option bool
}.

(** One run of the effect, with the host's queues: the two variables of
    the effect ([isSubscribed]; [aborted] is [abortCtrl.signal.aborted]),
    the three [useState] cells, the toaster, the sessions in order of
    invocation, the registered timers and the next timer identifier, the
    pending API promises, the API calls made so far, and the number of
    promise rejections nothing handled. *)
Record Hook := {
  isSubscribed : bool;
  aborted : bool;
  prepackagedDataStatus : PrepackagedDataStatus;
  loadingCreatePrePackagedRules : bool;
  loading : bool;
  toasts : list Toast;
  sessions : list Session;
  timers : list Timer;
  nextTimeoutId : Z;
  inflight : list Request;
  apiCalls : list ApiCall;
  unhandledRejections : nat
}.

(** ** Field updates *)

Definition set_isSubscribed (b : bool) (w : Hook) : Hook :=
  {| isSubscribed := b; aborted := aborted w;
     prepackagedDataStatus := prepackagedDataStatus w;
     loadingCreatePrePackagedRules := loadingCreatePrePackagedRules w;
     loading := loading w; toasts := toasts w; sessions := sessions w;
     timers := timers w; nextTimeoutId := nextTimeoutId w;
     inflight := inflight w; apiCalls := apiCalls w;
     unhandledRejections := unhandledRejections w |}.

Definition set_aborted (b : bool) (w : Hook) : Hook :=
  {| isSubscribed := isSubscribed w; aborted := b;
     prepackagedDataStatus := prepackagedDataStatus w;
     loadingCreatePrePackagedRules := loadingCreatePrePackagedRules w;
     loading := loading w; toasts := toasts w; sessions := sessions w;
     timers := timers w; nextTimeoutId := nextTimeoutId w;
     inflight := inflight w; apiCalls := apiCalls w;
     unhandledRejections := unhandledRejections w |}.

Definition setPrepackagedDataStatus (d : PrepackagedDataStatus) (w : Hook) : Hook :=
  {| isSubscribed := isSubscribed w; aborted := aborted w;
     prepackagedDataStatus := d;
     loadingCreatePrePackagedRules := loadingCreatePrePackagedRules w;
     loading := loading w; toasts := toasts w; sessions := sessions w;
     timers := timers w; nextTimeoutId := nextTimeoutId w;
     inflight := inflight w; apiCalls := apiCalls w;
     unhandledRejections := unhandledRejections w |}.

Definition setLoadingCreatePrePackagedRules (b : bool) (w : Hook) : Hook :=
  {| isSubscribed := isSubscribed w; aborted := aborted w;
     prepackagedDataStatus := prepackagedDataStatus w;
     loadingCreatePrePackagedRules := b;
     loading := loading w; toasts := toasts w; sessions := sessions w;
     timers := timers w; nextTimeoutId := nextTimeoutId w;
     inflight := inflight w; apiCalls := apiCalls w;
     unhandledRejections := unhandledRejections w |}.

Definition setLoading (b : bool) (w : Hook) : Hook :=
  {| isSubscribed := isSubscribed w; aborted := aborted w;
     prepackagedDataStatus := prepackagedDataStatus w;
     loadingCreatePrePackagedRules := loadingCreatePrePackagedRules w;
     loading := b; toasts := toasts w; sessions := sessions w;
     timers := timers w; nextTimeoutId := nextTimeoutId w;
     inflight := inflight w; apiCalls := apiCalls w;
     unhandledRejections := unhandledRejections w |}.

Definition dispatchToaster (t : Toast) (w : Hook) : Hook :=
  {| isSubscribed := isSubscribed w; aborted := aborted w;
     prepackagedDataStatus := prepackagedDataStatus w;
     loadingCreatePrePackagedRules := loadingCreatePrePackagedRules w;
     loading := loading w; toasts := toasts w ++ [t]; sessions := sessions w;
     timers := timers w; nextTimeoutId := nextTimeoutId w;
     inflight := inflight w; apiCalls := apiCalls w;
     unhandledRejections := unhandledRejections w |}.

Definition set_sessions (l : list Session) (w : Hook) : Hook :=
  {| isSubscribed := isSubscribed w; aborted := aborted w;
     prepackagedDataStatus := prepackagedDataStatus w;
     loadingCreatePrePackagedRules := loadingCreatePrePackagedRules w;
     loading := loading w; toasts := toasts w; sessions := l;
     timers := timers w; nextTimeoutId := nextTimeoutId w;
     inflight := inflight w; apiCalls := apiCalls w;
     unhandledRejections := unhandledRejections w |}.

Definition set_timers (l : list Timer) (w : Hook) : Hook :=
  {| isSubscribed := isSubscribed w; aborted := aborted w;
     prepackagedDataStatus := prepackagedDataStatus w;
     loadingCreatePrePackagedRules := loadingCreatePrePackagedRules w;
     loading := loading w; toasts := toasts w; sessions := sessions w;
     timers := l; nextTimeoutId := nextTimeoutId w;
     inflight := inflight w; apiCalls := apiCalls w;
     unhandledRejections := unhandledRejections w |}.

Definition set_nextTimeoutId (n : Z) (w : Hook) : Hook :=
  {| isSubscribed := isSubscribed w; aborted := aborted w;
     prepackagedDataStatus := prepackagedDataStatus w;
     loadingCreatePrePackagedRules := loadingCreatePrePackagedRules w;
     loading := loading w; toasts := toasts w; sessions := sessions w;
     timers := timers w; nextTimeoutId := n;
     inflight := inflight w; apiCalls := apiCalls w;
     unhandledRejections := unhandledRejections w |}.

Definition set_inflight (l : list Request) (w : Hook) : Hook :=
  {| isSubscribed := isSubscribed w; aborted := aborted w;
     prepackagedDataStatus := prepackagedDataStatus w;
     loadingCreatePrePackagedRules := loadingCreatePrePackagedRules w;
     loading := loading w; toasts := toasts w; sessions := sessions w;
     timers := timers w; nextTimeoutId := nextTimeoutId w;
     inflight := l; apiCalls := apiCalls w;
     unhandledRejections := unhandledRejections w |}.

Definition set_apiCalls (l : list ApiCall) (w : Hook) : Hook :=
  {| isSubscribed := isSubscribed w; aborted := aborted w;
     prepackagedDataStatus := prepackagedDataStatus w;
     loadingCreatePrePackagedRules := loadingCreatePrePackagedRules w;
     loading := loading w; toasts := toasts w; sessions := sessions w;
     timers := timers w; nextTimeoutId := nextTimeoutId w;
     inflight := inflight w; apiCalls := l;
     unhandledRejections := unhandledRejections w |}.

Definition unhandledRejection (w : Hook) : Hook :=
  {| isSubscribed := isSubscribed w; aborted := aborted w;
     prepackagedDataStatus := prepackagedDataStatus w;
     loadingCreatePrePackagedRules := loadingCreatePrePackagedRules w;
     loading := loading w; toasts := toasts w; sessions := sessions w;
     timers := timers w; nextTimeoutId := nextTimeoutId w;
     inflight := inflight w; apiCalls := apiCalls w;
     unhandledRejections := S (unhandledRejections w) |}.

Definition set_iteration (n : nat) (s : Session) : Session :=
  {| iterationTryOfFetchingPrePackagedCount := n; timeoutId := timeoutId s;
     prePackagedRuleStatusResponse := prePackagedRuleStatusResponse s;
     resolved := resolved s |}.

Definition set_timeoutId (id : Z) (s : Session) : Session :=
  {| iterationTryOfFetchingPrePackagedCount := iterationTryOfFetchingPrePackagedCount s;
     timeoutId := id;
     prePackagedRuleStatusResponse := prePackagedRuleStatusResponse s;
     resolved := resolved s |}.

Definition set_response (r : PrePackagedRulesStatusResponse) (s : Session) : Session :=
  {| iterationTryOfFetchingPrePackagedCount := iterationTryOfFetchingPrePackagedCount s;
     timeoutId := timeoutId s;
     prePackagedRuleStatusResponse := Some r;
     resolved := resolved s |}.

(** [resolve(v)] of the promise executor: only the first call settles. *)
Definition resolve (v : bool) (s : Session) : Session :=
  {| iterationTryOfFetchingPrePackagedCount := iterationTryOfFetchingPrePackagedCount s;
     timeoutId := timeoutId s;
     prePackagedRuleStatusResponse := prePackagedRuleStatusResponse s;
     resolved := match resolved s with Some b => Some b | None => Some v end |}.

Definition upd_session (sid : nat) (f : Session → Session) (w : Hook) : Hook :=
  set_sessions (alter f sid (sessions w)) w.

(** ** Host facilities: timers and the API module *)

(** [window.setTimeout(cb, 300)] for the [reFetch] callback of session [sid];
    returns the identifier of the new timer. *)
Definition setTimeout (sid : nat) (w : Hook) : Z * Hook :=
  let id := nextTimeoutId w in
  (id,
   set_nextTimeoutId (id + 1)
     (set_timers
        (timers w ++ [{| timer_id := id; timer_session := sid; timer_delay := 300 |}])
        w)).

(** [window.clearTimeout(id)]. *)
Definition clearTimeout (id : Z) (w : Hook) : Hook :=
  set_timers (filter (λ t, timer_id t ≠ id) (timers w)) w.

#[global] Instance Request_eq_dec : EqDecision Request.
Proof. solve_decision. Defined.

(** A call [f({ signal: abortCtrl.signal })] of the API module: the call is
    recorded and its promise is pending until the environment settles it. *)
Definition call_api (rq : Request) (w : Hook) : Hook :=
  set_inflight (inflight w ++ [rq])
    (set_apiCalls
       (apiCalls w ++ [{| call_request := rq; call_signal_aborted := aborted w |}])
       w).

(** ** fetchPrePackagedRules *)

Definition null_status : PrepackagedDataStatus :=
  {| createPrePackagedRules := None;
     refetchPrePackagedRulesStatus := None;
     rulesCustomInstalled := None;
     rulesInstalled := None;
     rulesNotInstalled := None;
     rulesNotUpdated := None;
     timelinesInstalled := None;
     timelinesNotInstalled := None;
     timelinesNotUpdated := None |}.

(** The object both success paths pass to [setPrepackagedDataStatus]. *)
Definition status_of_response (r : PrePackagedRulesStatusResponse) : PrepackagedDataStatus :=
  {| createPrePackagedRules := Some createElasticRules;
     refetchPrePackagedRulesStatus := Some fetchPrePackagedRules;
     rulesCustomInstalled := Some (rules_custom_installed r);
     rulesInstalled := Some (rules_installed r);
     rulesNotInstalled := Some (rules_not_installed r);
     rulesNotUpdated := Some (rules_not_updated r);
     timelinesInstalled := Some (timelines_installed r);
     timelinesNotInstalled := Some (timelines_not_installed r);
     timelinesNotUpdated := Some (timelines_not_updated r) |}.

(** [fetchPrePackagedRules], up to its [await]. *)
Definition fetchPrePackagedRules_call (w : Hook) : Hook :=
  call_api ReqStatusFetch (setLoading true w).

(** [fetchPrePackagedRules], from its [await] on: the rest of the [try]
    block or the [catch] block, then the trailing [if (isSubscribed)]. *)
Definition fetchPrePackagedRules_resume (o : Settlement) (w : Hook) : Hook :=
  let w1 :=
    match o with
    | Fulfilled r =>
        if isSubscribed w
        then setPrepackagedDataStatus (status_of_response r) w
        else w
    | Rejected =>
        if isSubscribed w
        then dispatchToaster (ErrorToast RULE_AND_TIMELINE_FETCH_FAILURE)
               (setPrepackagedDataStatus null_status w)
        else w
    end in
  if isSubscribed w1 then setLoading false w1 else w1.

(** ** createElasticRules *)

(** The conjunction guarding the trigger. *)
Definition guard_open (p : UsePrePackagedRuleProps) : bool :=
  truthy (canUserCRUD p) && truthy (hasIndexWrite p) && truthy (isAuthenticated p)
  && truthy (hasEncryptionKey p) && truthy (isSignalIndexExists p).

(** The variables of a fresh invocation: the promise is pending and the two
    [let]s hold their declared initial values. *)
Definition new_session : Session :=
  {| iterationTryOfFetchingPrePackagedCount := 0;
     timeoutId := (-1)%Z;
     prePackagedRuleStatusResponse := None;
     resolved := None |}.

(** [createElasticRules], up to [await createPrepackagedRules(...)], or to
    [resolve(false)] when the guard is closed. *)
Definition createElasticRules_call (p : UsePrePackagedRuleProps) (w : Hook) : Hook :=
  let sid := length (sessions w) in
  let w0 := set_sessions (sessions w ++ [new_session]) w in
  if guard_open p then
    call_api (ReqCreatePrepackagedRules sid) (setLoadingCreatePrePackagedRules true w0)
  else
    upd_session sid (resolve false) w0.

(** [reFetch()]: registers the timer callback and returns the timer's id. *)
Definition reFetch (sid : nat) (w : Hook) : Z * Hook := setTimeout sid w.

(** The statement [timeoutId = reFetch();]. *)
Definition assign_reFetch (sid : nat) (w : Hook) : Hook :=
  let '(id, w') := reFetch sid w in
  upd_session sid (set_timeoutId id) w'.

(** [stopTimeOut()]. *)
Definition stopTimeOut (sid : nat) (w : Hook) : Hook :=
  match sessions w !! sid with
  | Some s =>
      if decide (timeoutId s ≠ (-1)%Z) then clearTimeout (timeoutId s) w else w
  | None => w
  end.

(** [createElasticRules], from [await createPrepackagedRules(...)] on:
    the [if (isSubscribed)] block when the trigger resolved, the [catch]
    block when it rejected. *)
Definition createElasticRules_resume (sid : nat) (o : Settlement) (w : Hook) : Hook :=
  match o with
  | Fulfilled _ =>
      if isSubscribed w then
        assign_reFetch sid
          (upd_session sid (set_timeoutId (-1)%Z)
             (upd_session sid (set_iteration 0) w))
      else w
  | Rejected =>
      if isSubscribed w then
        upd_session sid (resolve false)
          (dispatchToaster (ErrorToast RULE_AND_TIMELINE_PREPACKAGED_FAILURE)
             (setLoadingCreatePrePackagedRules false w))
      else w
  end.

(** The timer callback of [reFetch], up to its [await]. *)
Definition reFetch_callback (sid : nat) (w : Hook) : Hook :=
  call_api (ReqStatusPoll sid)
    (upd_session sid
       (λ s, set_iteration (S (iterationTryOfFetchingPrePackagedCount s)) s) w).

(** The four [=== 0] tests of the timer callback. *)
Definition nothing_left (r : PrePackagedRulesStatusResponse) : bool :=
  (rules_not_installed r =? 0)%Z && (rules_not_updated r =? 0)%Z
  && (timelines_not_installed r =? 0)%Z && (timelines_not_updated r =? 0)%Z.

(** The timer callback of [reFetch], from its [await] on.  The callback has
    no [try]: a rejected status query rejects the callback's own promise,
    which nothing observes. *)
Definition reFetch_resume (sid : nat) (o : Settlement) (w : Hook) : Hook :=
  match o with
  | Rejected => unhandledRejection w
  | Fulfilled r =>
      match sessions w !! sid with
      | None => w
      | Some s =>
          let w0 := upd_session sid (set_response r) w in
          if isSubscribed w0
             && (nothing_left r || (100 <? iterationTryOfFetchingPrePackagedCount s))
          then
            upd_session sid (resolve true)
              (stopTimeOut sid
                 (dispatchToaster (SuccessToast RULE_AND_TIMELINE_PREPACKAGED_SUCCESS)
                    (setPrepackagedDataStatus (status_of_response r)
                       (setLoadingCreatePrePackagedRules false w0))))
          else
            assign_reFetch sid w0
      end
  end.

(** ** The event loop *)

(** What can happen next: a consumer calls [createPrePackagedRules] (the
    closure [createElasticRules]) or [refetchPrePackagedRulesStatus] (the
    closure [fetchPrePackagedRules]); a registered timer fires; a pending
    API promise settles; React runs the cleanup of the effect.  The two
    calls are possible at any time: a consumer may hold the closures from an
    earlier render. *)
Inductive Event :=
| CallCreatePrePackagedRules
| CallRefetchPrePackagedRulesStatus
| TimerFires (pos : nat)
| Settles (pos : nat) (o : Settlement)
| Cleanup.

(** The continuation waiting on a settled promise. *)
Definition resume (rq : Request) (o : Settlement) (w : Hook) : Hook :=
  match rq with
  | ReqCreatePrepackagedRules sid => createElasticRules_resume sid o w
  | ReqStatusPoll sid => reFetch_resume sid o w
  | ReqStatusFetch => fetchPrePackagedRules_resume o w
  end.

(** The function returned by the effect. *)
Definition cleanup (w : Hook) : Hook :=
  set_aborted true (set_isSubscribed false w).

(** One turn of the event loop.  A timer or a promise is named by its
    position in the host's queue; an event naming no pending entry does
    nothing. *)
Definition step (p : UsePrePackagedRuleProps) (w : Hook) (e : Event) : Hook :=
  match e with
  | CallCreatePrePackagedRules => createElasticRules_call p w
  | CallRefetchPrePackagedRulesStatus => fetchPrePackagedRules_call w
  | TimerFires pos =>
      match timers w !! pos with
      | Some t => reFetch_callback (timer_session t) (set_timers (delete pos (timers w)) w)
      | None => w
      end
  | Settles pos o =>
      match inflight w !! pos with
      | Some rq => resume rq o (set_inflight (delete pos (inflight w)) w)
      | None => w
      end
  | Cleanup => cleanup w
  end.

Definition run (p : UsePrePackagedRuleProps) (w : Hook) (evs : list Event) : Hook :=
  foldl (step p) w evs.

(** The state the effect body starts from: the [useState] initial values,
    [isSubscribed = true] and a fresh [AbortController]. *)
Definition useEffect_start : Hook :=
  {| isSubscribed := true; aborted := false;
     prepackagedDataStatus := null_status;
     loadingCreatePrePackagedRules := false;
     loading := true; toasts := []; sessions := [];
     timers := []; nextTimeoutId := 1%Z;
     inflight := []; apiCalls := [];
     unhandledRejections := 0 |}.

(** The effect body: it ends with the call [fetchPrePackagedRules()]. *)
Definition mount : Hook := fetchPrePackagedRules_call useEffect_start.

(** ** Observations *)

(** Calls of [getPrePackagedRulesStatus] made by the poller of [sid]. *)
Definition poll_calls (sid : nat) (w : Hook) : nat :=
  length (filter (λ c, call_request c = ReqStatusPoll sid) (apiCalls w)).

(** Calls of [createPrepackagedRules] made by [sid]. *)
Definition trigger_calls (sid : nat) (w : Hook) : nat :=
  length (filter (λ c, call_request c = ReqCreatePrepackagedRules sid) (apiCalls w)).

Definition timers_of (sid : nat) (w : Hook) : list Timer :=
  filter (λ t, timer_session t = sid) (timers w).

Definition polls_in_flight (sid : nat) (w : Hook) : list Request :=
  filter (λ rq, rq = ReqStatusPoll sid) (inflight w).

Definition triggers_in_flight (sid : nat) (w : Hook) : list Request :=
  filter (λ rq, rq = ReqCreatePrepackagedRules sid) (inflight w).

(** Everything the event loop still holds for [sid]. *)
Definition pending (sid : nat) (w : Hook) : nat :=
  length (timers_of sid w) + length (polls_in_flight sid w)
  + length (triggers_in_flight sid w).

(** The states of the specification's PollSession, read off the hook.
    [Refused] (guard closed, nothing triggered) and [Stalled] (promise
    pending while the event loop holds nothing for the session) are states
    of the code the specification has no name for. *)
Inductive SessionState :=
| Idle | Refused | Triggering | Polling
| Converged | Exhausted | Failed | Cancelled | Stalled.

#[global] Instance SessionState_eq_dec : EqDecision SessionState.
Proof. solve_decision. Defined.

Definition session_state (sid : nat) (w : Hook) : SessionState :=
  match sessions w !! sid with
  | None => Idle
  | Some s =>
      match resolved s with
      | Some true =>
          match prePackagedRuleStatusResponse s with
          | Some r => if nothing_left r then Converged else Exhausted
          | None => Exhausted
          end
      | Some false =>
          match trigger_calls sid w with
          | 0 => Refused
          | S _ => Failed
          end
      | None =>
          if negb (isSubscribed w) then Cancelled
          else match triggers_in_flight sid w with
               | _ :: _ => Triggering
               | [] =>
                   match timers_of sid w, polls_in_flight sid w with
                   | [], [] => Stalled
                   | _, _ => Polling
                   end
               end
      end
  end.

Definition terminal (st : SessionState) : bool :=
  match st with
  | Converged | Exhausted | Failed | Cancelled | Refused => true
  | Idle | Triggering | Polling | Stalled => false
  end.

(** How many timers, status queries and triggers the event loop holds for
    [sid]. *)
Definition n_timers (sid : nat) (w : Hook) : nat := length (timers_of sid w).
Definition n_polls (sid : nat) (w : Hook) : nat := length (polls_in_flight sid w).
Definition n_triggers (sid : nat) (w : Hook) : nat := length (triggers_in_flight sid w).

(** ** The invariant of the event loop *)

(** Whatever the events were: the event loop holds at most one thing for a
    session (a timer, a status query or the trigger); it holds nothing for a
    session not yet created; and while a trigger is pending its session has
    polled nothing. *)
Record wf (w : Hook) : Prop := {
  wf_pending : ∀ sid, pending sid w ≤ 1;
  wf_fresh : ∀ sid,
    length (sessions w) ≤ sid → pending sid w = 0 ∧ poll_calls sid w = 0;
  wf_trigger : ∀ sid,
    0 < n_triggers sid w → poll_calls sid w = 0 ∧ 0 < trigger_calls sid w
}.

(** ** An undisturbed polling session *)

(** The position of the timer of [sid] in the host's timer queue. *)
Definition timer_pos (sid : nat) (w : Hook) : option nat :=
  fst <$> list_find (λ t, timer_session t = sid) (timers w).

(** The position of the pending status query of [sid]'s poller. *)
Definition poll_pos (sid : nat) (w : Hook) : option nat :=
  fst <$> list_find (λ rq, rq = ReqStatusPoll sid) (inflight w).

(** One polling attempt of [sid]: its timer fires, and the status query the
    callback makes settles with [o].  Nothing happens when the session has
    no timer. *)
Definition attempt (p : UsePrePackagedRuleProps) (sid : nat) (o : Settlement)
    (w : Hook) : Hook :=
  match timer_pos sid w with
  | None => w
  | Some i =>
      let w1 := step p w (TimerFires i) in
      match poll_pos sid w1 with
      | None => w1
      | Some j => step p w1 (Settles j o)
      end
  end.

(** Successive attempts, the k-th status query settling with the k-th
    element of [os]. *)
Definition poll (p : UsePrePackagedRuleProps) (sid : nat) (os : list Settlement)
    (w : Hook) : Hook :=
  foldl (λ w o, attempt p sid o w) w os.

(** The poller of [sid] waits for its timer, having made [i] queries. *)
Record armed (sid i : nat) (w : Hook) : Prop := {
  armed_subscribed : isSubscribed w = true;
  armed_session : ∃ s, sessions w !! sid = Some s
    ∧ iterationTryOfFetchingPrePackagedCount s = i ∧ resolved s = None;
  armed_timer : n_timers sid w = 1;
  armed_polls : n_polls sid w = 0;
  armed_triggers : n_triggers sid w = 0;
  armed_calls : poll_calls sid w = i
}.

(** The poller of [sid] has stopped on the answer [r], having made [n]
    queries. *)
Record stopped (sid n : nat) (r : PrePackagedRulesStatusResponse) (w : Hook)
    : Prop := {
  stopped_session : ∃ s, sessions w !! sid = Some s
    ∧ resolved s = Some true ∧ prePackagedRuleStatusResponse s = Some r;
  stopped_status : prepackagedDataStatus w = status_of_response r;
  stopped_loading : loadingCreatePrePackagedRules w = false;
  stopped_pending : pending sid w = 0;
  stopped_calls : poll_calls sid w = n
}.

(** ** Timer identifiers *)

(** Timer identifiers: the host hands out fresh positive identifiers, every
    [timeoutId] is one of them or still [-1], and a registered timer whose
    identifier a session holds in [timeoutId] is that session's own. *)
Record ids_ok (w : Hook) : Prop := {
  ids_next : (0 < nextTimeoutId w)%Z;
  ids_timers : ∀ t, t ∈ timers w → (0 < timer_id t < nextTimeoutId w)%Z;
  ids_sessions : ∀ i s,
    sessions w !! i = Some s → (timeoutId s < nextTimeoutId w)%Z;
  ids_owner : ∀ t i s,
    t ∈ timers w → sessions w !! i = Some s →
    timer_id t = timeoutId s → timer_session t = i
}.

(** ** Sessions among other events *)

(** An event that is neither the cleanup nor one of session [sid]'s own
    (its timer firing, its trigger or its status query settling). *)
Definition foreign (sid : nat) (w : Hook) (e : Event) : bool :=
  match e with
  | CallCreatePrePackagedRules | CallRefetchPrePackagedRulesStatus => true
  | TimerFires pos =>
      match timers w !! pos with
      | Some t => bool_decide (timer_session t ≠ sid)
      | None => true
      end
  | Settles pos _ =>
      match inflight w !! pos with
      | Some rq =>
          bool_decide (rq ≠ ReqStatusPoll sid ∧ rq ≠ ReqCreatePrepackagedRules sid)
      | None => true
      end
  | Cleanup => false
  end.

(** What a session owns and reads: its variables, its entries in the
    host's queues, the calls its poller made, and the subscription flag. *)
Definition same_for (sid : nat) (w w' : Hook) : Prop :=
  sessions w' !! sid = sessions w !! sid
  ∧ n_timers sid w' = n_timers sid w
  ∧ n_polls sid w' = n_polls sid w
  ∧ n_triggers sid w' = n_triggers sid w
  ∧ poll_calls sid w' = poll_calls sid w
  ∧ isSubscribed w' = isSubscribed w.

(** The poller of [sid] awaits the answer of its [i]-th status query. *)
Record awaiting (sid i : nat) (w : Hook) : Prop := {
  awaiting_subscribed : isSubscribed w = true;
  awaiting_session : ∃ s, sessions w !! sid = Some s
    ∧ iterationTryOfFetchingPrePackagedCount s = i ∧ resolved s = None;
  awaiting_timer : n_timers sid w = 0;
  awaiting_polls : n_polls sid w = 1;
  awaiting_triggers : n_triggers sid w = 0;
  awaiting_calls : poll_calls sid w = i
}.

(** The session of [sid] is over: its promise is settled with [true] on the
    answer [r], after [n] status queries, and the event loop holds nothing
    for it. *)
Record settled (sid n : nat) (r : PrePackagedRulesStatusResponse) (w : Hook)
    : Prop := {
  settled_session : ∃ s, sessions w !! sid = Some s
    ∧ resolved s = Some true ∧ prePackagedRuleStatusResponse s = Some r;
  settled_pending : pending sid w = 0;
  settled_calls : poll_calls sid w = n
}.

(** [session_run p sid w os w']: the event loop goes from [w] to [w'] by
    events foreign to [sid], by timers of [sid] firing and by status queries
    of [sid]'s poller settling; [os] is how these queries settle, in order.
    The cleanup does not run. *)
Inductive session_run (p : UsePrePackagedRuleProps) (sid : nat)
  : Hook → list Settlement → Hook → Prop :=
| run_done (w : Hook) : session_run p sid w [] w
| run_foreign (w : Hook) (e : Event) (os : list Settlement) (w' : Hook) :
    foreign sid w e = true →
    session_run p sid (step p w e) os w' →
    session_run p sid w os w'
| run_timer (w : Hook) (pos : nat) (t : Timer) (os : list Settlement) (w' : Hook) :
    timers w !! pos = Some t → timer_session t = sid →
    session_run p sid (step p w (TimerFires pos)) os w' →
    session_run p sid w os w'
| run_answer (w : Hook) (pos : nat) (o : Settlement) (os : list Settlement)
    (w' : Hook) :
    inflight w !! pos = Some (ReqStatusPoll sid) →
    session_run p sid (step p w (Settles pos o)) os w' →
    session_run p sid w (o :: os) w'.

(** The answers received by the poller of [sid] along [evs], when every
    event of [evs] is foreign to [sid], the firing of a timer of [sid] or the
    settlement of a status query of its poller; [None] otherwise. *)
Fixpoint own_answers (p : UsePrePackagedRuleProps) (sid : nat) (w : Hook)
    (evs : list Event) : option (list Settlement) :=
  match evs with
  | [] => Some []
  | e :: evs' =>
      let rest := own_answers p sid (step p w e) evs' in
      if foreign sid w e then rest
      else
        match e with
        | TimerFires _ => rest
        | Settles pos o =>
            if bool_decide (inflight w !! pos = Some (ReqStatusPoll sid))
            then (o ::.) <$> rest
            else None
        | _ => None
        end
  end.

(** The poller of [sid] has received [n] answers and goes on: it waits for
    its timer, or for the answer of query [n + 1]. *)
Definition polling (sid n : nat) (w : Hook) : Prop :=
  armed sid n w ∨ awaiting sid (S n) w.

(** ** What the hook returns *)

(** [ReturnPrePackagedRulesAndTimelines]: the object returned by the hook,
    [{ loading, loadingCreatePrePackagedRules, ...prepackagedDataStatus }]. *)
Module Return.
Record t := {
  loading : bool;
  loadingCreatePrePackagedRules : bool;
  createPrePackagedRules : option Closure;
  refetchPrePackagedRulesStatus : option Closure;
  rulesCustomInstalled : option Z;
  rulesInstalled : option Z;
  rulesNotInstalled : option Z;
  rulesNotUpdated : option Z;
  timelinesInstalled : option Z;
  timelinesNotInstalled : option Z;
  timelinesNotUpdated : option Z
}.
End Return.

(** The [return] statement of [usePrePackagedRules]. *)
Definition usePrePackagedRules (w : Hook) : Return.t :=
  {| Return.loading := loading w;
     Return.loadingCreatePrePackagedRules := loadingCreatePrePackagedRules w;
     Return.createPrePackagedRules :=
       createPrePackagedRules (prepackagedDataStatus w);
     Return.refetchPrePackagedRulesStatus :=
       refetchPrePackagedRulesStatus (prepackagedDataStatus w);
     Return.rulesCustomInstalled := rulesCustomInstalled (prepackagedDataStatus w);
     Return.rulesInstalled := rulesInstalled (prepackagedDataStatus w);
     Return.rulesNotInstalled := rulesNotInstalled (prepackagedDataStatus w);
     Return.rulesNotUpdated := rulesNotUpdated (prepackagedDataStatus w);
     Return.timelinesInstalled := timelinesInstalled (prepackagedDataStatus w);
     Return.timelinesNotInstalled := timelinesNotInstalled (prepackagedDataStatus w);
     Return.timelinesNotUpdated := timelinesNotUpdated (prepackagedDataStatus w) |}.

(** The promises handed out so far, in order of invocation: pending
    ([None]) or settled with a value. *)
Definition promises (w : Hook) : list (option bool) := resolved <$> sessions w.

(** Events in which no consumer takes part: timers, settlements, cleanup. *)
Definition passive (e : Event) : bool :=
  match e with
  | TimerFires _ | Settles _ _ | Cleanup => true
  | CallCreatePrePackagedRules | CallRefetchPrePackagedRulesStatus => false
  end.

(** The event is the firing of a registered timer. *)
Definition fires (w : Hook) (e : Event) : bool :=
  match e with
  | TimerFires pos => bool_decide (is_Some (timers w !! pos))
  | _ => false
  end.

(** Every event of [evs] is foreign to [sid] in the state it happens in. *)
Fixpoint all_foreign (p : UsePrePackagedRuleProps) (sid : nat) (w : Hook)
    (evs : list Event) : bool :=
  match evs with
  | [] => true
  | e :: evs' => foreign sid w e && all_foreign p sid (step p w e) evs'
  end.

(** ** Accounting *)

(** What each invocation of [createElasticRules] has used up: its counter
    is the number of status queries its poller made; it called
    [createPrepackagedRules] at most once, and not before it existed; it
    has a timer or a status query only after that call; its promise is
    pending as long as the event loop holds something for it; and while the
    hook is subscribed, a timer is registered only below the budget of 101
    queries. *)
Record acct (w : Hook) : Prop := {
  acct_iteration : ∀ sid s,
    sessions w !! sid = Some s →
    iterationTryOfFetchingPrePackagedCount s = poll_calls sid w;
  acct_trigger : ∀ sid, trigger_calls sid w ≤ 1;
  acct_fresh : ∀ sid, length (sessions w) ≤ sid → trigger_calls sid w = 0;
  acct_polled : ∀ sid,
    0 < poll_calls sid w + n_timers sid w + n_polls sid w →
    0 < trigger_calls sid w;
  acct_pending : ∀ sid s,
    sessions w !! sid = Some s → 0 < pending sid w → resolved s = None;
  acct_budget : ∀ sid,
    isSubscribed w = true → poll_calls sid w + n_timers sid w ≤ 101
}.

#[global] Instance Translation_eq_dec : EqDecision Translation.
Proof. solve_decision. Defined.

#[global] Instance Toast_eq_dec : EqDecision Toast.
Proof. solve_decision. Defined.

(** Toasts of one kind dispatched so far. *)
Definition toasts_of (t : Toast) (w : Hook) : nat :=
  length (filter (λ x, x = t) (toasts w)).

(** Promises settled with [v] so far. *)
Definition settled_with (v : bool) (w : Hook) : nat :=
  length (filter (λ s, resolved s = Some v) (sessions w)).

(** The hook of a user for whom the guard is closed: nothing but status
    fetches was ever asked of the API, no timer is registered, and every
    promise handed out is settled with [false]. *)
Record refusing (w : Hook) : Prop := {
  refusing_timers : timers w = [];
  refusing_inflight : Forall (λ rq, rq = ReqStatusFetch) (inflight w);
  refusing_calls : Forall (λ c, call_request c = ReqStatusFetch) (apiCalls w);
  refusing_loading : loadingCreatePrePackagedRules w = false;
  refusing_promises : Forall (λ v, v = Some false) (promises w);
  refusing_toasts :
    Forall (λ t, t = ErrorToast RULE_AND_TIMELINE_FETCH_FAILURE) (toasts w)
}.

(** The toaster and the promises agree: one success toast for each promise
    settled with [true], one failure toast of the trigger for each promise
    settled with [false]. *)
Definition tally (w : Hook) : Prop :=
  toasts_of (SuccessToast RULE_AND_TIMELINE_PREPACKAGED_SUCCESS) w
  = settled_with true w
  ∧ toasts_of (ErrorToast RULE_AND_TIMELINE_PREPACKAGED_FAILURE) w
    = settled_with false w.

(** What a settled promise tells: [true] was given on a status answer with
    nothing left, or on the answer of the 101st query; [false] was given
    without any status query, after the one call of
    [createPrepackagedRules] the guard let through, or without any call
    when the guard is closed. *)
Definition meaning (p : UsePrePackagedRuleProps) (w : Hook) : Prop :=
  ∀ sid s, sessions w !! sid = Some s →
    match resolved s with
    | None => True
    | Some true =>
        ∃ r, prePackagedRuleStatusResponse s = Some r
             ∧ (nothing_left r = true ∨ poll_calls sid w = 101)
    | Some false =>
        poll_calls sid w = 0
        ∧ trigger_calls sid w = if guard_open p then 1 else 0
    end.

(** ** Concrete inputs *)

(** All five inputs [true]. *)
Definition all_granted : UsePrePackagedRuleProps :=
  {| canUserCRUD := Some true; hasIndexWrite := Some true;
     isAuthenticated := Some true; hasEncryptionKey := Some true;
     isSignalIndexExists := Some true |}.

(** The user may not edit rules; the other four inputs are [true]. *)
Definition read_only : UsePrePackagedRuleProps :=
  {| canUserCRUD := Some false; hasIndexWrite := Some true;
     isAuthenticated := Some true; hasEncryptionKey := Some true;
     isSignalIndexExists := Some true |}.

(** A status answer with [n] rules not installed and nothing else pending. *)
Definition answer (n : Z) : PrePackagedRulesStatusResponse :=
  {| rules_custom_installed := 0; rules_installed := 0;
     rules_not_installed := n; rules_not_updated := 0;
     timelines_installed := 0; timelines_not_installed := 0;
     timelines_not_updated := 0 |}.

(** The hook once the status query of the mount has answered (3 rules not
    installed): the record now hands out the two callbacks. *)
Definition mounted : Hook :=
  step all_granted mount (Settles 0 (Fulfilled (answer 3))).

(** A consumer has asked for a refetch of the status. *)
Definition refetching : Hook :=
  step all_granted mounted CallRefetchPrePackagedRulesStatus.

(** A consumer has invoked [createPrePackagedRules]: the trigger of session
    0 is pending, at position 0. *)
Abbreviation triggered :=
  (run all_granted mount
     [Settles 0 (Fulfilled (answer 3)); CallCreatePrePackagedRules])
  (only parsing).

(** The same once the trigger has resolved: session 0 waits for its first
    timer. *)
Abbreviation started :=
  (step all_granted triggered (Settles 0 (Fulfilled (answer 0))))
  (only parsing).

(** A busy stretch of the event loop after [started]: the first timer of
    session 0 fires; a consumer asks for a refetch; the first status query
    of session 0 is answered with 2 rules left; the refetch is answered; a
    second invocation of [createElasticRules] starts; the second timer of
    session 0 fires and its query is answered with 1 rule left; the third
    timer fires. *)
Definition busy_stretch : list Event :=
  [TimerFires 0;
   CallRefetchPrePackagedRulesStatus;
   Settles 0 (Fulfilled (answer 2));
   Settles 0 (Fulfilled (answer 2));
   CallCreatePrePackagedRules;
   TimerFires 0;
   Settles 1 (Fulfilled (answer 1));
   TimerFires 0].

(** One hundred undisturbed attempts of session 0 after [started], each
    answered with 1 rule left. *)
Definition hundred_attempts : list Event :=
  concat (replicate 100 [TimerFires 0; Settles 0 (Fulfilled (answer 1))]).

(** The hook after them, when the 101st timer of session 0 has fired. *)
Definition before_answer_101 : Hook :=
  run all_granted started (hundred_attempts ++ [TimerFires 0]).

(** From the mount to the first status query of session 0: the status
    fetch of the mount answers, a consumer invokes [createPrePackagedRules],
    the trigger resolves, the first timer fires. *)
Definition first_poll : list Event :=
  [Settles 0 (Fulfilled (answer 3));
   CallCreatePrePackagedRules;
   Settles 0 (Fulfilled (answer 0));
   TimerFires 0].

(** From the mount to the 101st status query of session 0, the first
    hundred answered with 1 rule left. *)
Definition to_query_101 : list Event :=
  [Settles 0 (Fulfilled (answer 3));
   CallCreatePrePackagedRules;
   Settles 0 (Fulfilled (answer 0))]
  ++ hundred_attempts ++ [TimerFires 0].

(** Two invocations side by side: both triggers have resolved, session 0
    holds timer 1 and session 1 holds timer 2. *)
Definition two_sessions : list Event :=
  [Settles 0 (Fulfilled (answer 3));
   CallCreatePrePackagedRules;
   CallCreatePrePackagedRules;
   Settles 0 (Fulfilled (answer 0));
   Settles 0 (Fulfilled (answer 0))].

(** The hook cleaned up while the first status query of session 0 is
    pending. *)
Definition unmounted_polling : Hook :=
  step all_granted (run all_granted mount first_poll) Cleanup.

(** * Proofs *)

Ltac unfold_counts :=
  unfold pending, n_timers, n_polls, n_triggers, poll_calls, trigger_calls,
    timers_of, polls_in_flight, triggers_in_flight in *.

Ltac unfold_ops :=
  unfold resume, createElasticRules_resume, reFetch_resume,
    fetchPrePackagedRules_resume, createElasticRules_call,
    fetchPrePackagedRules_call, reFetch_callback, assign_reFetch, reFetch,
    setTimeout, stopTimeOut, clearTimeout, call_api, cleanup, upd_session in *.

Ltac count_solve :=
  repeat case_decide; simplify_eq; unfold_counts; cbn in *;
  first [lia | congruence | done].

(** ** The initial status fetch *)

(** C10.  When the status query of [fetchPrePackagedRules] rejects while the
    hook is subscribed, one update replaces the whole status record by the
    all-[null] record (both callbacks and every counter, so no earlier
    snapshot survives), exactly one failure toast is appended to the sink
    and [loading] becomes [false]. *)
Theorem fetch_failure_resets_status
    (p : UsePrePackagedRuleProps) (w : Hook) (pos : nat) :
  isSubscribed w = true →
  inflight w !! pos = Some ReqStatusFetch →
  let w' := step p w (Settles pos Rejected) in
  prepackagedDataStatus w' =
    {| createPrePackagedRules := None;
       refetchPrePackagedRulesStatus := None;
       rulesCustomInstalled := None;
       rulesInstalled := None;
       rulesNotInstalled := None;
       rulesNotUpdated := None;
       timelinesInstalled := None;
       timelinesNotInstalled := None;
       timelinesNotUpdated := None |}
  ∧ toasts w' = toasts w ++ [ErrorToast RULE_AND_TIMELINE_FETCH_FAILURE]
  ∧ loading w' = false.
Proof.
  intros Hsub Hreq. cbn [step]. rewrite Hreq. cbn [resume].
  unfold fetchPrePackagedRules_resume. cbn. rewrite Hsub. cbn.
  rewrite Hsub. done.
Qed.

(** ** The guard of createElasticRules *)

Lemma guard_closed (p : UsePrePackagedRuleProps) :
  canUserCRUD p ≠ Some true ∨ hasIndexWrite p ≠ Some true
  ∨ isAuthenticated p ≠ Some true ∨ hasEncryptionKey p ≠ Some true
  ∨ isSignalIndexExists p ≠ Some true →
  guard_open p = false.
Proof.
  unfold guard_open, truthy.
  destruct (canUserCRUD p) as [[]|], (hasIndexWrite p) as [[]|],
    (isAuthenticated p) as [[]|], (hasEncryptionKey p) as [[]|],
    (isSignalIndexExists p) as [[]|]; cbn; intuition congruence.
Qed.

Lemma alter_snoc {A} (f : A → A) (l : list A) (x : A) :
  alter f (length l) (l ++ [x]) = l ++ [f x].
Proof.
  rewrite alter_app_r_alt by lia. by rewrite Nat.sub_diag.
Qed.

(** C9.  When one of the five inputs is [null] or [false], an invocation
    of [createElasticRules] settles its promise with [false] at once, calls
    nothing of the API module (neither the trigger nor a status query),
    registers no timer, and leaves the status record, both loading flags
    and the toaster as they were. *)
Theorem closed_guard_resolves_false (p : UsePrePackagedRuleProps) (w : Hook) :
  canUserCRUD p ≠ Some true ∨ hasIndexWrite p ≠ Some true
  ∨ isAuthenticated p ≠ Some true ∨ hasEncryptionKey p ≠ Some true
  ∨ isSignalIndexExists p ≠ Some true →
  let sid := length (sessions w) in
  let w' := step p w CallCreatePrePackagedRules in
  resolved <$> sessions w' !! sid = Some (Some false)
  ∧ apiCalls w' = apiCalls w
  ∧ inflight w' = inflight w
  ∧ timers w' = timers w
  ∧ prepackagedDataStatus w' = prepackagedDataStatus w
  ∧ loading w' = loading w
  ∧ loadingCreatePrePackagedRules w' = loadingCreatePrePackagedRules w
  ∧ toasts w' = toasts w
  ∧ take sid (sessions w') = sessions w.
Proof.
  intros Hp sid w'. subst sid w'. cbn [step].
  unfold createElasticRules_call. rewrite (guard_closed p Hp).
  unfold upd_session. cbn. rewrite alter_snoc.
  repeat split; try done.
  - by rewrite list_lookup_middle.
  - by rewrite take_app_length.
Qed.

(** ** Cleanup *)

Lemma cleanup_twice (w : Hook) : cleanup (cleanup w) = cleanup w.
Proof. done. Qed.

Lemma session_state_cleanup_terminal (sid : nat) (w : Hook) :
  terminal (session_state sid w) = true →
  session_state sid (cleanup w) = session_state sid w.
Proof.
  unfold session_state.
  change (sessions (cleanup w)) with (sessions w).
  change (trigger_calls sid (cleanup w)) with (trigger_calls sid w).
  change (triggers_in_flight sid (cleanup w)) with (triggers_in_flight sid w).
  change (timers_of sid (cleanup w)) with (timers_of sid w).
  change (polls_in_flight sid (cleanup w)) with (polls_in_flight sid w).
  change (isSubscribed (cleanup w)) with false.
  destruct (sessions w !! sid) as [s|]; [|done].
  destruct (resolved s) as [[]|]; [done..|].
  destruct (isSubscribed w); [|done]. cbn.
  destruct (triggers_in_flight sid w); [|done].
  by destruct (timers_of sid w), (polls_in_flight sid w).
Qed.

(** C8.  Running the cleanup twice gives the same hook as running it once;
    and for a session already in a terminal state the cleanup changes
    nothing that belongs to the session: its state, its variables, the
    status record, the loading flags, the toaster, the timers, the pending
    promises and the calls made all stay as they were. *)
Theorem cleanup_idempotent (p : UsePrePackagedRuleProps) (w : Hook) (sid : nat) :
  step p (step p w Cleanup) Cleanup = step p w Cleanup
  ∧ (terminal (session_state sid w) = true →
     session_state sid (step p w Cleanup) = session_state sid w)
  ∧ sessions (step p w Cleanup) = sessions w
  ∧ prepackagedDataStatus (step p w Cleanup) = prepackagedDataStatus w
  ∧ loading (step p w Cleanup) = loading w
  ∧ loadingCreatePrePackagedRules (step p w Cleanup) = loadingCreatePrePackagedRules w
  ∧ toasts (step p w Cleanup) = toasts w
  ∧ timers (step p w Cleanup) = timers w
  ∧ inflight (step p w Cleanup) = inflight w
  ∧ apiCalls (step p w Cleanup) = apiCalls w.
Proof.
  cbn [step]. split; [apply cleanup_twice|].
  split; [apply session_state_cleanup_terminal|done].
Qed.

(** ** Counting entries of the host's queues *)

Section filter_count.
Context {A : Type} (P : A → Prop) `{!∀ x, Decision (P x)}.

Lemma length_filter_snoc (l : list A) (x : A) :
  length (filter P (l ++ [x]))
  = length (filter P l) + (if decide (P x) then 1 else 0).
Proof.
  rewrite list.filter_app, length_app, filter_cons, filter_nil.
  by case_decide.
Qed.

Lemma length_filter_delete (l : list A) (i : nat) (x : A) :
  l !! i = Some x →
  length (filter P (delete i l)) + (if decide (P x) then 1 else 0)
  = length (filter P l).
Proof.
  intros Hi. rewrite <- (take_drop_middle l i x Hi) at 2.
  rewrite delete_take_drop, !list.filter_app, !length_app, filter_cons.
  case_decide; cbn; lia.
Qed.

Lemma length_filter_filter_le (Q : A → Prop) `{!∀ x, Decision (Q x)} (l : list A) :
  length (filter P (filter Q l)) ≤ length (filter P l).
Proof.
  induction l as [|x l IH]; [done|].
  rewrite !(filter_cons _ x).
  destruct (decide (Q x)), (decide (P x));
    rewrite ?filter_cons_True, ?filter_cons_False by done; cbn; lia.
Qed.

Lemma filter_nil_length (l : list A) : filter P l = [] ↔ length (filter P l) = 0.
Proof. by destruct (filter P l). Qed.
End filter_count.

Lemma pending_eq (sid : nat) (w : Hook) :
  pending sid w = n_timers sid w + n_polls sid w + n_triggers sid w.
Proof. done. Qed.

Lemma call_api_counts (rq : Request) (w : Hook) (sid : nat) :
  n_timers sid (call_api rq w) = n_timers sid w
  ∧ n_polls sid (call_api rq w)
    = n_polls sid w + (if decide (rq = ReqStatusPoll sid) then 1 else 0)
  ∧ n_triggers sid (call_api rq w)
    = n_triggers sid w + (if decide (rq = ReqCreatePrepackagedRules sid) then 1 else 0)
  ∧ poll_calls sid (call_api rq w)
    = poll_calls sid w + (if decide (rq = ReqStatusPoll sid) then 1 else 0)
  ∧ trigger_calls sid (call_api rq w)
    = trigger_calls sid w + (if decide (rq = ReqCreatePrepackagedRules sid) then 1 else 0)
  ∧ sessions (call_api rq w) = sessions w.
Proof.
  unfold n_timers, n_polls, n_triggers, poll_calls, trigger_calls,
    timers_of, polls_in_flight, triggers_in_flight, call_api. cbn.
  rewrite !length_filter_snoc. cbn. done.
Qed.

Lemma assign_reFetch_counts (s : nat) (w : Hook) (sid : nat) :
  n_timers sid (assign_reFetch s w)
  = n_timers sid w + (if decide (s = sid) then 1 else 0)
  ∧ n_polls sid (assign_reFetch s w) = n_polls sid w
  ∧ n_triggers sid (assign_reFetch s w) = n_triggers sid w
  ∧ poll_calls sid (assign_reFetch s w) = poll_calls sid w
  ∧ trigger_calls sid (assign_reFetch s w) = trigger_calls sid w
  ∧ length (sessions (assign_reFetch s w)) = length (sessions w).
Proof.
  unfold n_timers, n_polls, n_triggers, poll_calls, trigger_calls,
    timers_of, polls_in_flight, triggers_in_flight, assign_reFetch. cbn.
  rewrite length_filter_snoc, length_alter. cbn. done.
Qed.

Lemma stopTimeOut_counts (s : nat) (w : Hook) (sid : nat) :
  n_timers sid (stopTimeOut s w) ≤ n_timers sid w
  ∧ n_polls sid (stopTimeOut s w) = n_polls sid w
  ∧ n_triggers sid (stopTimeOut s w) = n_triggers sid w
  ∧ poll_calls sid (stopTimeOut s w) = poll_calls sid w
  ∧ trigger_calls sid (stopTimeOut s w) = trigger_calls sid w
  ∧ sessions (stopTimeOut s w) = sessions w.
Proof.
  unfold stopTimeOut. destruct (sessions w !! s) as [x|]; [|done].
  case_decide; [|done].
  unfold n_timers, n_polls, n_triggers, poll_calls, trigger_calls,
    timers_of, polls_in_flight, triggers_in_flight, clearTimeout. cbn.
  split; [|done]. apply length_filter_filter_le.
Qed.

Lemma delete_timer_counts (w : Hook) (pos : nat) (t : Timer) (sid : nat) :
  timers w !! pos = Some t →
  n_timers sid (set_timers (delete pos (timers w)) w)
  + (if decide (timer_session t = sid) then 1 else 0) = n_timers sid w.
Proof.
  intros Ht. unfold n_timers, timers_of. cbn.
  exact (length_filter_delete (λ t, timer_session t = sid) _ _ _ Ht).
Qed.

Lemma delete_request_counts (w : Hook) (pos : nat) (rq : Request) (sid : nat) :
  inflight w !! pos = Some rq →
  n_polls sid (set_inflight (delete pos (inflight w)) w)
  + (if decide (rq = ReqStatusPoll sid) then 1 else 0) = n_polls sid w
  ∧ n_triggers sid (set_inflight (delete pos (inflight w)) w)
    + (if decide (rq = ReqCreatePrepackagedRules sid) then 1 else 0)
    = n_triggers sid w.
Proof.
  intros Hrq. unfold n_polls, n_triggers, polls_in_flight, triggers_in_flight. cbn.
  split.
  - exact (length_filter_delete (λ rq, rq = ReqStatusPoll sid) _ _ _ Hrq).
  - exact (length_filter_delete (λ rq, rq = ReqCreatePrepackagedRules sid) _ _ _ Hrq).
Qed.

Lemma resume_counts (rq : Request) (o : Settlement) (w : Hook) (sid : nat) :
  n_timers sid (resume rq o w)
  ≤ n_timers sid w + (if decide (rq = ReqStatusPoll sid) then 1 else 0)
    + (if decide (rq = ReqCreatePrepackagedRules sid) then 1 else 0)
  ∧ n_polls sid (resume rq o w) = n_polls sid w
  ∧ n_triggers sid (resume rq o w) = n_triggers sid w
  ∧ poll_calls sid (resume rq o w) = poll_calls sid w
  ∧ trigger_calls sid (resume rq o w) = trigger_calls sid w
  ∧ length (sessions (resume rq o w)) = length (sessions w).
Proof.
  destruct w as [sub ab st lc ld ts ss tm nx fl ac ur].
  unfold_counts. unfold_ops. 
  destruct rq as [s|s|], o as [r|], sub; cbn;
    rewrite ?length_filter_snoc, ?length_alter; cbn;
    try (split_and!; first [done | count_solve]).
  all: destruct (ss !! s) as [x|] eqn:Hx; cbn;
    [|split_and!; first [done | count_solve]].
  all: try destruct (nothing_left r || _); cbn; rewrite ?length_filter_snoc, ?length_alter; cbn;
    try (split_and!; first [done | count_solve]).
  rewrite list_lookup_alter_eq, Hx. cbn.
  case_decide; cbn; rewrite ?length_alter; (split_and!; [|done..]).
  - etrans; [apply length_filter_filter_le|]. lia.
  - lia.
Qed.

Lemma create_counts (p : UsePrePackagedRuleProps) (w : Hook) (sid : nat) :
  n_timers sid (createElasticRules_call p w) = n_timers sid w
  ∧ n_polls sid (createElasticRules_call p w) = n_polls sid w
  ∧ n_triggers sid (createElasticRules_call p w)
    = n_triggers sid w
      + (if decide (guard_open p = true ∧ sid = length (sessions w)) then 1 else 0)
  ∧ poll_calls sid (createElasticRules_call p w) = poll_calls sid w
  ∧ trigger_calls sid (createElasticRules_call p w)
    = trigger_calls sid w
      + (if decide (guard_open p = true ∧ sid = length (sessions w)) then 1 else 0)
  ∧ length (sessions (createElasticRules_call p w)) = S (length (sessions w)).
Proof.
  destruct w as [sub ab st lc ld ts ss tm nx fl ac ur].
  unfold_counts. unfold_ops. cbn.
  destruct (guard_open p); cbn;
    rewrite ?length_filter_snoc, ?length_alter, ?length_app; cbn;
    split_and!; first [done | lia | count_solve | idtac].
  all: repeat case_decide; destruct_and?; simplify_eq; first [lia | done | idtac].
  all: exfalso; naive_solver.
Qed.

Lemma timer_counts (w : Hook) (pos : nat) (t : Timer) (sid : nat) :
  timers w !! pos = Some t →
  let w' := reFetch_callback (timer_session t) (set_timers (delete pos (timers w)) w) in
  let d := if decide (timer_session t = sid) then 1 else 0 in
  n_timers sid w' + d = n_timers sid w
  ∧ n_polls sid w' = n_polls sid w + d
  ∧ n_triggers sid w' = n_triggers sid w
  ∧ poll_calls sid w' = poll_calls sid w + d
  ∧ trigger_calls sid w' = trigger_calls sid w
  ∧ length (sessions w') = length (sessions w).
Proof.
  intros Ht w' d. subst w' d.
  pose proof (delete_timer_counts w pos t sid Ht) as Hd.
  destruct w as [sub ab st lc ld ts ss tm nx fl ac ur].
  unfold_counts. unfold_ops. cbn in *.
  rewrite ?length_filter_snoc, ?length_alter. cbn.
  split_and!; first [done | count_solve].
Qed.

(** ** The invariant of the event loop *)

Lemma wf_useEffect_start : wf useEffect_start.
Proof. split; intros sid; cbn; intros; lia. Qed.

Lemma wf_step (p : UsePrePackagedRuleProps) (w : Hook) (e : Event) :
  wf w → wf (step p w e).
Proof.
  intros [Hpend Hfresh Htrig].
  assert (∀ sid, n_timers sid w + n_polls sid w + n_triggers sid w ≤ 1) as Hp
    by (intros sid; apply Hpend).
  assert (∀ sid, length (sessions w) ≤ sid →
    n_timers sid w + n_polls sid w + n_triggers sid w = 0 ∧ poll_calls sid w = 0)
    as Hf by (intros sid; apply Hfresh).
  clear Hpend Hfresh.
  destruct e as [| |pos|pos o|]; cbn [step].
  - split; intros sid; rewrite ?pending_eq;
      destruct (create_counts p w sid) as (H1 & H2 & H3 & H4 & H5 & H6);
      specialize (Hp sid); specialize (Hf sid); specialize (Htrig sid);
      case_decide; destruct_and?; lia.
  - split; intros sid; rewrite ?pending_eq; unfold fetchPrePackagedRules_call;
      destruct (call_api_counts ReqStatusFetch (setLoading true w) sid)
        as (H1 & H2 & H3 & H4 & H5 & H6);
      change (n_timers sid (setLoading ?b w)) with (n_timers sid w) in *;
      change (n_polls sid (setLoading ?b w)) with (n_polls sid w) in *;
      change (n_triggers sid (setLoading ?b w)) with (n_triggers sid w) in *;
      change (poll_calls sid (setLoading ?b w)) with (poll_calls sid w) in *;
      change (trigger_calls sid (setLoading ?b w)) with (trigger_calls sid w) in *;
      change (sessions (setLoading ?b w)) with (sessions w) in *;
      rewrite ?H6;
      specialize (Hp sid); specialize (Hf sid); specialize (Htrig sid);
      repeat case_decide; simplify_eq; lia.
  - destruct (timers w !! pos) as [t|] eqn:Ht; [|by split].
    split; intros sid; rewrite ?pending_eq;
      destruct (timer_counts w pos t sid Ht) as (H1 & H2 & H3 & H4 & H5 & H6);
      specialize (Hp sid); specialize (Hf sid); specialize (Htrig sid);
      case_decide; lia.
  - destruct (inflight w !! pos) as [rq|] eqn:Hrq; [|by split].
    split; intros sid; rewrite ?pending_eq;
      destruct (delete_request_counts w pos rq sid Hrq) as (H1 & H2);
      destruct (resume_counts rq o (set_inflight (delete pos (inflight w)) w) sid)
        as (H3 & H4 & H5 & H6 & H7 & H8);
      change (n_timers sid (set_inflight ?l w)) with (n_timers sid w) in *;
      change (poll_calls sid (set_inflight ?l w)) with (poll_calls sid w) in *;
      change (trigger_calls sid (set_inflight ?l w)) with (trigger_calls sid w) in *;
      change (sessions (set_inflight ?l w)) with (sessions w) in *;
      specialize (Hp sid); specialize (Hf sid); specialize (Htrig sid);
      repeat case_decide; simplify_eq; lia.
  - split; intros sid; [apply Hp|apply Hf|apply Htrig].
Qed.

Lemma wf_mount : wf mount.
Proof. apply (wf_step (Build_UsePrePackagedRuleProps None None None None None)
  useEffect_start CallRefetchPrePackagedRulesStatus), wf_useEffect_start. Qed.

Lemma wf_run (p : UsePrePackagedRuleProps) (evs : list Event) (w : Hook) :
  wf w → wf (run p w evs).
Proof.
  revert w. induction evs as [|e evs IH]; intros w Hw; [done|].
  cbn. apply IH, wf_step, Hw.
Qed.

(** C6.  After any sequence of events following the mount of the effect,
    a session has at most one status query in flight and at most one timer
    registered, and never both: a timer is registered only once the previous
    query has settled, and a query is made only by the timer that fired. *)
Theorem one_query_at_a_time
    (p : UsePrePackagedRuleProps) (evs : list Event) (sid : nat) :
  length (polls_in_flight sid (run p mount evs)) ≤ 1
  ∧ length (timers_of sid (run p mount evs)) ≤ 1
  ∧ length (timers_of sid (run p mount evs))
    + length (polls_in_flight sid (run p mount evs)) ≤ 1.
Proof.
  pose proof (wf_pending _ (wf_run p evs mount wf_mount) sid) as H.
  rewrite pending_eq in H. unfold n_timers, n_polls, n_triggers in H. lia.
Qed.

(** ** Reading the session state *)

Lemma session_state_Triggering (sid : nat) (w : Hook) :
  session_state sid w = Triggering →
  ∃ s, sessions w !! sid = Some s ∧ resolved s = None
       ∧ isSubscribed w = true ∧ 0 < n_triggers sid w.
Proof.
  unfold session_state, n_triggers.
  destruct (sessions w !! sid) as [s|] eqn:Hs; [|done].
  destruct (resolved s) as [[]|] eqn:Hres; [by repeat case_match..|].
  destruct (isSubscribed w) eqn:Hsub; [|done]. cbn.
  destruct (triggers_in_flight sid w).
  - by destruct (timers_of sid w), (polls_in_flight sid w).
  - intros _. exists s. cbn. split_and!; (done || lia).
Qed.

Lemma session_state_Polling (sid : nat) (w : Hook) :
  session_state sid w = Polling →
  ∃ s, sessions w !! sid = Some s ∧ resolved s = None
       ∧ isSubscribed w = true ∧ n_triggers sid w = 0
       ∧ 0 < n_timers sid w + n_polls sid w.
Proof.
  unfold session_state, n_triggers, n_timers, n_polls.
  destruct (sessions w !! sid) as [s|] eqn:Hs; [|done].
  destruct (resolved s) as [[]|] eqn:Hres; [by repeat case_match..|].
  destruct (isSubscribed w) eqn:Hsub; [|done]. cbn.
  destruct (triggers_in_flight sid w); [|done].
  destruct (timers_of sid w), (polls_in_flight sid w); [done|..];
    intros _; exists s; cbn; split_and!; (done || lia).
Qed.

Lemma nothing_left_spec (r : PrePackagedRulesStatusResponse) :
  nothing_left r = true
  ↔ rules_not_installed r = 0%Z ∧ rules_not_updated r = 0%Z
    ∧ timelines_not_installed r = 0%Z ∧ timelines_not_updated r = 0%Z.
Proof.
  unfold nothing_left. rewrite !andb_true_iff, !Z.eqb_eq. tauto.
Qed.

(** ** Failure of the trigger *)

(** C5.  In any hook reached from the mount, when the trigger
    [createPrepackagedRules] of a session in state Triggering rejects, the
    session is Failed at once: its promise is settled with [false], the
    event loop holds nothing more for it, its poller has made no status
    query, exactly one failure toast is appended to the sink and the
    creation spinner is switched off. *)
Theorem trigger_failure_fails_session
    (p : UsePrePackagedRuleProps) (evs : list Event) (pos sid : nat) :
  session_state sid (run p mount evs) = Triggering →
  inflight (run p mount evs) !! pos = Some (ReqCreatePrepackagedRules sid) →
  let w := run p mount evs in
  let w' := step p w (Settles pos Rejected) in
  session_state sid w' = Failed
  ∧ resolved <$> sessions w' !! sid = Some (Some false)
  ∧ pending sid w' = 0
  ∧ poll_calls sid w' = 0
  ∧ toasts w' = toasts w ++ [ErrorToast RULE_AND_TIMELINE_PREPACKAGED_FAILURE]
  ∧ loadingCreatePrePackagedRules w' = false.
Proof.
  intros Hst Hrq w w'. subst w'.
  assert (wf w) as Hwf by apply wf_run, wf_mount.
  fold w in Hst, Hrq. clearbody w.
  destruct (session_state_Triggering _ _ Hst) as (s & Hs & Hres & Hsub & Hn).
  destruct (wf_trigger _ Hwf sid Hn) as [Hpc Htc].
  pose proof (wf_pending _ Hwf sid) as Hp. rewrite pending_eq in Hp.
  destruct (delete_request_counts w pos _ sid Hrq) as (H1 & H2).
  cbn [step]. rewrite Hrq. cbn [resume].
  unfold createElasticRules_resume. cbn [isSubscribed set_inflight].
  rewrite Hsub.
  assert (∀ w0, sessions w0 = sessions w →
    sessions (upd_session sid (resolve false) w0) !! sid
    = Some (resolve false s)) as Hlook.
  { intros w0 Hw0. unfold upd_session. cbn. by rewrite Hw0, list_lookup_alter_eq, Hs. }
  split_and!.
  - unfold session_state. rewrite Hlook by done.
    unfold resolve at 1. cbn. rewrite Hres.
    unfold trigger_calls in Htc. by destruct (length _); [lia|].
  - rewrite Hlook by done. cbn. by rewrite Hres.
  - rewrite pending_eq.
    change (n_timers sid (upd_session ?a ?b ?c)) with (n_timers sid w).
    change (n_polls sid (upd_session ?a ?b ?c))
      with (n_polls sid (set_inflight (delete pos (inflight w)) w)).
    change (n_triggers sid (upd_session ?a ?b ?c))
      with (n_triggers sid (set_inflight (delete pos (inflight w)) w)).
    repeat case_decide; simplify_eq; lia.
  - exact Hpc.
  - done.
  - done.
Qed.

(** Subscribed or not, a session whose trigger rejects never polls: it has
    made no status query and the event loop holds nothing more for it. *)
Lemma trigger_failure_never_polls
    (p : UsePrePackagedRuleProps) (evs : list Event) (pos sid : nat) :
  inflight (run p mount evs) !! pos = Some (ReqCreatePrepackagedRules sid) →
  poll_calls sid (step p (run p mount evs) (Settles pos Rejected)) = 0
  ∧ pending sid (step p (run p mount evs) (Settles pos Rejected)) = 0.
Proof.
  intros Hrq.
  assert (wf (run p mount evs)) as Hwf by apply wf_run, wf_mount.
  set (w := run p mount evs) in *. clearbody w.
  destruct (delete_request_counts w pos _ sid Hrq) as (H1 & H2).
  rewrite decide_False in H1 by done. rewrite decide_True in H2 by done.
  destruct (wf_trigger _ Hwf sid) as [Hpc _]; [lia|].
  pose proof (wf_pending _ Hwf sid) as Hp. rewrite pending_eq in Hp.
  cbn [step]. rewrite Hrq. cbn [resume]. unfold createElasticRules_resume.
  cbn [isSubscribed set_inflight]. rewrite pending_eq.
  destruct (isSubscribed w).
  - change (poll_calls sid (upd_session ?a ?b ?c)) with (poll_calls sid w).
    change (n_timers sid (upd_session ?a ?b ?c)) with (n_timers sid w).
    change (n_polls sid (upd_session ?a ?b ?c))
      with (n_polls sid (set_inflight (delete pos (inflight w)) w)).
    change (n_triggers sid (upd_session ?a ?b ?c))
      with (n_triggers sid (set_inflight (delete pos (inflight w)) w)).
    lia.
  - change (poll_calls sid (set_inflight ?l w)) with (poll_calls sid w).
    change (n_timers sid (set_inflight ?l w)) with (n_timers sid w).
    lia.
Qed.

(** ** One answer of the status query *)

Lemma reFetch_resume_stop (sid : nat) (r : PrePackagedRulesStatusResponse)
    (s : Session) (w : Hook) :
  sessions w !! sid = Some s →
  isSubscribed w = true →
  nothing_left r || (100 <? iterationTryOfFetchingPrePackagedCount s) = true →
  let w' := reFetch_resume sid (Fulfilled r) w in
  sessions w' !! sid = Some (resolve true (set_response r s))
  ∧ prepackagedDataStatus w' = status_of_response r
  ∧ loadingCreatePrePackagedRules w' = false
  ∧ toasts w' = toasts w ++ [SuccessToast RULE_AND_TIMELINE_PREPACKAGED_SUCCESS]
  ∧ n_timers sid w' ≤ n_timers sid w
  ∧ inflight w' = inflight w
  ∧ apiCalls w' = apiCalls w
  ∧ isSubscribed w' = true.
Proof.
  intros Hs Hsub Hc. destruct w as [sub ab st lc ld ts ss tm nx fl ac ur].
  cbn [sessions isSubscribed] in Hs, Hsub. subst sub. unfold_counts. unfold_ops.
  cbn -[Nat.ltb nothing_left]. rewrite Hs. cbn -[Nat.ltb nothing_left].
  rewrite Hc. cbn. rewrite (list_lookup_alter_eq (set_response r) ss sid), Hs. cbn.
  case_decide; cbn; rewrite !list_lookup_alter_eq, Hs; cbn;
    split_and!; try done.
  apply length_filter_filter_le.
Qed.

Lemma reFetch_resume_again (sid : nat) (r : PrePackagedRulesStatusResponse)
    (s : Session) (w : Hook) :
  sessions w !! sid = Some s →
  isSubscribed w && (nothing_left r || (100 <? iterationTryOfFetchingPrePackagedCount s))
  = false →
  let w' := reFetch_resume sid (Fulfilled r) w in
  sessions w' !! sid = Some (set_timeoutId (nextTimeoutId w) (set_response r s))
  ∧ prepackagedDataStatus w' = prepackagedDataStatus w
  ∧ loadingCreatePrePackagedRules w' = loadingCreatePrePackagedRules w
  ∧ toasts w' = toasts w
  ∧ n_timers sid w' = S (n_timers sid w)
  ∧ inflight w' = inflight w
  ∧ apiCalls w' = apiCalls w
  ∧ isSubscribed w' = isSubscribed w.
Proof.
  intros Hs Hc. destruct w as [sub ab st lc ld ts ss tm nx fl ac ur].
  cbn [sessions isSubscribed] in Hs, Hc. unfold_counts. unfold_ops.
  cbn -[Nat.ltb nothing_left]. rewrite Hs. cbn -[Nat.ltb nothing_left].
  rewrite Hc. cbn. rewrite !list_lookup_alter_eq, Hs, length_filter_snoc. cbn.
  split_and!; try done. case_decide; [lia|done].
Qed.

Lemma session_state_polling_intro (sid : nat) (w : Hook) (s : Session) :
  sessions w !! sid = Some s → resolved s = None → isSubscribed w = true →
  n_triggers sid w = 0 → 0 < n_timers sid w + n_polls sid w →
  session_state sid w = Polling.
Proof.
  unfold session_state, n_triggers, n_timers, n_polls.
  intros -> -> -> Hg Hn. cbn.
  destruct (triggers_in_flight sid w); [|done].
  destruct (timers_of sid w), (polls_in_flight sid w); cbn in *; (done || lia).
Qed.

Lemma session_state_resolved_true (sid : nat) (w : Hook) (s : Session)
    (r : PrePackagedRulesStatusResponse) :
  sessions w !! sid = Some s → resolved s = Some true →
  prePackagedRuleStatusResponse s = Some r →
  session_state sid w = if nothing_left r then Converged else Exhausted.
Proof. unfold session_state. by intros -> -> ->. Qed.

(** C7.  For a session in state Polling whose counter is within the budget
    of 100, the answer [r] of its status query ends the session as Converged
    exactly when the four counters [rules_not_installed], [rules_not_updated],
    [timelines_not_installed] and [timelines_not_updated] of [r] are all 0;
    exactly then its promise is settled (with [true]); with any of them
    nonzero the session stays Polling. *)
Theorem converges_iff_nothing_left
    (p : UsePrePackagedRuleProps) (w : Hook) (pos sid : nat) (s : Session)
    (r : PrePackagedRulesStatusResponse) :
  session_state sid w = Polling →
  inflight w !! pos = Some (ReqStatusPoll sid) →
  sessions w !! sid = Some s →
  iterationTryOfFetchingPrePackagedCount s ≤ 100 →
  let w' := step p w (Settles pos (Fulfilled r)) in
  let zero :=
    rules_not_installed r = 0%Z ∧ rules_not_updated r = 0%Z
    ∧ timelines_not_installed r = 0%Z ∧ timelines_not_updated r = 0%Z in
  (session_state sid w' = Converged ↔ zero)
  ∧ (resolved <$> sessions w' !! sid = Some (Some true) ↔ zero)
  ∧ (¬ zero → session_state sid w' = Polling).
Proof.
  intros Hst Hrq Hs Hn w' zero.
  destruct (session_state_Polling _ _ Hst) as (s' & Hs' & Hres & Hsub & Hg & _).
  rewrite Hs in Hs'. injection Hs' as <-.
  destruct (delete_request_counts w pos _ sid Hrq) as (_ & Hd).
  set (w1 := set_inflight (delete pos (inflight w)) w) in *.
  assert (w' = reFetch_resume sid (Fulfilled r) w1) as ->.
  { subst w'. cbn [step]. by rewrite Hrq. }
  assert (zero ↔ nothing_left r = true) as Hz by (symmetry; apply nothing_left_spec).
  destruct (nothing_left r) eqn:Hr.
  - destruct (reFetch_resume_stop sid r s w1 Hs Hsub)
      as (Hs1 & _); [by rewrite Hr|].
    rewrite (session_state_resolved_true sid _ _ r Hs1), Hr, Hs1; cbn;
      rewrite ?Hres; try done.
    split_and!; [tauto..|]. intros Hnz. exfalso. tauto.
  - destruct (reFetch_resume_again sid r s w1 Hs)
      as (Hs1 & _ & _ & _ & Ht & Hfl & _ & Hsub1).
    { change (isSubscribed w1) with (isSubscribed w). rewrite Hsub, Hr. cbn [andb orb].
      apply Nat.ltb_ge. lia. }
    assert (session_state sid (reFetch_resume sid (Fulfilled r) w1) = Polling) as Hpoll.
    { eapply session_state_polling_intro; [exact Hs1|done|by rewrite Hsub1| |rewrite Ht; lia].
      unfold n_triggers, triggers_in_flight in *. rewrite Hfl.
      case_decide; [done|]. lia. }
    rewrite Hpoll, Hs1. cbn. rewrite Hres.
    split_and!; [split; [done|intros Hzero; apply Hz in Hzero; done]..|done].
Qed.

Lemma list_find_filter_pos {A} (P : A → Prop) `{!∀ x, Decision (P x)} (l : list A) :
  0 < length (filter P l) →
  ∃ i x, list_find P l = Some (i, x) ∧ l !! i = Some x ∧ P x.
Proof.
  intros Hn. destruct (filter P l) as [|x l'] eqn:Hf; [cbn in Hn; lia|].
  assert (x ∈ filter P l) as Hx by (rewrite Hf; left).
  apply list_elem_of_filter in Hx as [HP Hx].
  destruct (list_find_elem_of P l x Hx HP) as [[i y] Hfind].
  exists i, y. split; [done|]. by apply list_find_Some in Hfind as (? & ? & _).
Qed.

Lemma list_find_filter_nil {A} (P : A → Prop) `{!∀ x, Decision (P x)} (l : list A) :
  length (filter P l) = 0 → list_find P l = None.
Proof.
  intros Hn. apply list_find_None, list.Forall_forall. intros x Hx HP.
  apply (filter_nil_not_elem_of P l x); [apply filter_nil_length; exact Hn|exact HP|exact Hx].
Qed.

(** ** Timer identifiers *)

Lemma ids_ok_weaken (w w' : Hook) :
  ids_ok w →
  nextTimeoutId w' = nextTimeoutId w →
  (∀ t, t ∈ timers w' → t ∈ timers w) →
  (∀ i s', sessions w' !! i = Some s' →
     timeoutId s' = (-1)%Z
     ∨ ∃ s, sessions w !! i = Some s ∧ timeoutId s' = timeoutId s) →
  ids_ok w'.
Proof.
  intros [Hn Ht Hs Ho] Hnext Htm Hss. split.
  - by rewrite Hnext.
  - intros t Hin. rewrite Hnext. by apply Ht, Htm.
  - intros i s' Hi. rewrite Hnext.
    destruct (Hss i s' Hi) as [->|(s & Hsi & ->)]; [lia|by eapply Hs].
  - intros t i s' Hin Hi Heq. apply Htm in Hin.
    destruct (Hss i s' Hi) as [Hm|(s & Hsi & Hes)].
    + specialize (Ht t Hin). lia.
    + eapply Ho; [done..|congruence].
Qed.

Lemma ids_ok_upd_session (sid : nat) (f : Session → Session) (w : Hook) :
  (∀ s, timeoutId (f s) = timeoutId s ∨ timeoutId (f s) = (-1)%Z) →
  ids_ok w → ids_ok (upd_session sid f w).
Proof.
  intros Hf Hw. apply (ids_ok_weaken w); [done|done|done|].
  intros i s'. unfold upd_session. cbn.
  destruct (decide (sid = i)) as [->|Hne].
  - rewrite list_lookup_alter_eq. destruct (sessions w !! i) as [s|] eqn:Hs; [|done].
    cbn. intros [= <-]. destruct (Hf s) as [He|He]; [right|by left].
    by exists s.
  - rewrite list_lookup_alter_ne by done. intros Hs. right. by exists s'.
Qed.

Lemma ids_ok_same (w w' : Hook) :
  ids_ok w →
  nextTimeoutId w' = nextTimeoutId w →
  (∀ t, t ∈ timers w' → t ∈ timers w) →
  sessions w' = sessions w →
  ids_ok w'.
Proof.
  intros Hw Hn Ht Hs. apply (ids_ok_weaken w); [done..|].
  intros i s'. rewrite Hs. intros Hi. right. by exists s'.
Qed.

Lemma ids_ok_assign_reFetch (sid : nat) (w : Hook) :
  ids_ok w → ids_ok (assign_reFetch sid w).
Proof.
  intros [Hn Ht Hs Ho].
  unfold assign_reFetch, reFetch, setTimeout, upd_session. cbn. split; cbn.
  - lia.
  - intros t [Hin|Hin]%elem_of_app.
    + specialize (Ht t Hin). lia.
    + apply list_elem_of_singleton in Hin as ->. cbn. lia.
  - intros i s'. destruct (decide (sid = i)) as [->|Hne].
    + rewrite list_lookup_alter_eq. destruct (sessions w !! i); [|done].
      cbn. intros [= <-]. cbn. lia.
    + rewrite list_lookup_alter_ne by done. intros Hi.
      specialize (Hs i s' Hi). lia.
  - intros t i s' Hin. destruct (decide (sid = i)) as [->|Hne].
    + rewrite list_lookup_alter_eq. destruct (sessions w !! i); [|done].
      cbn. intros [= <-]. cbn. intros Heq.
      apply elem_of_app in Hin as [Hin|Hin].
      * specialize (Ht t Hin). lia.
      * by apply list_elem_of_singleton in Hin as ->.
    + rewrite list_lookup_alter_ne by done. intros Hi Heq.
      apply elem_of_app in Hin as [Hin|Hin]; [by eapply Ho|].
      apply list_elem_of_singleton in Hin as ->. cbn in Heq.
      specialize (Hs i s' Hi). lia.
Qed.

Lemma ids_ok_useEffect_start : ids_ok useEffect_start.
Proof.
  split; cbn; [lia|intros t Hin|intros i s Hi|intros t i s Hin];
    by first [apply elem_of_nil in Hin | idtac].
Qed.

Lemma ids_ok_call_api (rq : Request) (w : Hook) : ids_ok w → ids_ok (call_api rq w).
Proof. intros Hw. by apply (ids_ok_same w). Qed.

Lemma ids_ok_set_inflight (l : list Request) (w : Hook) :
  ids_ok w → ids_ok (set_inflight l w).
Proof. intros Hw. by apply (ids_ok_same w). Qed.

Lemma ids_ok_setLoading (b : bool) (w : Hook) : ids_ok w → ids_ok (setLoading b w).
Proof. intros Hw. by apply (ids_ok_same w). Qed.

Lemma ids_ok_setLoadingCreatePrePackagedRules (b : bool) (w : Hook) :
  ids_ok w → ids_ok (setLoadingCreatePrePackagedRules b w).
Proof. intros Hw. by apply (ids_ok_same w). Qed.

Lemma ids_ok_setPrepackagedDataStatus (d : PrepackagedDataStatus) (w : Hook) :
  ids_ok w → ids_ok (setPrepackagedDataStatus d w).
Proof. intros Hw. by apply (ids_ok_same w). Qed.

Lemma ids_ok_dispatchToaster (t : Toast) (w : Hook) :
  ids_ok w → ids_ok (dispatchToaster t w).
Proof. intros Hw. by apply (ids_ok_same w). Qed.

Lemma ids_ok_unhandledRejection (w : Hook) : ids_ok w → ids_ok (unhandledRejection w).
Proof. intros Hw. by apply (ids_ok_same w). Qed.

Lemma ids_ok_cleanup (w : Hook) : ids_ok w → ids_ok (cleanup w).
Proof. intros Hw. by apply (ids_ok_same w). Qed.

Lemma ids_ok_delete_timer (pos : nat) (w : Hook) :
  ids_ok w → ids_ok (set_timers (delete pos (timers w)) w).
Proof.
  intros Hw. apply (ids_ok_same w); [done|done| |done].
  intros t. apply list_elem_of_delete_inv.
Qed.

Lemma ids_ok_stopTimeOut (sid : nat) (w : Hook) : ids_ok w → ids_ok (stopTimeOut sid w).
Proof.
  intros Hw. unfold stopTimeOut. destruct (sessions w !! sid); [|done].
  case_decide; [|done]. apply (ids_ok_same w); [done|done| |done].
  intros t. unfold clearTimeout. cbn. by intros [_ ?]%list_elem_of_filter.
Qed.

Lemma ids_ok_new_session (w : Hook) :
  ids_ok w → ids_ok (set_sessions (sessions w ++ [new_session]) w).
Proof.
  intros Hw. apply (ids_ok_weaken w); [done..|].
  intros i s'. cbn. intros [Hi|[_ Hi]]%lookup_app_Some.
  - right. by exists s'.
  - left. destruct (i - length (sessions w)); [|done]. by injection Hi as <-.
Qed.

Create HintDb ids discriminated.
#[local] Hint Resolve ids_ok_call_api ids_ok_set_inflight ids_ok_setLoading
  ids_ok_setLoadingCreatePrePackagedRules ids_ok_setPrepackagedDataStatus
  ids_ok_dispatchToaster ids_ok_unhandledRejection ids_ok_cleanup
  ids_ok_delete_timer ids_ok_stopTimeOut ids_ok_new_session
  ids_ok_assign_reFetch : ids.

Lemma ids_ok_step (p : UsePrePackagedRuleProps) (w : Hook) (e : Event) :
  ids_ok w → ids_ok (step p w e).
Proof.
  intros Hw.
  assert (∀ sid f w0,
    (∀ s, timeoutId (f s) = timeoutId s ∨ timeoutId (f s) = (-1)%Z) →
    ids_ok w0 → ids_ok (upd_session sid f w0)) as Hupd
    by (intros; by apply ids_ok_upd_session).
  destruct e as [| |pos|pos o|]; cbn [step].
  - unfold createElasticRules_call. destruct (guard_open p).
    + auto with ids.
    + apply Hupd; [by left|auto with ids].
  - unfold fetchPrePackagedRules_call. auto with ids.
  - destruct (timers w !! pos) as [t|]; [|done].
    unfold reFetch_callback. apply ids_ok_call_api, Hupd; [by left|auto with ids].
  - destruct (inflight w !! pos) as [rq|]; [|done].
    assert (ids_ok (set_inflight (delete pos (inflight w)) w)) as Hw1
      by auto with ids.
    set (w1 := set_inflight (delete pos (inflight w)) w) in *. clearbody w1.
    destruct rq as [sid|sid|]; cbn [resume].
    + unfold createElasticRules_resume. destruct o, (isSubscribed w1); try done.
      * apply ids_ok_assign_reFetch, Hupd; [by right|]. apply Hupd; [by left|done].
      * apply Hupd; [by left|auto with ids].
    + unfold reFetch_resume. destruct o; [|auto with ids].
      destruct (sessions w1 !! sid); [|done].
      destruct (_ && _).
      * apply Hupd; [by left|]. do 4 (first [apply ids_ok_stopTimeOut
          | apply ids_ok_dispatchToaster | apply ids_ok_setPrepackagedDataStatus
          | apply ids_ok_setLoadingCreatePrePackagedRules]).
        apply Hupd; [by left|done].
      * apply ids_ok_assign_reFetch, Hupd; [by left|done].
    + apply (ids_ok_same w1); [done|..];
        destruct w1 as [[] ? ? ? ? ? ? ? ? ? ? ?], o; done.
  - auto with ids.
Qed.

Lemma ids_ok_run (p : UsePrePackagedRuleProps) (evs : list Event) (w : Hook) :
  ids_ok w → ids_ok (run p w evs).
Proof.
  revert w. induction evs as [|e evs IH]; intros w Hw; [done|].
  cbn. apply IH, ids_ok_step, Hw.
Qed.

Lemma ids_ok_mount : ids_ok mount.
Proof. apply ids_ok_call_api, ids_ok_setLoading, ids_ok_useEffect_start. Qed.

(** ** The poller, step by step *)

Lemma armed_state (sid i : nat) (w : Hook) :
  armed sid i w → session_state sid w = Polling.
Proof.
  intros [Hsub (s & Hs & _ & Hres) Ht Hp Hg _].
  apply (session_state_polling_intro sid w s); (done || lia).
Qed.

(** When the trigger of a session in state Triggering resolves, the poller
    is armed with its first timer. *)
Lemma trigger_success_arms (p : UsePrePackagedRuleProps) (w : Hook)
    (pos sid : nat) (x : PrePackagedRulesStatusResponse) :
  wf w →
  session_state sid w = Triggering →
  inflight w !! pos = Some (ReqCreatePrepackagedRules sid) →
  armed sid 0 (step p w (Settles pos (Fulfilled x)))
  ∧ toasts (step p w (Settles pos (Fulfilled x))) = toasts w.
Proof.
  intros Hwf Hst Hrq.
  destruct (session_state_Triggering _ _ Hst) as (s & Hs & Hres & Hsub & Hn).
  destruct (wf_trigger _ Hwf sid Hn) as [Hpc Htc].
  pose proof (wf_pending _ Hwf sid) as Hp. rewrite pending_eq in Hp.
  destruct (delete_request_counts w pos _ sid Hrq) as (H1 & H2).
  rewrite decide_False in H1 by done. rewrite decide_True in H2 by done.
  cbn [step]. rewrite Hrq. cbn [resume].
  unfold createElasticRules_resume. cbn [isSubscribed set_inflight].
  rewrite Hsub.
  match goal with |- context [assign_reFetch sid ?w0] =>
    destruct (assign_reFetch_counts sid w0 sid) as (H3 & H4 & H5 & H6 & _ & _);
    set (w1 := w0) in * end.
  rewrite decide_True in H3 by done.
  change (n_timers sid w1) with (n_timers sid w) in H3.
  change (n_polls sid w1)
    with (n_polls sid (set_inflight (delete pos (inflight w)) w)) in H4.
  change (n_triggers sid w1)
    with (n_triggers sid (set_inflight (delete pos (inflight w)) w)) in H5.
  change (poll_calls sid w1) with (poll_calls sid w) in H6.
  split; [|done]. split.
  - done.
  - eexists. split.
    + subst w1. unfold assign_reFetch, reFetch, setTimeout, upd_session. cbn.
      rewrite !list_lookup_alter_eq, Hs. cbn. done.
    + by cbn.
  - lia.
  - lia.
  - lia.
  - lia.
Qed.

Lemma armed_timer_fires (p : UsePrePackagedRuleProps) (sid i pos : nat)
    (t : Timer) (w : Hook) :
  armed sid i w → timers w !! pos = Some t → timer_session t = sid →
  awaiting sid (S i) (step p w (TimerFires pos))
  ∧ toasts (step p w (TimerFires pos)) = toasts w.
Proof.
  intros [Hsub (s & Hs & Hi & Hres) Ht Hp Hg Hc] Hpos Hts.
  cbn [step]. rewrite Hpos.
  destruct (timer_counts w pos t sid Hpos) as (H1 & H2 & H3 & H4 & _ & _).
  rewrite decide_True in H1, H2, H4 by done.
  split; [|done]. split; try done; try lia.
  exists (set_iteration (S i) s). split; [|done].
  rewrite Hts. unfold reFetch_callback, upd_session. cbn.
  rewrite list_lookup_alter_eq, Hs. cbn. by rewrite Hi.
Qed.

Lemma awaiting_answer_again (p : UsePrePackagedRuleProps) (sid i pos : nat)
    (r : PrePackagedRulesStatusResponse) (w : Hook) :
  awaiting sid i w → inflight w !! pos = Some (ReqStatusPoll sid) →
  nothing_left r = false → i ≤ 100 →
  armed sid i (step p w (Settles pos (Fulfilled r)))
  ∧ toasts (step p w (Settles pos (Fulfilled r))) = toasts w.
Proof.
  intros [Hsub (s & Hs & Hi & Hres) Ht Hp Hg Hc] Hpos Hr Hle.
  cbn [step]. rewrite Hpos. cbn [resume].
  destruct (delete_request_counts w pos _ sid Hpos) as (H5 & H6).
  rewrite decide_True in H5 by done. rewrite decide_False in H6 by done.
  set (w2 := set_inflight (delete pos (inflight w)) w) in *.
  destruct (reFetch_resume_again sid r s w2 Hs)
    as (Hs1 & _ & _ & Hto1 & Ht1 & Hfl & Hac & Hsub1).
  { change (isSubscribed w2) with (isSubscribed w).
    rewrite Hsub, Hr, Hi. cbn [andb orb]. apply Nat.ltb_ge. lia. }
  split; [|done]. split.
  - by rewrite Hsub1.
  - eexists. split; [exact Hs1|]. by cbn.
  - rewrite Ht1. change (n_timers sid w2) with (n_timers sid w). lia.
  - unfold n_polls, polls_in_flight in *. rewrite Hfl. lia.
  - unfold n_triggers, triggers_in_flight in *. rewrite Hfl. lia.
  - unfold poll_calls in *. by rewrite Hac.
Qed.

Lemma awaiting_answer_stop (p : UsePrePackagedRuleProps) (sid i pos : nat)
    (r : PrePackagedRulesStatusResponse) (w : Hook) :
  awaiting sid i w → inflight w !! pos = Some (ReqStatusPoll sid) →
  nothing_left r = true ∨ 100 < i →
  stopped sid i r (step p w (Settles pos (Fulfilled r)))
  ∧ toasts (step p w (Settles pos (Fulfilled r)))
    = toasts w ++ [SuccessToast RULE_AND_TIMELINE_PREPACKAGED_SUCCESS].
Proof.
  intros [Hsub (s & Hs & Hi & Hres) Ht Hp Hg Hc] Hpos Hr.
  cbn [step]. rewrite Hpos. cbn [resume].
  destruct (delete_request_counts w pos _ sid Hpos) as (H5 & H6).
  rewrite decide_True in H5 by done. rewrite decide_False in H6 by done.
  set (w2 := set_inflight (delete pos (inflight w)) w) in *.
  destruct (reFetch_resume_stop sid r s w2 Hs Hsub)
    as (Hs1 & Hst & Hld & Hto1 & Ht1 & Hfl & Hac & Hsub1).
  { rewrite Hi. destruct Hr as [->|Hlt]; [done|].
    apply orb_true_iff. right. by apply Nat.ltb_lt. }
  split; [|done]. split; try done.
  - eexists. split; [exact Hs1|]. cbn. by rewrite Hres.
  - rewrite pending_eq. change (n_timers sid w2) with (n_timers sid w) in Ht1.
    unfold n_polls, polls_in_flight, n_triggers, triggers_in_flight in *.
    rewrite Hfl. lia.
  - unfold poll_calls in *. by rewrite Hac.
Qed.

Lemma stopped_settled (sid n : nat) (r : PrePackagedRulesStatusResponse) (w : Hook) :
  stopped sid n r w → settled sid n r w.
Proof. by intros [? ? ? ? ?]. Qed.

Lemma settled_state (sid n : nat) (r : PrePackagedRulesStatusResponse) (w : Hook) :
  settled sid n r w →
  session_state sid w = if nothing_left r then Converged else Exhausted.
Proof.
  intros [(s & Hs & Hres & Hr) _ _].
  by apply (session_state_resolved_true sid w s r).
Qed.

Lemma stopped_state (sid n : nat) (r : PrePackagedRulesStatusResponse) (w : Hook) :
  stopped sid n r w →
  session_state sid w = if nothing_left r then Converged else Exhausted.
Proof.
  intros [(s & Hs & Hres & Hr) _ _ _ _].
  by apply (session_state_resolved_true sid w s r).
Qed.

(** ** Events of other sessions *)

Lemma same_for_refl (sid : nat) (w : Hook) : same_for sid w w.
Proof. by repeat split. Qed.

Lemma same_for_trans (sid : nat) (w1 w2 w3 : Hook) :
  same_for sid w1 w2 → same_for sid w2 w3 → same_for sid w1 w3.
Proof.
  intros (?&?&?&?&?&?) (?&?&?&?&?&?). repeat split; congruence.
Qed.

Lemma filter_filter_id {A} (P Q : A → Prop)
    `{!∀ x, Decision (P x)} `{!∀ x, Decision (Q x)} (l : list A) :
  (∀ x, x ∈ l → P x → Q x) → filter P (filter Q l) = filter P l.
Proof.
  induction l as [|x l IH]; intros Hl; [done|].
  rewrite (filter_cons Q). destruct (decide (Q x)) as [HQ|HQ].
  - rewrite !(filter_cons P). rewrite IH; [done|].
    intros y Hy. apply Hl. by right.
  - rewrite (filter_cons P). destruct (decide (P x)) as [HP|HP].
    + destruct HQ. apply Hl; [left|done].
    + apply IH. intros y Hy. apply Hl. by right.
Qed.

Lemma stopTimeOut_foreign (b sid : nat) (w : Hook) :
  ids_ok w → b ≠ sid → same_for sid w (stopTimeOut b w).
Proof.
  intros Hw Hne. unfold stopTimeOut.
  destruct (sessions w !! b) as [s|] eqn:Hs; [|apply same_for_refl].
  case_decide; [|apply same_for_refl].
  repeat split. unfold n_timers, timers_of, clearTimeout. cbn.
  rewrite filter_filter_id; [done|].
  intros t Hin Hsid Hid. apply Hne. rewrite <- Hsid.
  symmetry. by eapply (ids_owner w Hw t b s).
Qed.

Lemma upd_session_foreign (b sid : nat) (f : Session → Session) (w : Hook) :
  b ≠ sid → same_for sid w (upd_session b f w).
Proof.
  intros Hne. repeat split. unfold upd_session. cbn.
  by rewrite list_lookup_alter_ne.
Qed.

Lemma assign_reFetch_foreign (b sid : nat) (w : Hook) :
  b ≠ sid → same_for sid w (assign_reFetch b w).
Proof.
  intros Hne. destruct (assign_reFetch_counts b w sid) as (H1 & H2 & H3 & H4 & _ & _).
  rewrite decide_False in H1 by done.
  repeat split; try done; try lia.
  unfold assign_reFetch, reFetch, setTimeout, upd_session. cbn.
  by rewrite list_lookup_alter_ne.
Qed.

Lemma resume_foreign (rq : Request) (o : Settlement) (sid : nat) (w : Hook) :
  ids_ok w →
  rq ≠ ReqStatusPoll sid → rq ≠ ReqCreatePrepackagedRules sid →
  same_for sid w (resume rq o w).
Proof.
  intros Hw Hp Hc. destruct rq as [b|b|]; cbn [resume].
  - assert (b ≠ sid) as Hne by congruence.
    unfold createElasticRules_resume.
    destruct o, (isSubscribed w); try apply same_for_refl.
    + eapply same_for_trans; [|by apply assign_reFetch_foreign].
      eapply same_for_trans; by apply upd_session_foreign.
    + eapply same_for_trans; [|by apply upd_session_foreign]. by repeat split.
  - assert (b ≠ sid) as Hne by congruence.
    unfold reFetch_resume. destruct o; [|by repeat split].
    destruct (sessions w !! b) as [s|]; [|apply same_for_refl].
    assert (ids_ok (upd_session b (set_response r) w)) as Hw1
      by (apply ids_ok_upd_session; [by left|done]).
    assert (same_for sid w (upd_session b (set_response r) w)) as H1
      by by apply upd_session_foreign.
    destruct (_ && _).
    + eapply same_for_trans; [|by apply upd_session_foreign].
      eapply same_for_trans; [|apply stopTimeOut_foreign; [|done]].
      * eapply same_for_trans; [exact H1|]. by repeat split.
      * auto with ids.
    + eapply same_for_trans; [exact H1|]. by apply assign_reFetch_foreign.
  - destruct w as [[] ? ? ? ? ? ? ? ? ? ? ?], o; by repeat split.
Qed.

Lemma foreign_frame (p : UsePrePackagedRuleProps) (w : Hook) (e : Event)
    (sid : nat) (s : Session) :
  ids_ok w → sessions w !! sid = Some s → foreign sid w e = true →
  same_for sid w (step p w e).
Proof.
  intros Hw Hs Hf.
  assert (sid < length (sessions w)) as Hlt by by eapply lookup_lt_Some.
  destruct e as [| |pos|pos o|]; cbn [step foreign] in *.
  - destruct (create_counts p w sid) as (H1 & H2 & H3 & H4 & _ & _).
    rewrite decide_False in H3 by lia.
    repeat split; try done; try lia.
    + unfold createElasticRules_call. destruct (guard_open p); cbn.
      * by rewrite lookup_app_l.
      * rewrite list_lookup_alter_ne by lia. by rewrite lookup_app_l.
    + unfold createElasticRules_call. by destruct (guard_open p).
  - unfold fetchPrePackagedRules_call.
    destruct (call_api_counts ReqStatusFetch (setLoading true w) sid)
      as (H1 & H2 & H3 & H4 & _ & _).
    rewrite decide_False in H2 by done. rewrite decide_False in H3 by done.
    rewrite decide_False in H4 by done.
    change (n_timers sid (setLoading ?b w)) with (n_timers sid w) in *.
    change (n_polls sid (setLoading ?b w)) with (n_polls sid w) in *.
    change (n_triggers sid (setLoading ?b w)) with (n_triggers sid w) in *.
    change (poll_calls sid (setLoading ?b w)) with (poll_calls sid w) in *.
    repeat split; try done; lia.
  - destruct (timers w !! pos) as [t|] eqn:Ht; [|apply same_for_refl].
    apply bool_decide_eq_true in Hf.
    destruct (timer_counts w pos t sid Ht) as (H1 & H2 & H3 & H4 & _ & _).
    rewrite decide_False in H1 by done. rewrite decide_False in H2 by done.
    rewrite decide_False in H4 by done.
    repeat split; try done; try lia.
    unfold reFetch_callback, upd_session. cbn. by rewrite list_lookup_alter_ne.
  - destruct (inflight w !! pos) as [rq|] eqn:Hrq; [|apply same_for_refl].
    apply bool_decide_eq_true in Hf as [Hp Hc].
    destruct (delete_request_counts w pos rq sid Hrq) as (H1 & H2).
    rewrite decide_False in H1 by done. rewrite decide_False in H2 by done.
    eapply same_for_trans; [|apply resume_foreign; [auto with ids|done..]].
    repeat split; try done; lia.
  - done.
Qed.

Lemma armed_same_for (sid i : nat) (w w' : Hook) :
  armed sid i w → same_for sid w w' → armed sid i w'.
Proof.
  intros [Hsub Hs Ht Hp Hg Hc] (E1 & E2 & E3 & E4 & E5 & E6).
  split; try congruence. by rewrite E1.
Qed.

Lemma awaiting_same_for (sid i : nat) (w w' : Hook) :
  awaiting sid i w → same_for sid w w' → awaiting sid i w'.
Proof.
  intros [Hsub Hs Ht Hp Hg Hc] (E1 & E2 & E3 & E4 & E5 & E6).
  split; try congruence. by rewrite E1.
Qed.

(** A settled session stays as it is, whatever happens next. *)
Lemma settled_step (p : UsePrePackagedRuleProps) (sid n : nat)
    (r : PrePackagedRulesStatusResponse) (w : Hook) (e : Event) :
  ids_ok w → settled sid n r w → settled sid n r (step p w e).
Proof.
  intros Hw [(s & Hs & Hres & Hr) Hp Hc]. rewrite pending_eq in Hp.
  assert (same_for sid w (step p w e) ∨ e = Cleanup) as [Hsame | ->].
  { destruct (foreign sid w e) eqn:Hf; [left; by eapply foreign_frame|].
    destruct e as [| |pos|pos o|]; cbn in Hf; try done; [| |by right].
    - destruct (timers w !! pos) as [t|] eqn:Ht; [|done].
      apply bool_decide_eq_false in Hf. apply dec_stable in Hf.
      pose proof (delete_timer_counts w pos t sid Ht) as Hd.
      rewrite decide_True in Hd by done. lia.
    - destruct (inflight w !! pos) as [rq|] eqn:Hrq; [|done].
      apply bool_decide_eq_false in Hf.
      destruct (delete_request_counts w pos rq sid Hrq) as (H1 & H2).
      destruct (decide (rq = ReqStatusPoll sid)); [lia|].
      destruct (decide (rq = ReqCreatePrepackagedRules sid)); [lia|].
      destruct Hf. done. }
  - destruct Hsame as (E1 & E2 & E3 & E4 & E5 & E6). split.
    + exists s. by rewrite E1.
    + rewrite pending_eq. lia.
    + congruence.
  - split; [by exists s|by rewrite pending_eq|done].
Qed.

Lemma settled_run (p : UsePrePackagedRuleProps) (sid n : nat)
    (r : PrePackagedRulesStatusResponse) (evs : list Event) (w : Hook) :
  ids_ok w → settled sid n r w → settled sid n r (run p w evs).
Proof.
  revert w. induction evs as [|e evs IH]; intros w Hw Hs; [done|].
  cbn. apply IH; [by apply ids_ok_step|by apply settled_step].
Qed.

(** ** Runs of a session *)

Lemma polling_state (sid n : nat) (w : Hook) :
  polling sid n w → session_state sid w = Polling.
Proof.
  intros [Ha|[Hsub (s & Hs & _ & Hres) Ht Hp Hg _]]; [by eapply armed_state|].
  apply (session_state_polling_intro sid w s); (done || lia).
Qed.

Lemma session_run_polling (p : UsePrePackagedRuleProps) (sid : nat)
    (w : Hook) (os : list Settlement) (w' : Hook) :
  session_run p sid w os w' →
  ∀ (rs : list PrePackagedRulesStatusResponse) (n : nat),
    os = Fulfilled <$> rs →
    ids_ok w → polling sid n w →
    Forall (λ r, nothing_left r = false) rs →
    n + length rs ≤ 100 →
    polling sid (n + length rs) w' ∧ ids_ok w'.
Proof.
  induction 1 as [w|w e os w' Hf _ IH|w pos t os w' Ht Hts _ IH
                 |w pos o os w' Hrq _ IH];
    intros rs n Hos Hw Hpoll Hrs Hlen.
  - destruct rs; [|done]. cbn. by rewrite Nat.add_0_r.
  - apply (IH rs n); [done|by apply ids_ok_step| |done|done].
    destruct Hpoll as [Ha|Ha].
    + left. destruct (armed_session _ _ _ Ha) as (s & Hs & _).
      eapply armed_same_for; [done|by eapply foreign_frame].
    + right. destruct (awaiting_session _ _ _ Ha) as (s & Hs & _).
      eapply awaiting_same_for; [done|by eapply foreign_frame].
  - apply (IH rs n); [done|by apply ids_ok_step| |done|done].
    destruct Hpoll as [Ha|Ha].
    + right. by eapply armed_timer_fires.
    + pose proof (delete_timer_counts w pos t sid Ht) as Hd.
      rewrite decide_True in Hd by done.
      pose proof (awaiting_timer _ _ _ Ha). lia.
  - destruct rs as [|r rs]; [done|]. cbn in Hos. injection Hos as -> ->.
    apply list.Forall_cons in Hrs as [Hr Hrs]. cbn in Hlen.
    destruct (delete_request_counts w pos _ sid Hrq) as (Hd & _).
    rewrite decide_True in Hd by done.
    destruct Hpoll as [Ha|Ha]; [pose proof (armed_polls _ _ _ Ha); lia|].
    replace (n + length (r :: rs)) with (S n + length rs) by (cbn; lia).
    apply (IH rs (S n)); [done|by apply ids_ok_step| |done|lia].
    left. eapply awaiting_answer_again; [done..|lia].
Qed.

Lemma session_run_snoc (p : UsePrePackagedRuleProps) (sid : nat) (w : Hook)
    (os : list Settlement) (w' : Hook) (pos : nat) (o : Settlement) :
  session_run p sid w os w' →
  inflight w' !! pos = Some (ReqStatusPoll sid) →
  session_run p sid w (os ++ [o]) (step p w' (Settles pos o)).
Proof.
  induction 1 as [w|w e os w' Hf _ IH|w pos' t os w' Ht Hts _ IH
                 |w pos' o' os w' Hrq _ IH]; intros Hpos.
  - eapply run_answer; [done|apply run_done].
  - eapply run_foreign; [done|by apply IH].
  - eapply run_timer; [done..|by apply IH].
  - cbn. eapply run_answer; [done|by apply IH].
Qed.

Lemma session_run_timer_end (p : UsePrePackagedRuleProps) (sid : nat) (w : Hook)
    (os : list Settlement) (w' : Hook) (pos : nat) (t : Timer) :
  session_run p sid w os w' →
  timers w' !! pos = Some t → timer_session t = sid →
  session_run p sid w os (step p w' (TimerFires pos)).
Proof.
  induction 1 as [w|w e os w' Hf _ IH|w pos' t' os w' Ht Hts _ IH
                 |w pos' o' os w' Hrq _ IH]; intros Hpos Hsid.
  - eapply run_timer; [done..|apply run_done].
  - eapply run_foreign; [done|by apply IH].
  - eapply run_timer; [done..|by apply IH].
  - eapply run_answer; [done|by apply IH].
Qed.

(** A run checked by [own_answers] is a run of the session. *)
Lemma own_answers_sound (p : UsePrePackagedRuleProps) (sid : nat)
    (evs : list Event) (w : Hook) (os : list Settlement) :
  own_answers p sid w evs = Some os → session_run p sid w os (run p w evs).
Proof.
  revert w os. induction evs as [|e evs IH]; intros w os; cbn [own_answers].
  - intros [= <-]. apply run_done.
  - destruct (foreign sid w e) eqn:Hf.
    + intros H. eapply run_foreign; [done|]. by apply IH.
    + destruct e as [| |pos|pos o|]; try done.
      * intros H. cbn in Hf.
        destruct (timers w !! pos) as [t|] eqn:Ht; [|done].
        apply bool_decide_eq_false in Hf. apply dec_stable in Hf.
        eapply run_timer; [done..|]. by apply IH.
      * case_bool_decide as Hrq; [|done].
        destruct (own_answers p sid (step p w (Settles pos o)) evs) as [os'|] eqn:Hos;
          [|done].
        intros [= <-]. eapply run_answer; [done|]. by apply IH.
Qed.

(** The last answer of a session: [n] answers that fail the zero tests were
    received, from an armed poller, and the next status query is pending;
    its answer [r] ends the session if it passes the tests or if it is the
    101st. *)
Lemma session_run_last_answer (p : UsePrePackagedRuleProps) (sid : nat)
    (w1 w2 : Hook) (rs : list PrePackagedRulesStatusResponse) (pos : nat)
    (r : PrePackagedRulesStatusResponse) :
  ids_ok w1 → armed sid 0 w1 →
  session_run p sid w1 (Fulfilled <$> rs) w2 →
  Forall (λ r', nothing_left r' = false) rs →
  length rs ≤ 100 →
  inflight w2 !! pos = Some (ReqStatusPoll sid) →
  nothing_left r = true ∨ length rs = 100 →
  stopped sid (S (length rs)) r (step p w2 (Settles pos (Fulfilled r)))
  ∧ toasts (step p w2 (Settles pos (Fulfilled r)))
    = toasts w2 ++ [SuccessToast RULE_AND_TIMELINE_PREPACKAGED_SUCCESS]
  ∧ ids_ok (step p w2 (Settles pos (Fulfilled r))).
Proof.
  intros Hw1 Ha Hrun Hrs Hlen Hrq Hr.
  destruct (session_run_polling p sid w1 _ w2 Hrun rs 0 eq_refl Hw1
    (or_introl Ha) Hrs Hlen) as [Hpoll Hw2].
  cbn in Hpoll.
  destruct (delete_request_counts w2 pos _ sid Hrq) as (Hd & _).
  rewrite decide_True in Hd by done.
  destruct Hpoll as [Hb|Hb]; [pose proof (armed_polls _ _ _ Hb); lia|].
  destruct (awaiting_answer_stop p sid _ pos r w2 Hb Hrq) as [Hst Hto].
  { destruct Hr as [Hr|Hr]; [by left|right; lia]. }
  split_and!; [done|done|by apply ids_ok_step].
Qed.

(** ** Convergence and exhaustion *)

(** C4.  Take a session in state Triggering of a hook reached from the
    mount and let its trigger resolve.  Let the event loop then run in any
    way short of the cleanup (other invocations, status fetches, timers and
    answers of other sessions in between), the status queries of the session
    being answered by [rs], none of which passes the four zero tests.  If
    the next answer [r], the [k]-th with [k ≤ 100], passes them, the session
    ends Converged on it having made exactly [k] status queries; [r] is the
    snapshot kept, in the session and as the status record; the promise is
    settled with [true], the spinner is off, one success toast is added and
    the event loop holds nothing more for the session.  Whatever happens
    afterwards, the session stays Converged with [k] queries made. *)
Theorem converges_at_attempt
    (p : UsePrePackagedRuleProps) (evs : list Event) (pos sid : nat)
    (x : PrePackagedRulesStatusResponse)
    (rs : list PrePackagedRulesStatusResponse) (w2 : Hook) (pos2 : nat)
    (r : PrePackagedRulesStatusResponse) :
  session_state sid (run p mount evs) = Triggering →
  inflight (run p mount evs) !! pos = Some (ReqCreatePrepackagedRules sid) →
  session_run p sid (step p (run p mount evs) (Settles pos (Fulfilled x)))
    (Fulfilled <$> rs) w2 →
  Forall (λ r', nothing_left r' = false) rs →
  inflight w2 !! pos2 = Some (ReqStatusPoll sid) →
  nothing_left r = true →
  S (length rs) ≤ 100 →
  let w := step p w2 (Settles pos2 (Fulfilled r)) in
  session_state sid w = Converged
  ∧ poll_calls sid w = S (length rs)
  ∧ (∃ s, sessions w !! sid = Some s ∧ resolved s = Some true
          ∧ prePackagedRuleStatusResponse s = Some r)
  ∧ prepackagedDataStatus w = status_of_response r
  ∧ loadingCreatePrePackagedRules w = false
  ∧ toasts w = toasts w2 ++ [SuccessToast RULE_AND_TIMELINE_PREPACKAGED_SUCCESS]
  ∧ pending sid w = 0
  ∧ (∀ evs', session_state sid (run p w evs') = Converged
             ∧ poll_calls sid (run p w evs') = S (length rs)).
Proof.
  intros Hst Hrq Hrun Hrs Hrq2 Hr Hk w.
  assert (wf (run p mount evs)) as Hwf by apply wf_run, wf_mount.
  assert (ids_ok (run p mount evs)) as Hids by apply ids_ok_run, ids_ok_mount.
  destruct (trigger_success_arms p _ pos sid x Hwf Hst Hrq) as [Ha0 _].
  destruct (session_run_last_answer p sid _ w2 rs pos2 r
    (ids_ok_step p _ _ Hids) Ha0 Hrun Hrs) as (Hstop & Hto & Hids3);
    [lia|done|by left|].
  fold w in Hstop, Hto, Hids3.
  pose proof (stopped_settled _ _ _ _ Hstop) as Hset.
  rewrite (settled_state _ _ _ _ Hset), Hr.
  destruct Hstop as [Hses Hstat Hld Hpend Hcalls].
  split_and!; try done.
  intros evs'. pose proof (settled_run p sid _ r evs' w Hids3 Hset) as Hset'.
  rewrite (settled_state _ _ _ _ Hset'), Hr. split; [done|by destruct Hset'].
Qed.

(** C2, as the code has it.  Under the same conditions, if the first 100
    answers [rs] and the 101st answer [r] all fail the four zero tests, the
    session ends on the 101st: it has made exactly 101 status queries, it
    is Exhausted, [r] is the snapshot kept, the promise is settled with
    [true] and a success toast is added; and so it stays. *)
Theorem exhausted_after_101_calls
    (p : UsePrePackagedRuleProps) (evs : list Event) (pos sid : nat)
    (x : PrePackagedRulesStatusResponse)
    (rs : list PrePackagedRulesStatusResponse) (w2 : Hook) (pos2 : nat)
    (r : PrePackagedRulesStatusResponse) :
  session_state sid (run p mount evs) = Triggering →
  inflight (run p mount evs) !! pos = Some (ReqCreatePrepackagedRules sid) →
  session_run p sid (step p (run p mount evs) (Settles pos (Fulfilled x)))
    (Fulfilled <$> rs) w2 →
  Forall (λ r', nothing_left r' = false) rs →
  inflight w2 !! pos2 = Some (ReqStatusPoll sid) →
  nothing_left r = false →
  length rs = 100 →
  let w := step p w2 (Settles pos2 (Fulfilled r)) in
  session_state sid w = Exhausted
  ∧ poll_calls sid w = 101
  ∧ (∃ s, sessions w !! sid = Some s ∧ resolved s = Some true
          ∧ prePackagedRuleStatusResponse s = Some r)
  ∧ prepackagedDataStatus w = status_of_response r
  ∧ loadingCreatePrePackagedRules w = false
  ∧ toasts w = toasts w2 ++ [SuccessToast RULE_AND_TIMELINE_PREPACKAGED_SUCCESS]
  ∧ pending sid w = 0
  ∧ (∀ evs', session_state sid (run p w evs') = Exhausted
             ∧ poll_calls sid (run p w evs') = 101).
Proof.
  intros Hst Hrq Hrun Hrs Hrq2 Hr Hlen w.
  assert (wf (run p mount evs)) as Hwf by apply wf_run, wf_mount.
  assert (ids_ok (run p mount evs)) as Hids by apply ids_ok_run, ids_ok_mount.
  destruct (trigger_success_arms p _ pos sid x Hwf Hst Hrq) as [Ha0 _].
  destruct (session_run_last_answer p sid _ w2 rs pos2 r
    (ids_ok_step p _ _ Hids) Ha0 Hrun Hrs) as (Hstop & Hto & Hids3);
    [lia|done|by right|].
  fold w in Hstop, Hto, Hids3. rewrite Hlen in Hstop.
  pose proof (stopped_settled _ _ _ _ Hstop) as Hset.
  rewrite (settled_state _ _ _ _ Hset), Hr.
  destruct Hstop as [Hses Hstat Hld Hpend Hcalls].
  split_and!; try done.
  intros evs'. pose proof (settled_run p sid _ r evs' w Hids3 Hset) as Hset'.
  rewrite (settled_state _ _ _ _ Hset'), Hr. split; [done|by destruct Hset'].
Qed.

(** Up to 100 answers that fail the zero tests leave the session Polling. *)
Lemma polling_within_budget
    (p : UsePrePackagedRuleProps) (evs : list Event) (pos sid : nat)
    (x : PrePackagedRulesStatusResponse)
    (rs : list PrePackagedRulesStatusResponse) (w2 : Hook) :
  session_state sid (run p mount evs) = Triggering →
  inflight (run p mount evs) !! pos = Some (ReqCreatePrepackagedRules sid) →
  session_run p sid (step p (run p mount evs) (Settles pos (Fulfilled x)))
    (Fulfilled <$> rs) w2 →
  Forall (λ r, nothing_left r = false) rs →
  length rs ≤ 100 →
  session_state sid w2 = Polling.
Proof.
  intros Hst Hrq Hrun Hrs Hlen.
  assert (wf (run p mount evs)) as Hwf by apply wf_run, wf_mount.
  assert (ids_ok (run p mount evs)) as Hids by apply ids_ok_run, ids_ok_mount.
  destruct (trigger_success_arms p _ pos sid x Hwf Hst Hrq) as [Ha0 _].
  destruct (session_run_polling p sid _ _ _ Hrun rs 0 eq_refl
    (ids_ok_step p _ _ Hids) (or_introl Ha0) Hrs Hlen) as [Hpoll _].
  by eapply polling_state.
Qed.

(** ** The undisturbed run *)

Lemma attempt_idle (p : UsePrePackagedRuleProps) (sid : nat) (o : Settlement) (w : Hook) :
  n_timers sid w = 0 → attempt p sid o w = w.
Proof.
  intros Hn. unfold attempt, timer_pos.
  by rewrite (list_find_filter_nil _ _ Hn).
Qed.

Lemma attempt_steps (p : UsePrePackagedRuleProps) (sid i : nat) (o : Settlement)
    (w : Hook) :
  armed sid i w →
  ∃ tp t pp,
    timers w !! tp = Some t ∧ timer_session t = sid
    ∧ inflight (step p w (TimerFires tp)) !! pp = Some (ReqStatusPoll sid)
    ∧ attempt p sid o w = step p (step p w (TimerFires tp)) (Settles pp o).
Proof.
  intros Ha.
  destruct (list_find_filter_pos (λ t, timer_session t = sid) (timers w))
    as (tp & t & Hfind & Htp & Hts).
  { pose proof (armed_timer _ _ _ Ha) as Ht. unfold n_timers, timers_of in Ht. lia. }
  destruct (armed_timer_fires p sid i tp t w Ha Htp Hts) as [Hb _].
  destruct (list_find_filter_pos (λ rq, rq = ReqStatusPoll sid)
    (inflight (step p w (TimerFires tp)))) as (pp & rq & Hfind1 & Hpp & ->).
  { pose proof (awaiting_polls _ _ _ Hb) as Hp.
    unfold n_polls, polls_in_flight in Hp. lia. }
  exists tp, t, pp. split_and!; try done.
  unfold attempt, timer_pos, poll_pos. rewrite Hfind. cbn [fmap option_fmap option_map fst].
  by rewrite Hfind1.
Qed.

Lemma attempt_again (p : UsePrePackagedRuleProps) (sid i : nat)
    (r : PrePackagedRulesStatusResponse) (w : Hook) :
  armed sid i w → nothing_left r = false → i < 100 →
  armed sid (S i) (attempt p sid (Fulfilled r) w)
  ∧ toasts (attempt p sid (Fulfilled r) w) = toasts w.
Proof.
  intros Ha Hr Hi.
  destruct (attempt_steps p sid i (Fulfilled r) w Ha)
    as (tp & t & pp & Htp & Hts & Hpp & ->).
  destruct (armed_timer_fires p sid i tp t w Ha Htp Hts) as [Hb Hto].
  destruct (awaiting_answer_again p sid (S i) pp r _ Hb Hpp Hr) as [Hc Hto'];
    [lia|].
  split; [done|congruence].
Qed.

Lemma attempt_stop (p : UsePrePackagedRuleProps) (sid i : nat)
    (r : PrePackagedRulesStatusResponse) (w : Hook) :
  armed sid i w → nothing_left r = true ∨ 100 ≤ i →
  stopped sid (S i) r (attempt p sid (Fulfilled r) w)
  ∧ toasts (attempt p sid (Fulfilled r) w)
    = toasts w ++ [SuccessToast RULE_AND_TIMELINE_PREPACKAGED_SUCCESS].
Proof.
  intros Ha Hr.
  destruct (attempt_steps p sid i (Fulfilled r) w Ha)
    as (tp & t & pp & Htp & Hts & Hpp & ->).
  destruct (armed_timer_fires p sid i tp t w Ha Htp Hts) as [Hb Hto].
  destruct (awaiting_answer_stop p sid (S i) pp r _ Hb Hpp) as [Hc Hto'].
  { destruct Hr as [Hr|Hr]; [by left|right; lia]. }
  split; [done|congruence].
Qed.

Lemma poll_idle (p : UsePrePackagedRuleProps) (sid : nat) (os : list Settlement)
    (w : Hook) :
  n_timers sid w = 0 → poll p sid os w = w.
Proof.
  intros Hn. induction os as [|o os IH]; [done|].
  unfold poll in *. cbn. by rewrite attempt_idle.
Qed.

Lemma poll_again (p : UsePrePackagedRuleProps) (sid : nat)
    (rs : list PrePackagedRulesStatusResponse) (i : nat) (w : Hook) :
  armed sid i w →
  Forall (λ r, nothing_left r = false) rs →
  i + length rs ≤ 100 →
  armed sid (i + length rs) (poll p sid (Fulfilled <$> rs) w)
  ∧ toasts (poll p sid (Fulfilled <$> rs) w) = toasts w.
Proof.
  revert i w. induction rs as [|r rs IH]; intros i w Ha Hrs Hn.
  - cbn. by rewrite Nat.add_0_r.
  - apply list.Forall_cons in Hrs as [Hr Hrs]. cbn in Hn.
    destruct (attempt_again p sid i r w Ha Hr) as [Ha1 Hto]; [lia|].
    cbn. destruct (IH (S i) _ Ha1 Hrs) as [Ha2 Hto2]; [lia|].
    replace (i + S (length rs)) with (S i + length rs) by lia.
    split; [exact Ha2|]. unfold poll in *. congruence.
Qed.

Lemma stopped_poll (p : UsePrePackagedRuleProps) (sid n : nat)
    (r : PrePackagedRulesStatusResponse) (os : list Settlement) (w : Hook) :
  stopped sid n r w → poll p sid os w = w.
Proof.
  intros [_ _ _ Hp _]. apply poll_idle. rewrite pending_eq in Hp. lia.
Qed.

(** The undisturbed run of the driver is one of the runs of the event loop. *)
Lemma poll_session_run (p : UsePrePackagedRuleProps) (sid : nat)
    (rs : list PrePackagedRulesStatusResponse) (i : nat) (w : Hook) :
  armed sid i w →
  Forall (λ r, nothing_left r = false) rs →
  i + length rs ≤ 100 →
  session_run p sid w (Fulfilled <$> rs) (poll p sid (Fulfilled <$> rs) w).
Proof.
  revert i w. induction rs as [|r rs IH]; intros i w Ha Hrs Hlen.
  - apply run_done.
  - apply list.Forall_cons in Hrs as [Hr Hrs]. cbn in Hlen.
    destruct (attempt_steps p sid i (Fulfilled r) w Ha)
      as (tp & t & pp & Htp & Hts & Hpp & Heq).
    destruct (attempt_again p sid i r w Ha Hr) as [Ha1 _]; [lia|].
    cbn. rewrite Heq in *.
    eapply run_timer; [done..|]. eapply run_answer; [done|].
    apply (IH (S i)); [done|done|lia].
Qed.

(** The undisturbed session computes what the theorems above say: answers
    [rs] that fail the zero tests, then an answer [r] that passes them, give
    a Converged session with as many status queries as answers used,
    whatever answers [rest] would follow. *)
Corollary poll_converges_at_attempt
    (p : UsePrePackagedRuleProps) (evs : list Event) (pos sid : nat)
    (x : PrePackagedRulesStatusResponse)
    (rs : list PrePackagedRulesStatusResponse)
    (r : PrePackagedRulesStatusResponse) (rest : list Settlement) :
  session_state sid (run p mount evs) = Triggering →
  inflight (run p mount evs) !! pos = Some (ReqCreatePrepackagedRules sid) →
  Forall (λ r', nothing_left r' = false) rs →
  nothing_left r = true →
  S (length rs) ≤ 100 →
  let w' := poll p sid ((Fulfilled <$> rs) ++ Fulfilled r :: rest)
              (step p (run p mount evs) (Settles pos (Fulfilled x))) in
  session_state sid w' = Converged
  ∧ poll_calls sid w' = S (length rs)
  ∧ prepackagedDataStatus w' = status_of_response r.
Proof.
  intros Hst Hrq Hrs Hr Hk w'.
  assert (wf (run p mount evs)) as Hwf by apply wf_run, wf_mount.
  destruct (trigger_success_arms p _ pos sid x Hwf Hst Hrq) as [Ha0 _].
  destruct (poll_again p sid rs 0 _ Ha0 Hrs) as [Ha1 _]; [cbn; lia|].
  destruct (attempt_stop p sid _ r _ Ha1 (or_introl Hr)) as [Hs2 _].
  assert (w' = attempt p sid (Fulfilled r)
            (poll p sid (Fulfilled <$> rs)
               (step p (run p mount evs) (Settles pos (Fulfilled x))))) as ->.
  { subst w'. unfold poll at 1. rewrite foldl_app. cbn [foldl].
    fold (poll p sid (Fulfilled <$> rs)
            (step p (run p mount evs) (Settles pos (Fulfilled x)))).
    match goal with |- foldl _ ?a rest = _ =>
      change (foldl _ a rest) with (poll p sid rest a) end.
    by rewrite (stopped_poll p sid _ r rest _ Hs2). }
  rewrite (stopped_state _ _ _ _ Hs2), Hr.
  by destruct Hs2 as [_ Hstat _ _ Hcalls].
Qed.

(** ** What a rejected or late answer does *)

(** A rejected status query of a poller changes nothing but the pending
    promise itself: no toast, no settlement, no new timer, no state update. *)
Lemma poll_rejection_is_silent
    (p : UsePrePackagedRuleProps) (w : Hook) (pos sid : nat) :
  inflight w !! pos = Some (ReqStatusPoll sid) →
  step p w (Settles pos Rejected)
  = unhandledRejection (set_inflight (delete pos (inflight w)) w).
Proof. intros Hrq. cbn [step]. by rewrite Hrq. Qed.

Lemma resolved_alter (f : Session → Session) (sid sid' : nat) (l : list Session) :
  (∀ s, resolved (f s) = resolved s) →
  resolved <$> alter f sid l !! sid' = resolved <$> l !! sid'.
Proof.
  intros Hf. destruct (decide (sid = sid')) as [->|Hne].
  - rewrite list_lookup_alter_eq. destruct (l !! sid'); cbn; [|done].
    by rewrite Hf.
  - by rewrite list_lookup_alter_ne.
Qed.

(** Once the cleanup has run, the answer of any pending call updates
    neither the status record, nor the loading flags, nor the toaster, nor
    the settlement of any promise. *)
Lemma late_answer_discarded
    (p : UsePrePackagedRuleProps) (w : Hook) (pos : nat) (o : Settlement)
    (sid : nat) :
  isSubscribed w = false →
  let w' := step p w (Settles pos o) in
  prepackagedDataStatus w' = prepackagedDataStatus w
  ∧ loading w' = loading w
  ∧ loadingCreatePrePackagedRules w' = loadingCreatePrePackagedRules w
  ∧ toasts w' = toasts w
  ∧ resolved <$> sessions w' !! sid = resolved <$> sessions w !! sid.
Proof.
  intros Hsub w'. subst w'. cbn [step].
  destruct (inflight w !! pos) as [rq|]; [|done].
  destruct w as [sub ab st lc ld ts ss tm nx fl ac ur]. cbn in Hsub. subst sub.
  destruct rq as [s|s|], o as [r|]; unfold_ops; cbn; try done.
  destruct (ss !! s) as [x|]; cbn; [|done].
  split_and!; try done.
  by rewrite !resolved_alter.
Qed.

(** A poller whose hook was cleaned up arms a new timer on every answer. *)
Lemma cancelled_poller_rearms
    (p : UsePrePackagedRuleProps) (w : Hook) (pos sid : nat) (s : Session)
    (r : PrePackagedRulesStatusResponse) :
  isSubscribed w = false →
  sessions w !! sid = Some s →
  inflight w !! pos = Some (ReqStatusPoll sid) →
  n_timers sid (step p w (Settles pos (Fulfilled r))) = S (n_timers sid w).
Proof.
  intros Hsub Hs Hrq. cbn [step]. rewrite Hrq. cbn [resume].
  destruct (reFetch_resume_again sid r s
    (set_inflight (delete pos (inflight w)) w) Hs) as (_ & _ & _ & _ & -> & _).
  - change (isSubscribed (set_inflight ?l w)) with (isSubscribed w).
    by rewrite Hsub.
  - done.
Qed.

(** ** The status query fails during polling *)

(** C1, on the code.  Mount, let the status arrive, invoke
    [createElasticRules] with all inputs [true], let the trigger resolve,
    let the first timer fire and let the status query it makes reject.  The
    session is then neither Failed nor anything else the caller could see:
    its promise is still pending, the toaster is empty, the creation spinner
    is still on, and the event loop holds nothing for the session (the query
    is not retried).  The only trace is one unhandled rejection. *)
Theorem poll_failure_is_silent :
  let w := run all_granted started [TimerFires 0; Settles 0 Rejected] in
  session_state 0 w = Stalled
  ∧ resolved <$> sessions w !! 0 = Some None
  ∧ toasts w = []
  ∧ loadingCreatePrePackagedRules w = true
  ∧ pending 0 w = 0
  ∧ poll_calls 0 w = 1
  ∧ unhandledRejections w = 1.
Proof. vm_compute. done. Qed.

(** ** Cleanup during polling *)

(** C3, on the code.  Start as before.  (a) Run the cleanup while the first
    timer of session 0 is registered: the timer still fires and its callback
    still calls [getPrePackagedRulesStatus], with the aborted signal.
    (b) Run the cleanup while the first status query is in flight: when its
    answer arrives, the status record, the toaster and the promise are left
    alone, but the callback registers a new timer, which fires and makes a
    second status query, after the cleanup. *)
Theorem cancelled_poller_still_queries :
  let a1 := step all_granted started Cleanup in
  let a2 := step all_granted a1 (TimerFires 0) in
  let b1 := step all_granted started (TimerFires 0) in
  let b2 := step all_granted b1 Cleanup in
  let b3 := step all_granted b2 (Settles 0 (Fulfilled (answer 0))) in
  let b4 := step all_granted b3 (TimerFires 0) in
  (isSubscribed a1 = false ∧ aborted a1 = true
   ∧ poll_calls 0 a1 = 0
   ∧ poll_calls 0 a2 = 1
   ∧ call_signal_aborted <$> apiCalls a2 = [false; false; true])
  ∧ (isSubscribed b2 = false ∧ aborted b2 = true
     ∧ poll_calls 0 b2 = 1
     ∧ prepackagedDataStatus b3 = prepackagedDataStatus b2
     ∧ toasts b3 = toasts b2
     ∧ resolved <$> sessions b3 !! 0 = Some None
     ∧ length (timers_of 0 b3) = 1
     ∧ poll_calls 0 b4 = 2
     ∧ call_signal_aborted <$> apiCalls b4 = [false; false; false; true]).
Proof. vm_compute. done. Qed.

(** ** The budget *)

(** C2 fails as stated.  With every answer reporting one rule not installed,
    session 0 is still Polling after 100 status queries have been answered;
    it becomes Exhausted on the answer of the 101st, so the number of status
    queries of the exhausted session is 101 and not 100. *)
Lemma exhausted_not_after_100_calls :
  session_state 0 (poll all_granted 0 (replicate 100 (Fulfilled (answer 1))) started)
  = Polling
  ∧ poll_calls 0 (poll all_granted 0 (replicate 100 (Fulfilled (answer 1))) started)
    = 100
  ∧ session_state 0 (poll all_granted 0 (replicate 150 (Fulfilled (answer 1))) started)
    = Exhausted
  ∧ poll_calls 0 (poll all_granted 0 (replicate 150 (Fulfilled (answer 1))) started)
    ≠ 100.
Proof. vm_compute. split_and!; (done || lia). Qed.

(** The first scenario of the specification, with the budget the code has:
    answers 2, 1, 0 end the session Converged after three status queries,
    and the record kept shows 0 rules not installed. *)
Example scenario_converges_on_third_answer :
  let w := poll all_granted 0 (Fulfilled <$> [answer 2; answer 1; answer 0]) started in
  session_state 0 w = Converged
  ∧ poll_calls 0 w = 3
  ∧ rulesNotInstalled (prepackagedDataStatus w) = Some 0%Z.
Proof. vm_compute. done. Qed.

(** ** The theorems at concrete inputs *)

(** A refetch fails after a first status was stored. *)
Lemma fetch_failure_resets_status_witness :
  isSubscribed refetching = true
  ∧ inflight refetching !! 0 = Some ReqStatusFetch
  ∧ rulesNotInstalled (prepackagedDataStatus refetching) = Some 3%Z
  ∧ prepackagedDataStatus (step all_granted refetching (Settles 0 Rejected))
    = null_status
  ∧ toasts (step all_granted refetching (Settles 0 Rejected))
    = [ErrorToast RULE_AND_TIMELINE_FETCH_FAILURE]
  ∧ loading (step all_granted refetching (Settles 0 Rejected)) = false.
Proof.
  assert (isSubscribed refetching = true) as H1 by reflexivity.
  assert (inflight refetching !! 0 = Some ReqStatusFetch) as H2 by reflexivity.
  split; [exact H1|]. split; [exact H2|]. split; [reflexivity|].
  exact (fetch_failure_resets_status all_granted refetching 0 H1 H2).
Defined.

(** An invocation by a user who may not edit rules. *)
Lemma closed_guard_resolves_false_witness :
  canUserCRUD read_only ≠ Some true
  ∧ resolved <$> sessions (step read_only mounted CallCreatePrePackagedRules) !! 0
    = Some (Some false)
  ∧ apiCalls (step read_only mounted CallCreatePrePackagedRules) = apiCalls mounted
  ∧ loadingCreatePrePackagedRules (step read_only mounted CallCreatePrePackagedRules)
    = false.
Proof.
  assert (canUserCRUD read_only ≠ Some true) as H1 by discriminate.
  split; [exact H1|].
  destruct (closed_guard_resolves_false read_only mounted (or_introl H1))
    as (Ha & Hb & _ & _ & _ & _ & Hc & _).
  split; [exact Ha|]. split; [exact Hb|exact Hc].
Defined.

(** The cleanup after session 0 has converged on its first answer. *)
Lemma cleanup_idempotent_witness :
  terminal (session_state 0 (run all_granted started
     [TimerFires 0; Settles 0 (Fulfilled (answer 0))])) = true
  ∧ session_state 0 (step all_granted (run all_granted started
       [TimerFires 0; Settles 0 (Fulfilled (answer 0))]) Cleanup)
    = Converged.
Proof.
  assert (terminal (session_state 0 (run all_granted started
     [TimerFires 0; Settles 0 (Fulfilled (answer 0))])) = true) as H1
    by reflexivity.
  split; [exact H1|].
  destruct (cleanup_idempotent all_granted (run all_granted started
     [TimerFires 0; Settles 0 (Fulfilled (answer 0))]) 0) as (_ & Ha & _).
  rewrite (Ha H1). reflexivity.
Defined.

(** The trigger of session 0 rejects. *)
Lemma trigger_failure_fails_session_witness :
  session_state 0 triggered = Triggering
  ∧ inflight triggered !! 0 = Some (ReqCreatePrepackagedRules 0)
  ∧ session_state 0 (step all_granted triggered (Settles 0 Rejected)) = Failed
  ∧ poll_calls 0 (step all_granted triggered (Settles 0 Rejected)) = 0
  ∧ toasts (step all_granted triggered (Settles 0 Rejected))
    = [ErrorToast RULE_AND_TIMELINE_PREPACKAGED_FAILURE].
Proof.
  assert (session_state 0 triggered = Triggering) as H1 by reflexivity.
  assert (inflight triggered !! 0 = Some (ReqCreatePrepackagedRules 0)) as H2
    by reflexivity.
  split; [exact H1|]. split; [exact H2|].
  destruct (trigger_failure_fails_session all_granted
    [Settles 0 (Fulfilled (answer 3)); CallCreatePrePackagedRules] 0 0 H1 H2)
    as (Ha & _ & _ & Hb & Hc & _).
  split; [exact Ha|]. split; [exact Hb|exact Hc].
Defined.

(** The first answer of session 0: nothing left, or 4 rules left. *)
Lemma converges_iff_nothing_left_witness :
  session_state 0 (step all_granted started (TimerFires 0)) = Polling
  ∧ inflight (step all_granted started (TimerFires 0)) !! 0 = Some (ReqStatusPoll 0)
  ∧ sessions (step all_granted started (TimerFires 0)) !! 0
    = Some {| iterationTryOfFetchingPrePackagedCount := 1; timeoutId := 1;
              prePackagedRuleStatusResponse := None; resolved := None |}
  ∧ session_state 0 (step all_granted (step all_granted started (TimerFires 0))
                       (Settles 0 (Fulfilled (answer 0)))) = Converged
  ∧ session_state 0 (step all_granted (step all_granted started (TimerFires 0))
                       (Settles 0 (Fulfilled (answer 4)))) = Polling.
Proof.
  assert (session_state 0 (step all_granted started (TimerFires 0)) = Polling)
    as H1 by reflexivity.
  assert (inflight (step all_granted started (TimerFires 0)) !! 0
          = Some (ReqStatusPoll 0)) as H2 by reflexivity.
  assert (sessions (step all_granted started (TimerFires 0)) !! 0
    = Some {| iterationTryOfFetchingPrePackagedCount := 1; timeoutId := 1;
              prePackagedRuleStatusResponse := None; resolved := None |})
    as H3 by reflexivity.
  assert (1 ≤ 100) as H4 by lia.
  split; [exact H1|]. split; [exact H2|]. split; [exact H3|]. split.
  - destruct (converges_iff_nothing_left all_granted _ 0 0 _ (answer 0)
      H1 H2 H3 H4) as ([_ Ha] & _). apply Ha. by cbn.
  - destruct (converges_iff_nothing_left all_granted _ 0 0 _ (answer 4)
      H1 H2 H3 H4) as (_ & _ & Ha). apply Ha. cbn. intros [? _]. done.
Defined.

(** Session 0 converges on its third answer, in the middle of other events. *)
Lemma converges_at_attempt_witness :
  session_state 0 triggered = Triggering
  ∧ inflight triggered !! 0 = Some (ReqCreatePrepackagedRules 0)
  ∧ session_run all_granted 0 started (Fulfilled <$> [answer 2; answer 1])
      (run all_granted started busy_stretch)
  ∧ Forall (λ r', nothing_left r' = false) [answer 2; answer 1]
  ∧ inflight (run all_granted started busy_stretch) !! 1 = Some (ReqStatusPoll 0)
  ∧ nothing_left (answer 0) = true
  ∧ session_state 0
      (step all_granted (run all_granted started busy_stretch)
         (Settles 1 (Fulfilled (answer 0)))) = Converged
  ∧ poll_calls 0
      (step all_granted (run all_granted started busy_stretch)
         (Settles 1 (Fulfilled (answer 0)))) = 3.
Proof.
  assert (session_state 0 triggered = Triggering) as H1 by reflexivity.
  assert (inflight triggered !! 0 = Some (ReqCreatePrepackagedRules 0)) as H2
    by reflexivity.
  assert (session_run all_granted 0 started (Fulfilled <$> [answer 2; answer 1])
            (run all_granted started busy_stretch)) as H3
    by (apply own_answers_sound; vm_compute; reflexivity).
  assert (Forall (λ r', nothing_left r' = false) [answer 2; answer 1]) as H4
    by (repeat constructor).
  assert (inflight (run all_granted started busy_stretch) !! 1
          = Some (ReqStatusPoll 0)) as H5 by (vm_compute; reflexivity).
  assert (nothing_left (answer 0) = true) as H6 by reflexivity.
  assert (S (length [answer 2; answer 1]) ≤ 100) as H7 by (cbn; lia).
  split; [exact H1|]. split; [exact H2|]. split; [exact H3|].
  split; [exact H4|]. split; [exact H5|]. split; [exact H6|].
  pose proof (converges_at_attempt all_granted
    [Settles 0 (Fulfilled (answer 3)); CallCreatePrePackagedRules] 0 0
    (answer 0) [answer 2; answer 1] _ 1 (answer 0) H1 H2 H3 H4 H5 H6 H7) as H.
  destruct H as (Ha & Hb & _).
  split; [exact Ha|exact Hb].
Defined.

(** Session 0 is exhausted by 101 answers with 1 rule left. *)
Lemma exhausted_after_101_calls_witness :
  session_state 0 triggered = Triggering
  ∧ inflight triggered !! 0 = Some (ReqCreatePrepackagedRules 0)
  ∧ session_run all_granted 0 started (Fulfilled <$> replicate 100 (answer 1))
      before_answer_101
  ∧ Forall (λ r', nothing_left r' = false) (replicate 100 (answer 1))
  ∧ inflight before_answer_101 !! 0 = Some (ReqStatusPoll 0)
  ∧ nothing_left (answer 1) = false
  ∧ session_state 0
      (step all_granted before_answer_101 (Settles 0 (Fulfilled (answer 1))))
    = Exhausted
  ∧ poll_calls 0
      (step all_granted before_answer_101 (Settles 0 (Fulfilled (answer 1))))
    = 101.
Proof.
  assert (session_state 0 triggered = Triggering) as H1 by reflexivity.
  assert (inflight triggered !! 0 = Some (ReqCreatePrepackagedRules 0)) as H2
    by reflexivity.
  assert (Forall (λ r', nothing_left r' = false) (replicate 100 (answer 1))) as H4
    by (apply Forall_replicate; reflexivity).
  assert (session_run all_granted 0 started
            (Fulfilled <$> replicate 100 (answer 1)) before_answer_101) as H3
    by (apply own_answers_sound; vm_compute; reflexivity).
  assert (inflight before_answer_101 !! 0 = Some (ReqStatusPoll 0)) as H5
    by (vm_compute; reflexivity).
  assert (nothing_left (answer 1) = false) as H6 by reflexivity.
  assert (length (replicate 100 (answer 1)) = 100) as H7
    by apply length_replicate.
  split; [exact H1|]. split; [exact H2|]. split; [exact H3|].
  split; [exact H4|]. split; [exact H5|]. split; [exact H6|].
  pose proof (exhausted_after_101_calls all_granted
    [Settles 0 (Fulfilled (answer 3)); CallCreatePrePackagedRules] 0 0
    (answer 0) (replicate 100 (answer 1)) _ 0 (answer 1) H1 H2 H3 H4 H5 H6 H7)
    as H.
  destruct H as (Ha & Hb & _).
  split; [exact Ha|exact Hb].
Defined.

(** * Further properties of the hook *)

(** ** Runs *)

Lemma run_snoc (p : UsePrePackagedRuleProps) (w : Hook) (evs : list Event) (e : Event) :
  run p w (evs ++ [e]) = step p (run p w evs) e.
Proof. unfold run. by rewrite foldl_app. Qed.

Lemma run_app (p : UsePrePackagedRuleProps) (w : Hook) (evs evs' : list Event) :
  run p w (evs ++ evs') = run p (run p w evs) evs'.
Proof. unfold run. by rewrite foldl_app. Qed.

(** ** The object returned by the hook *)

Lemma step_status (p : UsePrePackagedRuleProps) (w : Hook) (e : Event) :
  prepackagedDataStatus (step p w e) = prepackagedDataStatus w
  ∨ prepackagedDataStatus (step p w e) = null_status
  ∨ ∃ r, prepackagedDataStatus (step p w e) = status_of_response r.
Proof.
  destruct w as [sub ab st lc ld ts ss tm nx fl ac ur].
  destruct e as [| |pos|pos o|]; cbn [step]; unfold_ops; cbn.
  - destruct (guard_open p); by left.
  - by left.
  - destruct (tm !! pos); by left.
  - destruct (fl !! pos) as [[b|b|]|]; cbn; [| | |by left].
    + destruct o, sub; by left.
    + destruct o as [r|]; [|by left].
      destruct (ss !! b); [|by left]. cbn.
      destruct (sub && _); cbn; [|by left].
      rewrite list_lookup_alter_eq. destruct (ss !! b); cbn; [|right; right; by exists r].
      case_decide; right; right; by exists r.
    + destruct o as [r|], sub; cbn; eauto.
  - by left.
Qed.

Lemma status_shape (p : UsePrePackagedRuleProps) (evs : list Event) :
  prepackagedDataStatus (run p mount evs) = null_status
  ∨ ∃ r, prepackagedDataStatus (run p mount evs) = status_of_response r.
Proof.
  induction evs as [|e evs IH] using rev_ind; [by left|].
  unfold run in *. rewrite foldl_app. cbn [foldl].
  destruct (step_status p (foldl (step p) mount evs) e) as [->|[->|[r ->]]];
    [done|by left|right; by exists r].
Qed.

(** X1.  The callbacks and the counters are null together: the hook returns
    either nothing but [null]s in the nine fields of the status record, or
    both callbacks and the seven counters of one answer of the status
    query. *)
Theorem callbacks_and_counters_together
    (p : UsePrePackagedRuleProps) (evs : list Event) :
  let ret := usePrePackagedRules (run p mount evs) in
  (Return.createPrePackagedRules ret = None
   ∧ Return.refetchPrePackagedRulesStatus ret = None
   ∧ Return.rulesCustomInstalled ret = None
   ∧ Return.rulesInstalled ret = None
   ∧ Return.rulesNotInstalled ret = None
   ∧ Return.rulesNotUpdated ret = None
   ∧ Return.timelinesInstalled ret = None
   ∧ Return.timelinesNotInstalled ret = None
   ∧ Return.timelinesNotUpdated ret = None)
  ∨ (∃ r,
      Return.createPrePackagedRules ret = Some createElasticRules
      ∧ Return.refetchPrePackagedRulesStatus ret = Some fetchPrePackagedRules
      ∧ Return.rulesCustomInstalled ret = Some (rules_custom_installed r)
      ∧ Return.rulesInstalled ret = Some (rules_installed r)
      ∧ Return.rulesNotInstalled ret = Some (rules_not_installed r)
      ∧ Return.rulesNotUpdated ret = Some (rules_not_updated r)
      ∧ Return.timelinesInstalled ret = Some (timelines_installed r)
      ∧ Return.timelinesNotInstalled ret = Some (timelines_not_installed r)
      ∧ Return.timelinesNotUpdated ret = Some (timelines_not_updated r)).
Proof.
  cbn. destruct (status_shape p evs) as [->|[r ->]]; [by left|].
  right. by exists r.
Qed.

(** ** After the cleanup *)

Lemma promises_lookup_eq (w w' : Hook) :
  (∀ sid, resolved <$> sessions w' !! sid = resolved <$> sessions w !! sid) →
  promises w' = promises w.
Proof.
  intros H. apply list_eq. intros i. unfold promises.
  rewrite !list_lookup_fmap. apply H.
Qed.

Lemma passive_unsubscribed_step (p : UsePrePackagedRuleProps) (w : Hook) (e : Event) :
  isSubscribed w = false → passive e = true →
  isSubscribed (step p w e) = false
  ∧ usePrePackagedRules (step p w e) = usePrePackagedRules w
  ∧ toasts (step p w e) = toasts w
  ∧ promises (step p w e) = promises w.
Proof.
  intros Hsub Hpas. destruct e as [| |pos|pos o|]; try done.
  - cbn [step]. destruct (timers w !! pos) as [t|]; [|done].
    split_and!; try done. apply promises_lookup_eq. intros sid.
    unfold reFetch_callback, upd_session, call_api. cbn.
    by rewrite resolved_alter.
  - assert (isSubscribed (step p w (Settles pos o)) = false) as Hsub'.
    { cbn [step]. destruct (inflight w !! pos) as [rq|]; [|done].
      destruct w as [sub ab st lc ld ts ss tm nx fl ac ur]. cbn in Hsub. subst sub.
      destruct rq as [s|s|], o as [r|]; unfold_ops; cbn; try done.
      by destruct (ss !! s). }
    destruct (late_answer_discarded p w pos o 0 Hsub) as (H1 & H2 & H3 & H4 & _).
    split_and!; try done.
    + unfold usePrePackagedRules. by rewrite H1, H2, H3.
    + apply promises_lookup_eq. intros sid.
      by destruct (late_answer_discarded p w pos o sid Hsub) as (_ & _ & _ & _ & ?).
Qed.

(** X2.  After the cleanup, what timers and promises still do is invisible:
    whatever timers fire and whatever calls settle, the object returned by
    the hook, the toaster and every promise handed out stay as they were at
    the cleanup. *)
Theorem nothing_visible_after_cleanup
    (p : UsePrePackagedRuleProps) (w : Hook) (evs : list Event) :
  isSubscribed w = false →
  forallb passive evs = true →
  usePrePackagedRules (run p w evs) = usePrePackagedRules w
  ∧ toasts (run p w evs) = toasts w
  ∧ promises (run p w evs) = promises w.
Proof.
  revert w. induction evs as [|e evs IH]; intros w Hsub Hpas; [done|].
  cbn in Hpas. apply andb_true_iff in Hpas as [He Hevs].
  destruct (passive_unsubscribed_step p w e Hsub He) as (H1 & H2 & H3 & H4).
  destruct (IH (step p w e) H1 Hevs) as (H5 & H6 & H7).
  change (run p w (e :: evs)) with (run p (step p w e) evs).
  split_and!; congruence.
Qed.

(** ** The signal passed to the API *)

Lemma step_apiCalls (p : UsePrePackagedRuleProps) (w : Hook) (e : Event) :
  ∃ l, apiCalls (step p w e) = apiCalls w ++ l
       ∧ Forall (λ c, call_signal_aborted c = aborted w) l.
Proof.
  destruct w as [sub ab st lc ld ts ss tm nx fl ac ur].
  destruct e as [| |pos|pos o|]; cbn [step]; unfold_ops; cbn.
  - destruct (guard_open p); cbn; [eexists [_]|exists []];
      by rewrite ?app_nil_r; repeat constructor.
  - eexists [_]. by repeat constructor.
  - destruct (tm !! pos); cbn; [eexists [_]|exists []];
      by rewrite ?app_nil_r; repeat constructor.
  - exists []. rewrite app_nil_r. split; [|constructor].
    destruct (fl !! pos) as [[b|b|]|]; cbn; [| | |done].
    + by destruct o, sub.
    + destruct o as [r|]; [|done]. destruct (ss !! b); [|done]. cbn.
      destruct (sub && _); cbn; [|done].
      rewrite list_lookup_alter_eq. destruct (ss !! b); cbn; [|done].
      by case_decide.
    + by destruct o, sub.
  - exists []. by rewrite app_nil_r.
Qed.

Lemma step_aborted (p : UsePrePackagedRuleProps) (w : Hook) (e : Event) :
  aborted w = negb (isSubscribed w) →
  aborted (step p w e) = negb (isSubscribed (step p w e))
  ∧ (isSubscribed w = false → isSubscribed (step p w e) = false).
Proof.
  destruct w as [sub ab st lc ld ts ss tm nx fl ac ur]. cbn. intros ->.
  destruct e as [| |pos|pos o|]; cbn [step]; unfold_ops; cbn.
  - by destruct (guard_open p).
  - done.
  - by destruct (tm !! pos).
  - destruct (fl !! pos) as [[b|b|]|]; cbn; [| | |done].
    + by destruct o, sub.
    + destruct o as [r|]; [|done]. destruct (ss !! b); [|done]. cbn.
      destruct sub; cbn; [|done]. destruct (_ || _); cbn; [|done].
      rewrite list_lookup_alter_eq. destruct (ss !! b); cbn; [|done].
      by case_decide.
    + by destruct o, sub.
  - done.
Qed.

Lemma run_aborted (p : UsePrePackagedRuleProps) (evs : list Event) (w : Hook) :
  aborted w = negb (isSubscribed w) →
  aborted (run p w evs) = negb (isSubscribed (run p w evs))
  ∧ (isSubscribed w = false → isSubscribed (run p w evs) = false).
Proof.
  revert w. induction evs as [|e evs IH]; intros w Hw; [done|].
  destruct (step_aborted p w e Hw) as [H1 H2].
  destruct (IH _ H1) as [H3 H4].
  change (run p w (e :: evs)) with (run p (step p w e) evs).
  split; [done|]. auto.
Qed.

Lemma run_apiCalls_aborted (p : UsePrePackagedRuleProps) (evs : list Event)
    (w : Hook) :
  aborted w = true → isSubscribed w = false →
  ∃ l, apiCalls (run p w evs) = apiCalls w ++ l
       ∧ Forall (λ c, call_signal_aborted c = true) l.
Proof.
  revert w. induction evs as [|e evs IH]; intros w Hab Hsub.
  - exists []. by rewrite app_nil_r.
  - destruct (step_apiCalls p w e) as (l1 & E1 & F1). rewrite Hab in F1.
    destruct (step_aborted p w e) as [H1 H2]; [by rewrite Hab, Hsub|].
    destruct (IH (step p w e)) as (l2 & E2 & F2).
    { rewrite H1, H2; done. }
    { by apply H2. }
    exists (l1 ++ l2).
    change (run p w (e :: evs)) with (run p (step p w e) evs).
    rewrite E2, E1, app_assoc. split; [done|].
    by apply Forall_app.
Qed.

(** X3.  The signal is aborted exactly from the cleanup on: every call of the API
    made before the cleanup passes a live signal, and every call made after
    it (by a timer that was still registered, by a callback a consumer still
    holds) passes the aborted one. *)
Theorem signal_aborted_from_cleanup_on
    (p : UsePrePackagedRuleProps) (evs1 evs2 : list Event) :
  (isSubscribed (run p mount evs1) = true →
   Forall (λ c, call_signal_aborted c = false) (apiCalls (run p mount evs1)))
  ∧ ∃ l,
      apiCalls (run p (step p (run p mount evs1) Cleanup) evs2)
      = apiCalls (run p mount evs1) ++ l
      ∧ Forall (λ c, call_signal_aborted c = true) l.
Proof.
  split.
  - clear evs2. induction evs1 as [|e evs IH] using rev_ind.
    + intros _. cbn. by repeat constructor.
    + rewrite run_snoc. set (w := run p mount evs) in *. intros Hsub.
      destruct (run_aborted p evs mount eq_refl) as [Hab Hst]. fold w in Hab.
      destruct (step_aborted p w e Hab) as [_ Hmono].
      destruct (isSubscribed w) eqn:Hw; [|by rewrite Hmono in Hsub].
      destruct (step_apiCalls p w e) as (l & -> & Hl). rewrite Hab in Hl.
      apply Forall_app. split; [by apply IH|done].
  - destruct (run_aborted p evs1 mount eq_refl) as [Hab _].
    apply (run_apiCalls_aborted p evs2 (step p (run p mount evs1) Cleanup));
      by cbn.
Qed.

(** ** Accounting *)

Lemma step_subscribed (p : UsePrePackagedRuleProps) (w : Hook) (e : Event) :
  isSubscribed (step p w e)
  = match e with Cleanup => false | _ => isSubscribed w end.
Proof.
  destruct w as [sub ab st lc ld ts ss tm nx fl ac ur].
  destruct e as [| |pos|pos o|]; cbn [step]; unfold_ops; cbn.
  - by destruct (guard_open p).
  - done.
  - by destruct (tm !! pos).
  - destruct (fl !! pos) as [[b|b|]|]; cbn; [| | |done].
    + by destruct o, sub.
    + destruct o as [r|]; [|done]. destruct (ss !! b); [|done]. cbn.
      destruct (sub && _); cbn; [|done].
      rewrite list_lookup_alter_eq. destruct (ss !! b); cbn; [|done].
      by case_decide.
    + by destruct o, sub.
  - done.
Qed.

Lemma step_calls (p : UsePrePackagedRuleProps) (w : Hook) (e : Event) (sid : nat) :
  trigger_calls sid (step p w e)
  = trigger_calls sid w
    + match e with
      | CallCreatePrePackagedRules =>
          if decide (guard_open p = true ∧ sid = length (sessions w)) then 1 else 0
      | _ => 0
      end
  ∧ length (sessions (step p w e))
    = length (sessions w)
      + match e with CallCreatePrePackagedRules => 1 | _ => 0 end.
Proof.
  destruct e as [| |pos|pos o|]; cbn [step].
  - destruct (create_counts p w sid) as (_ & _ & _ & _ & H5 & H6). lia.
  - unfold fetchPrePackagedRules_call.
    destruct (call_api_counts ReqStatusFetch (setLoading true w) sid)
      as (_ & _ & _ & _ & H5 & H6).
    rewrite decide_False in H5 by done. rewrite H5, H6. cbn. unfold trigger_calls. cbn. lia.
  - destruct (timers w !! pos) as [t|] eqn:Ht; [|lia].
    destruct (timer_counts w pos t sid Ht) as (_ & _ & _ & _ & H5 & H6). lia.
  - destruct (inflight w !! pos) as [rq|] eqn:Hrq; [|lia].
    destruct (resume_counts rq o (set_inflight (delete pos (inflight w)) w) sid)
      as (_ & _ & _ & _ & H5 & H6).
    rewrite H5, H6. unfold trigger_calls. cbn. lia.
  - unfold trigger_calls. cbn. lia.
Qed.

Lemma create_new (p : UsePrePackagedRuleProps) (w : Hook) :
  sessions (createElasticRules_call p w) !! length (sessions w)
  = Some (if guard_open p then new_session else resolve false new_session).
Proof.
  unfold createElasticRules_call, upd_session, call_api.
  destruct (guard_open p); cbn.
  - by rewrite lookup_app_r, Nat.sub_diag by lia.
  - rewrite list_lookup_alter_eq, lookup_app_r, Nat.sub_diag by lia. done.
Qed.

Lemma resume_own (rq : Request) (o : Settlement) (w : Hook) (sid : nat) (s : Session) :
  sessions w !! sid = Some s →
  ∃ s', sessions (resume rq o w) !! sid = Some s'
    ∧ (iterationTryOfFetchingPrePackagedCount s'
         = iterationTryOfFetchingPrePackagedCount s
       ∨ (rq = ReqCreatePrepackagedRules sid
          ∧ iterationTryOfFetchingPrePackagedCount s' = 0))
    ∧ (resolved s' = resolved s
       ∨ n_timers sid (resume rq o w) ≤ n_timers sid w)
    ∧ (rq = ReqStatusPoll sid → isSubscribed w = true →
       100 < iterationTryOfFetchingPrePackagedCount s →
       n_timers sid (resume rq o w) ≤ n_timers sid w).
Proof.
  intros Hs. destruct rq as [b|b|]; cbn [resume].
  - unfold createElasticRules_resume.
    destruct o as [r|], (isSubscribed w) eqn:Hsub;
      try (exists s; split_and!; [done|by left|by left|done]).
    + unfold assign_reFetch, reFetch, setTimeout, upd_session. cbn.
      destruct (decide (b = sid)) as [->|Hne].
      * rewrite !list_lookup_alter_eq, Hs. cbn.
        eexists. split_and!; [done| |by left|done]. right. done.
      * rewrite !list_lookup_alter_ne by done.
        exists s; split_and!; [done|by left|by left|done].
    + unfold upd_session. cbn.
      destruct (decide (b = sid)) as [->|Hne].
      * rewrite !list_lookup_alter_eq, Hs. cbn.
        eexists. split_and!; [done|by left| |done]. right. done.
      * rewrite !list_lookup_alter_ne by done.
        exists s; split_and!; [done|by left|by left|done].
  - unfold reFetch_resume.
    destruct o as [r|]; [|exists s; split_and!; [done|by left|by left|done]].
    destruct (sessions w !! b) as [x|] eqn:Hx;
      [|exists s; split_and!; [done|by left|by left|done]].
    destruct (isSubscribed _ && _) eqn:Hc.
    + set (w1 := dispatchToaster _ _).
      destruct (stopTimeOut_counts b w1 sid) as (H1 & _ & _ & _ & _ & H6).
      assert (n_timers sid (upd_session b (resolve true) (stopTimeOut b w1))
              ≤ n_timers sid w) as Hn by exact H1.
      unfold upd_session at 1. cbn [sessions set_sessions]. rewrite H6.
      subst w1. unfold upd_session. cbn.
      destruct (decide (b = sid)) as [->|Hne].
      * rewrite !list_lookup_alter_eq, Hs. cbn.
        eexists. split_and!; [done|by left|by right|done].
      * rewrite !list_lookup_alter_ne by done.
        exists s; split_and!; [done|by left|by left|done].
    + unfold assign_reFetch, reFetch, setTimeout, upd_session. cbn.
      destruct (decide (b = sid)) as [->|Hne].
      * rewrite !list_lookup_alter_eq, Hs. cbn.
        eexists. split_and!; [done|by left|by left|].
        intros _ Hsub Hit. exfalso.
        rewrite Hs in Hx. injection Hx as <-.
        cbn -[Nat.ltb nothing_left] in Hc. rewrite Hsub in Hc.
        cbn [andb] in Hc.
        apply orb_false_iff in Hc as [_ Hc]. apply Nat.ltb_ge in Hc. lia.
      * rewrite !list_lookup_alter_ne by done.
        exists s; split_and!; [done|by left|by left|].
        intros [=]. done.
  - exists s. split_and!; [|by left|by left|done].
    unfold fetchPrePackagedRules_resume.
    destruct o, (isSubscribed w) eqn:Hsub; cbn; rewrite ?Hsub; cbn; rewrite ?Hsub; done.
Qed.

(** Where the variables of a session come from, one turn of the event loop
    earlier. *)
Lemma session_after (p : UsePrePackagedRuleProps) (w : Hook) (e : Event)
    (sid : nat) (s' : Session) :
  ids_ok w →
  sessions (step p w e) !! sid = Some s' →
  (sessions w !! sid = None ∧ e = CallCreatePrePackagedRules
   ∧ sid = length (sessions w)
   ∧ s' = if guard_open p then new_session else resolve false new_session)
  ∨ ∃ s, sessions w !! sid = Some s
    ∧ ((same_for sid w (step p w e) ∧ s' = s)
       ∨ (e = Cleanup ∧ s' = s)
       ∨ (∃ pos t, e = TimerFires pos ∧ timers w !! pos = Some t
            ∧ timer_session t = sid
            ∧ s' = set_iteration (S (iterationTryOfFetchingPrePackagedCount s)) s)
       ∨ (∃ pos o rq, e = Settles pos o ∧ inflight w !! pos = Some rq
            ∧ (rq = ReqStatusPoll sid ∨ rq = ReqCreatePrepackagedRules sid)
            ∧ (iterationTryOfFetchingPrePackagedCount s'
                 = iterationTryOfFetchingPrePackagedCount s
               ∨ (rq = ReqCreatePrepackagedRules sid
                  ∧ iterationTryOfFetchingPrePackagedCount s' = 0))
            ∧ (resolved s' = resolved s
               ∨ n_timers sid (step p w e) ≤ n_timers sid w)
            ∧ (rq = ReqStatusPoll sid → isSubscribed w = true →
               100 < iterationTryOfFetchingPrePackagedCount s →
               n_timers sid (step p w e) ≤ n_timers sid w))).
Proof.
  intros Hids Hs'.
  destruct (sessions w !! sid) as [s|] eqn:Hs.
  - right. exists s. split; [done|].
    destruct (foreign sid w e) eqn:Hf.
    { left. pose proof (foreign_frame p w e sid s Hids Hs Hf) as Hsame.
      split; [done|]. destruct Hsame as (E1 & _). congruence. }
    right. destruct e as [| |pos|pos o|]; cbn [foreign] in Hf; try done.
    + right. left. destruct (timers w !! pos) as [t|] eqn:Ht; [|done].
      apply bool_decide_eq_false in Hf. apply dec_stable in Hf.
      exists pos, t. split_and!; try done.
      cbn [step] in Hs'. rewrite Ht in Hs'.
      unfold reFetch_callback, upd_session, call_api in Hs'. cbn in Hs'.
      rewrite Hf, list_lookup_alter_eq, Hs in Hs'. cbn in Hs'. congruence.
    + right. right. destruct (inflight w !! pos) as [rq|] eqn:Hrq; [|done].
      apply bool_decide_eq_false in Hf.
      assert (rq = ReqStatusPoll sid ∨ rq = ReqCreatePrepackagedRules sid) as Hown.
      { destruct (decide (rq = ReqStatusPoll sid)); [by left|].
        destruct (decide (rq = ReqCreatePrepackagedRules sid)); [by right|].
        destruct Hf. done. }
      exists pos, o, rq. split_and!; try done.
      all: cbn [step] in *; rewrite Hrq in *.
      all: destruct (resume_own rq o (set_inflight (delete pos (inflight w)) w)
             sid s Hs) as (s'' & E & H1 & H2 & H3).
      all: rewrite E in Hs'; injection Hs' as <-; done.
    + left. split; [done|]. cbn in Hs'. congruence.
  - left. apply lookup_ge_None in Hs.
    pose proof (lookup_lt_Some _ _ _ Hs') as Hlt.
    destruct (step_calls p w e sid) as [_ Hlen].
    destruct e as [| |pos|pos o|]; try lia.
    assert (sid = length (sessions w)) as -> by lia.
    split_and!; [done..|].
    cbn [step] in Hs'. rewrite create_new in Hs'. congruence.
Qed.

Lemma acct_step (p : UsePrePackagedRuleProps) (w : Hook) (e : Event) :
  ids_ok w → wf w → acct w → acct (step p w e).
Proof.
  intros Hids Hwf [Hit Htr Hfr Hpo Hpe Hbu].
  pose proof (wf_step p w e Hwf) as Hwf'.
  split.
  - intros sid s' Hs'.
    destruct (session_after p w e sid s' Hids Hs')
      as [(Hs & -> & -> & ->)|(s & Hs & [[Hsame ->]|[[-> ->]|[Ht|Hr]]])].
    + destruct (create_counts p w (length (sessions w))) as (_ & _ & _ & H4 & _).
      cbn [step]. rewrite H4.
      destruct (wf_fresh w Hwf (length (sessions w))) as [_ ->]; [done|].
      by destruct (guard_open p).
    + destruct Hsame as (_ & _ & _ & _ & -> & _). by apply Hit.
    + by apply Hit.
    + destruct Ht as (pos & t & -> & Ht & Hsid & ->). cbn [step]. rewrite Ht.
      destruct (timer_counts w pos t sid Ht) as (_ & _ & _ & H4 & _).
      rewrite decide_True in H4 by done. rewrite H4. cbn.
      rewrite (Hit sid s Hs). lia.
    + destruct Hr as (pos & o & rq & -> & Hrq & Hown & H1 & _).
      cbn [step]. rewrite Hrq.
      destruct (resume_counts rq o (set_inflight (delete pos (inflight w)) w) sid)
        as (_ & _ & _ & H4 & _).
      rewrite H4. change (poll_calls sid (set_inflight ?l w)) with (poll_calls sid w).
      destruct H1 as [->|[-> ->]]; [by apply Hit|].
      destruct (delete_request_counts w pos _ sid Hrq) as [_ H2].
      rewrite decide_True in H2 by done.
      destruct (wf_trigger w Hwf sid) as [-> _]; [lia|done].
  - intros sid. destruct (step_calls p w e sid) as [-> _].
    specialize (Htr sid). specialize (Hfr sid).
    destruct e; try lia. destruct (decide _) as [[_ ->]|_]; lia.
  - intros sid Hlen. destruct (step_calls p w e sid) as [-> Hl].
    rewrite Hl in Hlen. rewrite Hfr by lia.
    destruct e; try lia. destruct (decide _) as [[_ ->]|_]; lia.
  - intros sid. destruct (step_calls p w e sid) as [-> _].
    specialize (Hpo sid).
    destruct e as [| |pos|pos o|]; cbn [step];
      [| | | |intros H; rewrite Nat.add_0_r; by apply Hpo].
    + destruct (create_counts p w sid) as (H1 & H2 & _ & H4 & _).
      rewrite H1, H2, H4. lia.
    + unfold fetchPrePackagedRules_call.
      destruct (call_api_counts ReqStatusFetch (setLoading true w) sid)
        as (H1 & H2 & _ & H4 & _).
      rewrite decide_False in H2 by done. rewrite decide_False in H4 by done.
      rewrite H1, H2, H4.
      change (poll_calls sid (setLoading ?b w)) with (poll_calls sid w).
      change (n_timers sid (setLoading ?b w)) with (n_timers sid w).
      change (n_polls sid (setLoading ?b w)) with (n_polls sid w). lia.
    + destruct (timers w !! pos) as [t|] eqn:Ht; [|lia].
      destruct (timer_counts w pos t sid Ht) as (H1 & H2 & _ & H4 & _). lia.
    + destruct (inflight w !! pos) as [rq|] eqn:Hrq; [|lia].
      destruct (delete_request_counts w pos rq sid Hrq) as [D1 D2].
      destruct (resume_counts rq o (set_inflight (delete pos (inflight w)) w) sid)
        as (R1 & R2 & _ & R4 & _).
      change (poll_calls sid (set_inflight ?l w)) with (poll_calls sid w) in R4.
      change (n_timers sid (set_inflight ?l w)) with (n_timers sid w) in R1.
      pose proof (wf_trigger w Hwf sid) as Htg.
      repeat case_decide; lia.
  - intros sid s' Hs' Hpos. rewrite pending_eq in Hpos.
    destruct (session_after p w e sid s' Hids Hs')
      as [(Hs & -> & -> & ->)|(s & Hs & [[Hsame ->]|[[-> ->]|[Ht|Hr]]])].
    + destruct (guard_open p) eqn:Hg; [done|]. exfalso.
      destruct (create_counts p w (length (sessions w))) as (H1 & H2 & H3 & _).
      cbn [step] in Hpos. rewrite decide_False in H3 by (intros [? _]; congruence).
      destruct (wf_fresh w Hwf (length (sessions w))) as [H0 _]; [done|].
      rewrite pending_eq in H0. lia.
    + destruct Hsame as (_ & E2 & E3 & E4 & _). apply (Hpe sid s Hs).
      rewrite pending_eq. lia.
    + by apply (Hpe sid s Hs).
    + destruct Ht as (pos & t & -> & Ht & Hsid & ->). cbn.
      apply (Hpe sid s Hs). rewrite pending_eq.
      pose proof (delete_timer_counts w pos t sid Ht) as Hd.
      rewrite decide_True in Hd by done. lia.
    + destruct Hr as (pos & o & rq & -> & Hrq & Hown & _ & H2 & _).
      destruct (delete_request_counts w pos rq sid Hrq) as [D1 D2].
      assert (resolved s = None) as Hnone.
      { apply (Hpe sid s Hs). rewrite pending_eq.
        destruct Hown as [-> | ->].
        - rewrite decide_True in D1 by done. lia.
        - rewrite decide_True in D2 by done. lia. }
      destruct H2 as [-> | Hle]; [done|]. exfalso.
      cbn [step] in Hpos, Hle. rewrite Hrq in Hpos, Hle.
      destruct (resume_counts rq o (set_inflight (delete pos (inflight w)) w) sid)
        as (_ & R2 & R3 & _).
      pose proof (wf_pending w Hwf sid) as Hone. rewrite pending_eq in Hone.
      destruct Hown as [-> | ->].
      * rewrite decide_True in D1 by done. rewrite decide_False in D2 by done. lia.
      * rewrite decide_False in D1 by done. rewrite decide_True in D2 by done. lia.
  - intros sid Hsub. rewrite step_subscribed in Hsub.
    specialize (Hbu sid).
    destruct e as [| |pos|pos o|]; cbn [step]; [| | | |done].
    + destruct (create_counts p w sid) as (H1 & _ & _ & H4 & _). rewrite H1, H4. auto.
    + unfold fetchPrePackagedRules_call.
      destruct (call_api_counts ReqStatusFetch (setLoading true w) sid)
        as (H1 & _ & _ & H4 & _).
      rewrite decide_False in H4 by done. rewrite H1, H4.
      change (poll_calls sid (setLoading ?b w)) with (poll_calls sid w).
      change (n_timers sid (setLoading ?b w)) with (n_timers sid w).
      specialize (Hbu Hsub). lia.
    + destruct (timers w !! pos) as [t|] eqn:Ht; [|auto].
      destruct (timer_counts w pos t sid Ht) as (H1 & _ & _ & H4 & _).
      specialize (Hbu Hsub). lia.
    + destruct (inflight w !! pos) as [rq|] eqn:Hrq; [|auto].
      specialize (Hbu Hsub).
      pose proof (wf_pending _ Hwf' sid) as Hone'. rewrite pending_eq in Hone'.
      cbn [step] in Hone'. rewrite Hrq in Hone'.
      destruct (delete_request_counts w pos rq sid Hrq) as [D1 D2].
      destruct (resume_counts rq o (set_inflight (delete pos (inflight w)) w) sid)
        as (R1 & _ & _ & R4 & _).
      change (poll_calls sid (set_inflight ?l w)) with (poll_calls sid w) in R4.
      change (n_timers sid (set_inflight ?l w)) with (n_timers sid w) in R1.
      rewrite R4.
      destruct (Request_eq_dec rq (ReqCreatePrepackagedRules sid)) as [->|Hc].
      { rewrite decide_True in D2 by done.
        destruct (wf_trigger w Hwf sid) as [H0 _]; lia. }
      destruct (Request_eq_dec rq (ReqStatusPoll sid)) as [->|Hp];
        [|rewrite !decide_False in R1 by done; lia].
      rewrite decide_True in D1 by done.
      destruct (sessions w !! sid) as [s|] eqn:Hs.
      * destruct (resume_own (ReqStatusPoll sid) o
                    (set_inflight (delete pos (inflight w)) w) sid s Hs)
          as (s'' & _ & _ & _ & H3).
        specialize (H3 eq_refl Hsub).
        change (n_timers sid (set_inflight ?l w)) with (n_timers sid w) in H3.
        rewrite <- (Hit sid s Hs) in *.
        destruct (decide (100 < iterationTryOfFetchingPrePackagedCount s)) as [Hgt|Hle].
        -- specialize (H3 Hgt). lia.
        -- lia.
      * apply lookup_ge_None in Hs.
        destruct (wf_fresh w Hwf sid Hs) as [H0 _]. rewrite pending_eq in H0.
        exfalso. lia.
Qed.

Lemma acct_mount : acct mount.
Proof.
  split; cbn; try done; intros; unfold_counts; cbn;
    rewrite ?decide_False by done; cbn; lia.
Qed.

Lemma acct_run (p : UsePrePackagedRuleProps) (evs : list Event) (w : Hook) :
  ids_ok w → wf w → acct w → acct (run p w evs).
Proof.
  revert w. induction evs as [|e evs IH]; intros w H1 H2 H3; [done|].
  change (run p w (e :: evs)) with (run p (step p w e) evs).
  apply IH; [by apply ids_ok_step|by apply wf_step|by apply acct_step].
Qed.

(** The three invariants hold whatever happened since the mount. *)
Lemma reachable (p : UsePrePackagedRuleProps) (evs : list Event) :
  ids_ok (run p mount evs) ∧ wf (run p mount evs) ∧ acct (run p mount evs).
Proof.
  split_and!.
  - apply ids_ok_run, ids_ok_mount.
  - apply wf_run, wf_mount.
  - apply acct_run; [apply ids_ok_mount|apply wf_mount|apply acct_mount].
Qed.

(** ** What an invocation may ask of the API *)

(** X5.  Whatever the events since the mount, an invocation of
    [createElasticRules] calls [createPrepackagedRules] at most once, and
    its poller has a timer, a pending status query or a status query behind
    it only when that call was made. *)
Theorem trigger_once_then_poll
    (p : UsePrePackagedRuleProps) (evs : list Event) (sid : nat) :
  let w := run p mount evs in
  trigger_calls sid w ≤ 1
  ∧ (trigger_calls sid w = 0 →
     poll_calls sid w = 0 ∧ timers_of sid w = [] ∧ polls_in_flight sid w = []).
Proof.
  intros w. destruct (reachable p evs) as (_ & _ & Ha). fold w in Ha.
  split; [apply (acct_trigger w Ha)|].
  intros H0. pose proof (acct_polled w Ha sid) as Hp.
  unfold n_timers, n_polls in Hp. unfold timers_of, polls_in_flight in *.
  rewrite !filter_nil_length. lia.
Qed.

(** X6.  While the hook is subscribed, the poller of an invocation has made at
    most 101 status queries, and the counter of the invocation is the number
    of these queries. *)
Theorem poll_budget_while_subscribed
    (p : UsePrePackagedRuleProps) (evs : list Event) (sid : nat) :
  isSubscribed (run p mount evs) = true →
  poll_calls sid (run p mount evs) ≤ 101
  ∧ ∀ s, sessions (run p mount evs) !! sid = Some s →
         iterationTryOfFetchingPrePackagedCount s = poll_calls sid (run p mount evs).
Proof.
  intros Hsub. destruct (reachable p evs) as (_ & _ & Ha).
  split.
  - pose proof (acct_budget _ Ha sid Hsub). lia.
  - intros s. apply (acct_iteration _ Ha).
Qed.

(** ** Sessions the event loop holds nothing for *)

(** A session for which the event loop holds neither a timer nor a pending
    call is out of reach of every event. *)
Lemma quiet_step (p : UsePrePackagedRuleProps) (w : Hook) (e : Event)
    (sid : nat) (s : Session) :
  ids_ok w → sessions w !! sid = Some s → pending sid w = 0 →
  sessions (step p w e) !! sid = Some s
  ∧ pending sid (step p w e) = 0
  ∧ poll_calls sid (step p w e) = poll_calls sid w
  ∧ trigger_calls sid (step p w e) = trigger_calls sid w.
Proof.
  intros Hw Hs Hp. rewrite pending_eq in Hp.
  assert (trigger_calls sid (step p w e) = trigger_calls sid w) as Ht.
  { destruct (step_calls p w e sid) as [-> _].
    apply lookup_lt_Some in Hs.
    destruct e; try lia. rewrite decide_False by lia. lia. }
  assert (same_for sid w (step p w e) ∨ e = Cleanup) as [Hsame | ->].
  { destruct (foreign sid w e) eqn:Hf; [left; by eapply foreign_frame|].
    destruct e as [| |pos|pos o|]; cbn in Hf; try done; [| |by right].
    - destruct (timers w !! pos) as [t|] eqn:Htm; [|done].
      apply bool_decide_eq_false in Hf. apply dec_stable in Hf.
      pose proof (delete_timer_counts w pos t sid Htm) as Hd.
      rewrite decide_True in Hd by done. lia.
    - destruct (inflight w !! pos) as [rq|] eqn:Hrq; [|done].
      apply bool_decide_eq_false in Hf.
      destruct (delete_request_counts w pos rq sid Hrq) as (H1 & H2).
      destruct (decide (rq = ReqStatusPoll sid)); [lia|].
      destruct (decide (rq = ReqCreatePrepackagedRules sid)); [lia|].
      destruct Hf. done. }
  - destruct Hsame as (E1 & E2 & E3 & E4 & E5 & E6).
    split_and!; [congruence| |done|done]. rewrite pending_eq. lia.
  - split_and!; [done| |done|done]. by rewrite pending_eq.
Qed.

Lemma quiet_run (p : UsePrePackagedRuleProps) (evs : list Event) (w : Hook)
    (sid : nat) (s : Session) :
  ids_ok w → sessions w !! sid = Some s → pending sid w = 0 →
  sessions (run p w evs) !! sid = Some s
  ∧ pending sid (run p w evs) = 0
  ∧ poll_calls sid (run p w evs) = poll_calls sid w
  ∧ trigger_calls sid (run p w evs) = trigger_calls sid w.
Proof.
  revert w. induction evs as [|e evs IH]; intros w Hw Hs Hp; [done|].
  change (run p w (e :: evs)) with (run p (step p w e) evs).
  destruct (quiet_step p w e sid s Hw Hs Hp) as (H1 & H2 & H3 & H4).
  destruct (IH (step p w e) (ids_ok_step p w e Hw) H1 H2) as (H5 & H6 & H7 & H8).
  split_and!; congruence.
Qed.

(** X7.  Once the promise of an invocation is settled, with [true] or with
    [false], nothing that happens later changes the invocation: its
    variables and its promise stay, it registers no timer and makes no
    further call of the API. *)
Theorem settled_promise_is_final
    (p : UsePrePackagedRuleProps) (evs evs' : list Event) (sid : nat) (b : bool) :
  promises (run p mount evs) !! sid = Some (Some b) →
  let w := run p mount evs in
  let w' := run p mount (evs ++ evs') in
  sessions w' !! sid = sessions w !! sid
  ∧ pending sid w' = 0
  ∧ poll_calls sid w' = poll_calls sid w
  ∧ trigger_calls sid w' = trigger_calls sid w.
Proof.
  intros Hb w w'. subst w'. rewrite run_app. fold w. fold w in Hb.
  destruct (reachable p evs) as (Hi & Hwf & Ha). fold w in Hi, Hwf, Ha.
  unfold promises in Hb. rewrite list_lookup_fmap in Hb.
  destruct (sessions w !! sid) as [s|] eqn:Hs; [|done].
  cbn in Hb. injection Hb as Hb.
  assert (pending sid w = 0) as Hp.
  { destruct (decide (0 < pending sid w)) as [Hpos|]; [|lia].
    pose proof (acct_pending w Ha sid s Hs Hpos). congruence. }
  apply (quiet_run p evs' w sid s Hi Hs Hp).
Qed.

(** X8.  When the status query of a poller rejects, its invocation is left with
    a promise that never settles: the event loop holds nothing for it any
    more, and whatever happens later, it makes no further query and its
    promise stays pending. *)
Theorem rejected_poll_never_settles
    (p : UsePrePackagedRuleProps) (evs evs' : list Event) (pos sid : nat) :
  inflight (run p mount evs) !! pos = Some (ReqStatusPoll sid) →
  let w := run p mount evs in
  let w' := run p w (Settles pos Rejected :: evs') in
  promises w' !! sid = Some None
  ∧ pending sid w' = 0
  ∧ poll_calls sid w' = poll_calls sid w.
Proof.
  intros Hrq w w'. subst w'. fold w in Hrq.
  destruct (reachable p evs) as (Hi & Hwf & Ha). fold w in Hi, Hwf, Ha.
  change (run p w (Settles pos Rejected :: evs'))
    with (run p (step p w (Settles pos Rejected)) evs').
  destruct (delete_request_counts w pos _ sid Hrq) as [D1 D2].
  rewrite decide_True in D1 by done. rewrite decide_False in D2 by done.
  pose proof (wf_pending w Hwf sid) as Hone. rewrite pending_eq in Hone.
  destruct (sessions w !! sid) as [s|] eqn:Hs.
  2:{ apply lookup_ge_None in Hs. destruct (wf_fresh w Hwf sid Hs) as [H0 _].
      rewrite pending_eq in H0. lia. }
  assert (resolved s = None) as Hnone.
  { apply (acct_pending w Ha sid s Hs). rewrite pending_eq. lia. }
  set (w1 := step p w (Settles pos Rejected)).
  assert (sessions w1 !! sid = Some s ∧ pending sid w1 = 0
          ∧ poll_calls sid w1 = poll_calls sid w) as (H1 & H2 & H3).
  { subst w1. cbn [step]. rewrite Hrq. cbn [resume reFetch_resume].
    split_and!; [done| |done].
    rewrite pending_eq.
    change (n_timers sid (unhandledRejection (set_inflight ?l w)))
      with (n_timers sid w).
    change (n_polls sid (unhandledRejection ?x)) with (n_polls sid x).
    change (n_triggers sid (unhandledRejection ?x)) with (n_triggers sid x).
    lia. }
  destruct (quiet_run p evs' w1 sid s (ids_ok_step p w _ Hi) H1 H2)
    as (Q1 & Q2 & Q3 & _).
  split_and!; [|done|congruence].
  unfold promises. rewrite list_lookup_fmap, Q1. cbn. by rewrite Hnone.
Qed.

(** ** Cleanup while the trigger is pending *)

Lemma late_trigger_ignored (p : UsePrePackagedRuleProps) (w : Hook)
    (pos sid : nat) (o : Settlement) :
  isSubscribed w = false →
  inflight w !! pos = Some (ReqCreatePrepackagedRules sid) →
  step p w (Settles pos o) = set_inflight (delete pos (inflight w)) w.
Proof.
  intros Hsub Hrq. cbn [step]. rewrite Hrq. cbn [resume].
  unfold createElasticRules_resume. cbn. rewrite Hsub. by destruct o.
Qed.

(** The session of [sid] was cancelled before its trigger answered. *)
Lemma cancelled_trigger_step (p : UsePrePackagedRuleProps) (w : Hook) (e : Event)
    (sid : nat) (s : Session) :
  ids_ok w → wf w →
  isSubscribed w = false → sessions w !! sid = Some s →
  n_timers sid w = 0 → n_polls sid w = 0 →
  let w' := step p w e in
  isSubscribed w' = false ∧ sessions w' !! sid = Some s
  ∧ n_timers sid w' = 0 ∧ n_polls sid w' = 0
  ∧ poll_calls sid w' = poll_calls sid w.
Proof.
  intros Hi Hwf Hsub Hs Ht Hp w'. subst w'.
  assert (isSubscribed (step p w e) = false) as Hsub'.
  { rewrite step_subscribed. by destruct e. }
  split; [done|].
  destruct (foreign sid w e) eqn:Hf.
  { destruct (foreign_frame p w e sid s Hi Hs Hf) as (E1 & E2 & E3 & E4 & E5 & E6).
    split_and!; congruence. }
  destruct e as [| |pos|pos o|]; cbn in Hf; try done.
  - exfalso. destruct (timers w !! pos) as [t|] eqn:Htm; [|done].
    apply bool_decide_eq_false in Hf. apply dec_stable in Hf.
    pose proof (delete_timer_counts w pos t sid Htm) as Hd.
    rewrite decide_True in Hd by done. lia.
  - destruct (inflight w !! pos) as [rq|] eqn:Hrq; [|done].
    apply bool_decide_eq_false in Hf.
    destruct (delete_request_counts w pos rq sid Hrq) as (H1 & H2).
    destruct (Request_eq_dec rq (ReqStatusPoll sid)) as [->|Hnp].
    { rewrite decide_True in H1 by done. lia. }
    destruct (Request_eq_dec rq (ReqCreatePrepackagedRules sid)) as [->|Hnc].
    2:{ destruct Hf. done. }
    rewrite (late_trigger_ignored p w pos sid o Hsub Hrq).
    rewrite decide_False in H1 by done.
    split_and!; [done|done|lia|done].
Qed.

(** X9.  When the cleanup runs while the trigger of an invocation is pending,
    the invocation is lost: whatever the trigger answers and whatever
    happens later, it never makes a status query, never registers a timer,
    and its promise never settles. *)
Theorem cancelled_trigger_never_settles
    (p : UsePrePackagedRuleProps) (evs evs' : list Event) (sid : nat) :
  0 < n_triggers sid (run p mount evs) →
  let w' := run p (step p (run p mount evs) Cleanup) evs' in
  promises w' !! sid = Some None
  ∧ poll_calls sid w' = 0
  ∧ timers_of sid w' = [].
Proof.
  intros Htg w'. subst w'.
  destruct (reachable p evs) as (Hi & Hwf & Ha).
  set (w := run p mount evs) in *.
  pose proof (wf_pending w Hwf sid) as Hone. rewrite pending_eq in Hone.
  destruct (wf_trigger w Hwf sid Htg) as [Hpc _].
  destruct (sessions w !! sid) as [s|] eqn:Hs.
  2:{ apply lookup_ge_None in Hs. destruct (wf_fresh w Hwf sid Hs) as [H0 _].
      rewrite pending_eq in H0. lia. }
  assert (resolved s = None) as Hnone.
  { apply (acct_pending w Ha sid s Hs). rewrite pending_eq. lia. }
  assert (∀ evs' w0, ids_ok w0 → wf w0 → isSubscribed w0 = false →
            sessions w0 !! sid = Some s → n_timers sid w0 = 0 →
            n_polls sid w0 = 0 → poll_calls sid w0 = 0 →
            sessions (run p w0 evs') !! sid = Some s
            ∧ n_timers sid (run p w0 evs') = 0
            ∧ poll_calls sid (run p w0 evs') = 0) as Hrun.
  { clear. intros evs'. induction evs' as [|e evs' IH]; intros w0 Hi Hwf Hsub Hs Ht Hp Hc.
    - done.
    - change (run p w0 (e :: evs')) with (run p (step p w0 e) evs').
      destruct (cancelled_trigger_step p w0 e sid s Hi Hwf Hsub Hs Ht Hp)
        as (H1 & H2 & H3 & H4 & H5).
      apply IH; try done; [by apply ids_ok_step|by apply wf_step|congruence]. }
  destruct (Hrun evs' (step p w Cleanup)) as (R1 & R2 & R3); try done.
  - by apply ids_ok_step.
  - by apply wf_step.
  - change (n_timers sid w = 0). lia.
  - change (n_polls sid w = 0). lia.
  - split_and!; [|done|].
    + unfold promises. rewrite list_lookup_fmap, R1. cbn. by rewrite Hnone.
    + apply filter_nil_length. exact R2.
Qed.

(** ** Timers leave the queue by firing *)

Lemma filter_all {A} (P : A → Prop) `{!∀ x, Decision (P x)} (l : list A) :
  (∀ x, x ∈ l → P x) → filter P l = l.
Proof.
  induction l as [|x l IH]; intros Hl; [done|].
  rewrite filter_cons_True by (apply Hl; left).
  f_equal. apply IH. intros y Hy. apply Hl. by right.
Qed.

(** [stopTimeOut] finds no timer to clear when the status query of its
    session is the one that just answered. *)
Lemma stopTimeOut_clears_nothing (sid : nat) (w : Hook) :
  ids_ok w → n_timers sid w = 0 → timers (stopTimeOut sid w) = timers w.
Proof.
  intros Hi Hn. unfold stopTimeOut.
  destruct (sessions w !! sid) as [s|] eqn:Hs; [|done].
  case_decide; [|done]. unfold clearTimeout. cbn.
  apply filter_all. intros t Ht Hid.
  pose proof (ids_owner w Hi t sid s Ht Hs Hid) as Hown.
  unfold n_timers, timers_of in Hn. apply filter_nil_length in Hn.
  assert (t ∈ filter (λ t, timer_session t = sid) (timers w)) as Hin
    by by apply list_elem_of_filter.
  rewrite Hn in Hin. by apply not_elem_of_nil in Hin.
Qed.

Lemma timers_fetchPrePackagedRules_resume (o : Settlement) (w : Hook) :
  timers (fetchPrePackagedRules_resume o w) = timers w.
Proof. by destruct w as [[] ? ? ? ? ? ? ? ? ? ? ?], o. Qed.

Lemma timers_step (p : UsePrePackagedRuleProps) (w : Hook) (e : Event) :
  ids_ok w → wf w → fires w e = false →
  timers w `prefix_of` timers (step p w e).
Proof.
  intros Hi Hwf Hf.
  destruct e as [| |pos|pos o|]; cbn [step].
  - unfold createElasticRules_call. by destruct (guard_open p); cbn.
  - done.
  - cbn in Hf. destruct (timers w !! pos) as [t|]; [|done].
    apply bool_decide_eq_false in Hf. destruct Hf. by eexists.
  - destruct (inflight w !! pos) as [rq|] eqn:Hrq; [|done].
    set (w0 := set_inflight (delete pos (inflight w)) w).
    assert (ids_ok w0) as Hi0 by (subst w0; by apply ids_ok_set_inflight).
    change (timers w) with (timers w0).
    destruct rq as [b|b|]; cbn [resume].
    + unfold createElasticRules_resume.
      destruct o, (isSubscribed w0); try done.
      unfold assign_reFetch, reFetch, setTimeout. cbn. by apply prefix_app_r.
    + unfold reFetch_resume. destruct o as [r|]; [|done].
      destruct (sessions w0 !! b) as [x|] eqn:Hx; [|done].
      destruct (isSubscribed _ && _).
      * set (w1 := dispatchToaster _ _).
        change (timers (upd_session b (resolve true) (stopTimeOut b w1)))
          with (timers (stopTimeOut b w1)).
        rewrite stopTimeOut_clears_nothing; [done| |].
        -- subst w1. apply ids_ok_dispatchToaster, ids_ok_setPrepackagedDataStatus,
             ids_ok_setLoadingCreatePrePackagedRules, ids_ok_upd_session;
             [by left|done].
        -- change (n_timers b w1) with (n_timers b w).
           destruct (delete_request_counts w pos _ b Hrq) as [D1 _].
           rewrite decide_True in D1 by done.
           pose proof (wf_pending w Hwf b) as Hone. rewrite pending_eq in Hone. lia.
      * unfold assign_reFetch, reFetch, setTimeout. cbn. by apply prefix_app_r.
    + by rewrite timers_fetchPrePackagedRules_resume.
  - done.
Qed.

(** X10.  No timer is ever cancelled: an event other than the firing of a timer
    leaves every registered timer in the queue, in place.  In particular the
    [stopTimeOut] of a poller that stops finds nothing to clear, and the
    cleanup clears nothing. *)
Theorem timers_leave_only_by_firing
    (p : UsePrePackagedRuleProps) (evs : list Event) (e : Event) :
  fires (run p mount evs) e = false →
  timers (run p mount evs) `prefix_of` timers (step p (run p mount evs) e).
Proof.
  intros Hf. destruct (reachable p evs) as (Hi & Hwf & _).
  by apply timers_step.
Qed.

(** ** Sessions among each other *)

Lemma foreign_run (p : UsePrePackagedRuleProps) (evs : list Event) (w : Hook)
    (sid : nat) (s : Session) :
  ids_ok w → sessions w !! sid = Some s → all_foreign p sid w evs = true →
  same_for sid w (run p w evs).
Proof.
  revert w. induction evs as [|e evs IH]; intros w Hi Hs Hf.
  - apply same_for_refl.
  - cbn [all_foreign] in Hf. apply andb_true_iff in Hf as [Hf Hfs].
    change (run p w (e :: evs)) with (run p (step p w e) evs).
    pose proof (foreign_frame p w e sid s Hi Hs Hf) as Hsame.
    eapply same_for_trans; [exact Hsame|].
    apply IH; [by apply ids_ok_step| |done].
    destruct Hsame as (-> & _). done.
Qed.

(** X11.  Invocations do not disturb each other: as long as the events are those
    of other invocations, of status fetches and of consumers (no event of
    the session's own, no cleanup), a session keeps its variables, its
    timer and its pending calls, and the number of queries its poller
    made. *)
Theorem sessions_do_not_interfere
    (p : UsePrePackagedRuleProps) (evs evs' : list Event) (sid : nat) :
  is_Some (sessions (run p mount evs) !! sid) →
  all_foreign p sid (run p mount evs) evs' = true →
  same_for sid (run p mount evs) (run p (run p mount evs) evs').
Proof.
  intros [s Hs] Hf. destruct (reachable p evs) as (Hi & _ & _).
  by eapply foreign_run.
Qed.

(** ** A closed guard *)

Lemma refusing_mount : refusing mount.
Proof. split; cbn; by repeat constructor. Qed.

Lemma refusing_step (p : UsePrePackagedRuleProps) (w : Hook) (e : Event) :
  guard_open p = false → refusing w → refusing (step p w e).
Proof.
  intros Hg [Ht Hfl Hc Hl Hp Hts].
  destruct e as [| |pos|pos o|]; cbn [step].
  - unfold createElasticRules_call. rewrite Hg.
    split; try done. unfold promises, upd_session. cbn.
    rewrite alter_snoc, fmap_app. apply Forall_app. split; [done|].
    by repeat constructor.
  - unfold fetchPrePackagedRules_call, call_api.
    split; try done; cbn; apply Forall_app; split; try done;
      by repeat constructor.
  - by rewrite Ht.
  - destruct (inflight w !! pos) as [rq|] eqn:Hrq; [|done].
    assert (rq = ReqStatusFetch) as ->.
    { rewrite list.Forall_forall in Hfl. apply Hfl.
      by eapply list_elem_of_lookup_2. }
    assert (Forall (λ rq, rq = ReqStatusFetch) (delete pos (inflight w))) as Hfl'.
    { rewrite list.Forall_forall in *. intros x Hx. apply Hfl.
      by eapply list_elem_of_delete_inv. }
    cbn [resume]. unfold fetchPrePackagedRules_resume.
    destruct o, (isSubscribed w) eqn:Hsub; cbn; rewrite ?Hsub; cbn;
      rewrite ?Hsub; split; try done; cbn.
    apply Forall_app. split; [done|]. by repeat constructor.
  - done.
Qed.

Lemma refusing_run (p : UsePrePackagedRuleProps) (evs : list Event) :
  guard_open p = false → refusing (run p mount evs).
Proof.
  intros Hg. induction evs as [|e evs IH] using rev_ind.
  - apply refusing_mount.
  - rewrite run_snoc. by apply refusing_step.
Qed.

(** X4.  With a closed guard the hook only fetches the status: whatever the
    events since the mount, and however often [createPrePackagedRules] is
    invoked, no call other than a status fetch is made, no timer is
    registered, [loadingCreatePrePackagedRules] stays [false], no toast other
    than the failure of a status fetch is shown, and every promise handed
    out is settled with [false]. *)
Theorem closed_guard_only_fetches
    (p : UsePrePackagedRuleProps) (evs : list Event) :
  guard_open p = false →
  let w := run p mount evs in
  Forall (λ c, call_request c = ReqStatusFetch) (apiCalls w)
  ∧ timers w = []
  ∧ loadingCreatePrePackagedRules w = false
  ∧ Forall (λ t, t = ErrorToast RULE_AND_TIMELINE_FETCH_FAILURE) (toasts w)
  ∧ Forall (λ v, v = Some false) (promises w).
Proof.
  intros Hg w. by destruct (refusing_run p evs Hg) as [? ? ? ? ? ?].
Qed.

(** ** The loading flag *)

Lemma elem_of_delete_ne {A} (l : list A) (i : nat) (x y : A) :
  x ∈ l → l !! i = Some y → x ≠ y → x ∈ delete i l.
Proof.
  intros Hx Hy Hne. rewrite <- (take_drop_middle l i y Hy) in Hx.
  rewrite delete_take_drop.
  apply elem_of_app in Hx as [Hx|Hx]; [apply elem_of_app; by left|].
  apply elem_of_cons in Hx as [Hx|Hx]; [done|apply elem_of_app; by right].
Qed.

Lemma loading_step (p : UsePrePackagedRuleProps) (w : Hook) (e : Event) :
  (isSubscribed w = true → loading w = true → ReqStatusFetch ∈ inflight w) →
  isSubscribed (step p w e) = true → loading (step p w e) = true →
  ReqStatusFetch ∈ inflight (step p w e).
Proof.
  intros IH Hsub. rewrite step_subscribed in Hsub.
  destruct e as [| |pos|pos o|]; cbn [step]; [| | | |done].
  - unfold createElasticRules_call, call_api, upd_session.
    destruct (guard_open p); cbn; [|auto].
    intros Hl. apply elem_of_app. left. auto.
  - intros _. unfold fetchPrePackagedRules_call, call_api. cbn.
    apply elem_of_app. right. by left.
  - destruct (timers w !! pos) as [t|]; [|auto].
    unfold reFetch_callback, call_api, upd_session. cbn.
    intros Hl. apply elem_of_app. left. auto.
  - destruct (inflight w !! pos) as [rq|] eqn:Hrq; [|auto].
    destruct (Request_eq_dec rq ReqStatusFetch) as [->|Hne].
    + destruct w as [sub ab st lc ld ts ss tm nx fl ac ur]. cbn in *. subst sub.
      by destruct o.
    + assert (loading w = true → ReqStatusFetch ∈ delete pos (inflight w)) as IH'.
      { intros Hl. eapply elem_of_delete_ne; [by apply IH|done|congruence]. }
      destruct w as [sub ab st lc ld ts ss tm nx fl ac ur]. cbn in *. subst sub.
      destruct rq as [b|b|]; [| |done]; unfold_ops; cbn.
      * destruct o; cbn; done.
      * destruct o as [r|]; [|done]. destruct (ss !! b); [|done]. cbn.
        destruct (nothing_left r || _); cbn; [|done].
        rewrite list_lookup_alter_eq. destruct (ss !! b); cbn; [|done].
        by case_decide.
Qed.

(** X12.  While the hook is subscribed, [loading] is [true] only while a status
    fetch of [fetchPrePackagedRules] is pending: once every status fetch has
    settled, the flag is [false]. *)
Theorem loading_only_while_fetching
    (p : UsePrePackagedRuleProps) (evs : list Event) :
  isSubscribed (run p mount evs) = true →
  loading (run p mount evs) = true →
  ReqStatusFetch ∈ inflight (run p mount evs).
Proof.
  induction evs as [|e evs IH] using rev_ind.
  - intros _ _. cbn. by left.
  - rewrite run_snoc. by apply loading_step.
Qed.

(** ** Toasts and promises *)

Lemma length_filter_alter {A} (P : A → Prop) `{!∀ x, Decision (P x)}
    (f : A → A) (l : list A) (i : nat) (x : A) :
  l !! i = Some x →
  length (filter P (alter f i l)) + (if decide (P x) then 1 else 0)
  = length (filter P l) + (if decide (P (f x)) then 1 else 0).
Proof.
  intros Hi. rewrite <- (take_drop_middle l i x Hi) at 2.
  rewrite <- (take_drop_middle (alter f i l) i (f x))
    by (by rewrite list_lookup_alter_eq, Hi).
  rewrite take_alter, drop_alter by lia.
  rewrite !list.filter_app, !length_app, !filter_cons.
  repeat case_decide; cbn; lia.
Qed.

Lemma length_filter_alter_same {A} (P : A → Prop) `{!∀ x, Decision (P x)}
    (f : A → A) (l : list A) (i : nat) :
  (∀ x, P (f x) ↔ P x) →
  length (filter P (alter f i l)) = length (filter P l).
Proof.
  intros Hf. destruct (l !! i) as [x|] eqn:Hi.
  - pose proof (length_filter_alter P f l i x Hi) as Hlen.
    specialize (Hf x). repeat case_decide; try lia; tauto.
  - revert i Hi. induction l as [|y l IH]; intros [|i] Hi; try done.
    cbn in Hi. specialize (IH i Hi).
    change (alter f (S i) (y :: l)) with (y :: alter f i l).
    rewrite !filter_cons. case_decide; cbn; lia.
Qed.

Lemma settled_with_keep (v : bool) (f : Session → Session) (b : nat)
    (ss : list Session) :
  (∀ x, resolved (f x) = resolved x) →
  length (filter (λ s, resolved s = Some v) (alter f b ss))
  = length (filter (λ s, resolved s = Some v) ss).
Proof.
  intros Hf. apply (length_filter_alter_same (λ s, resolved s = Some v)).
  intros x. by rewrite Hf.
Qed.

Lemma settled_with_resolve (v v' : bool) (b : nat) (ss : list Session) (x : Session) :
  ss !! b = Some x → resolved x = None →
  length (filter (λ s, resolved s = Some v) (alter (resolve v') b ss))
  = length (filter (λ s, resolved s = Some v) ss)
    + (if decide (v = v') then 1 else 0).
Proof.
  intros Hx Hnone.
  pose proof (length_filter_alter (λ s, resolved s = Some v) (resolve v') ss b x Hx)
    as Hlen.
  cbn in Hlen. rewrite Hnone in Hlen.
  rewrite decide_False in Hlen by done.
  destruct (decide (v = v')) as [->|Hne].
  - rewrite decide_True in Hlen by done. lia.
  - rewrite decide_False in Hlen by congruence. lia.
Qed.

(** A request of a session in flight: the session exists and its promise is
    pending. *)
Lemma inflight_session (w : Hook) (pos b : nat) (rq : Request) :
  wf w → acct w → inflight w !! pos = Some rq →
  rq = ReqStatusPoll b ∨ rq = ReqCreatePrepackagedRules b →
  ∃ x, sessions w !! b = Some x ∧ resolved x = None.
Proof.
  intros Hwf Ha Hrq Hown.
  destruct (delete_request_counts w pos rq b Hrq) as [D1 D2].
  assert (0 < pending b w) as Hpos.
  { rewrite pending_eq. destruct Hown as [-> | ->].
    - rewrite decide_True in D1 by done. lia.
    - rewrite decide_True in D2 by done. lia. }
  destruct (sessions w !! b) as [x|] eqn:Hx.
  - exists x. split; [done|]. by apply (acct_pending w Ha b x Hx).
  - apply lookup_ge_None in Hx. destruct (wf_fresh w Hwf b Hx) as [H0 _]. lia.
Qed.

Lemma tally_step (p : UsePrePackagedRuleProps) (w : Hook) (e : Event) :
  guard_open p = true → wf w → acct w → tally w → tally (step p w e).
Proof.
  intros Hg Hwf Ha HT.
  destruct e as [| |pos|pos o|]; cbn [step].
  - unfold createElasticRules_call. rewrite Hg. destruct HT as [HS HF].
    unfold tally, toasts_of, settled_with, call_api in *. cbn.
    rewrite !length_filter_snoc, !decide_False by done. lia.
  - done.
  - destruct (timers w !! pos) as [t|]; [|done]. destruct HT as [HS HF].
    unfold tally, toasts_of, settled_with, reFetch_callback, call_api,
      upd_session in *. cbn.
    by rewrite !settled_with_keep by done.
  - destruct (inflight w !! pos) as [rq|] eqn:Hrq; [|done].
    pose proof (inflight_session w pos) as Hown.
    destruct HT as [HS HF].
    destruct w as [sub ab st lc ld ts ss tm nx fl ac ur].
    unfold tally, toasts_of, settled_with in *. cbn in *.
    destruct rq as [b|b|]; unfold_ops; cbn.
    + destruct (Hown b _ Hwf Ha Hrq) as (x & Hx & Hnone); [by right|].
      destruct o as [r|], sub; cbn; try done.
      * by rewrite !settled_with_keep by done.
      * rewrite !length_filter_snoc.
        rewrite !(settled_with_resolve _ _ _ _ x Hx Hnone).
        repeat case_decide; first [done | lia].
    + destruct (Hown b _ Hwf Ha Hrq) as (x & Hx & Hnone); [by left|].
      destruct o as [r|]; [|done]. rewrite Hx. cbn.
      destruct (sub && _); cbn.
      * rewrite list_lookup_alter_eq, Hx. cbn.
        assert (∀ v, length (filter (λ s, resolved s = Some v)
                  (alter (resolve true) b (alter (set_response r) b ss)))
                = length (filter (λ s, resolved s = Some v) ss)
                  + (if decide (v = true) then 1 else 0)) as Hres.
        { intros v.
          rewrite (settled_with_resolve v true b _ (set_response r x)).
          - by rewrite settled_with_keep by done.
          - by rewrite list_lookup_alter_eq, Hx.
          - done. }
        case_decide; cbn; rewrite !length_filter_snoc, !Hres;
          repeat case_decide; first [done | lia].
      * by rewrite !settled_with_keep by done.
    + destruct o as [r|], sub; cbn; try done.
      rewrite !length_filter_snoc, !decide_False by done. lia.
  - done.
Qed.

Lemma refusing_tally (w : Hook) :
  refusing w →
  toasts_of (SuccessToast RULE_AND_TIMELINE_PREPACKAGED_SUCCESS) w = 0
  ∧ settled_with true w = 0
  ∧ toasts_of (ErrorToast RULE_AND_TIMELINE_PREPACKAGED_FAILURE) w = 0.
Proof.
  intros [_ _ _ _ Hp Ht].
  assert (∀ t, t ≠ ErrorToast RULE_AND_TIMELINE_FETCH_FAILURE → toasts_of t w = 0)
    as H2.
  { intros t Hne. unfold toasts_of. apply filter_nil_length.
    induction Ht as [|x l Hx _ IH]; [done|].
    rewrite filter_cons_False by congruence. done. }
  split_and!; [by apply H2| |by apply H2].
  unfold settled_with. apply filter_nil_length.
  unfold promises in Hp. rewrite list.Forall_fmap in Hp.
  induction Hp as [|x l Hx _ IH]; [done|].
  cbn in Hx. rewrite filter_cons_False by congruence. done.
Qed.

(** X13.  The toaster and the promises agree, whatever the events since the
    mount: there is one success toast for each promise settled with [true];
    and one failure toast of the trigger for each promise settled with
    [false] when the guard is open, none when it is closed. *)
Theorem toasts_match_promises (p : UsePrePackagedRuleProps) (evs : list Event) :
  let w := run p mount evs in
  toasts_of (SuccessToast RULE_AND_TIMELINE_PREPACKAGED_SUCCESS) w
  = settled_with true w
  ∧ toasts_of (ErrorToast RULE_AND_TIMELINE_PREPACKAGED_FAILURE) w
    = if guard_open p then settled_with false w else 0.
Proof.
  intros w. subst w. destruct (guard_open p) eqn:Hg.
  - change (tally (run p mount evs)).
    induction evs as [|e evs IH] using rev_ind; [done|].
    rewrite run_snoc. destruct (reachable p evs) as (_ & Hwf & Ha).
    by apply tally_step.
  - destruct (refusing_tally _ (refusing_run p evs Hg)) as (-> & -> & ->). done.
Qed.

(** ** What a settled promise tells *)

Lemma resume_resolves (rq : Request) (o : Settlement) (w : Hook) (sid : nat)
    (s s' : Session) :
  sessions w !! sid = Some s → resolved s = None →
  sessions (resume rq o w) !! sid = Some s' →
  match resolved s' with
  | None => True
  | Some true =>
      ∃ r, isSubscribed w = true
           ∧ prePackagedRuleStatusResponse s' = Some r
           ∧ (nothing_left r = true
              ∨ 100 < iterationTryOfFetchingPrePackagedCount s)
  | Some false => rq = ReqCreatePrepackagedRules sid
  end.
Proof.
  intros Hs Hnone. destruct rq as [b|b|]; cbn [resume].
  - unfold createElasticRules_resume.
    destruct o as [r|], (isSubscribed w) eqn:Hsub;
      try (rewrite Hs; intros [= <-]; by rewrite Hnone).
    + unfold assign_reFetch, reFetch, setTimeout, upd_session. cbn.
      destruct (decide (b = sid)) as [->|Hne].
      * rewrite !list_lookup_alter_eq, Hs. cbn. intros [= <-]. cbn.
        by rewrite Hnone.
      * rewrite !list_lookup_alter_ne, Hs by done. intros [= <-].
        by rewrite Hnone.
    + unfold upd_session. cbn.
      destruct (decide (b = sid)) as [->|Hne].
      * rewrite !list_lookup_alter_eq, Hs. cbn. intros [= <-]. cbn.
        by rewrite Hnone.
      * rewrite !list_lookup_alter_ne, Hs by done. intros [= <-].
        by rewrite Hnone.
  - unfold reFetch_resume.
    destruct o as [r|]; [|cbn; rewrite Hs; intros [= <-]; by rewrite Hnone].
    destruct (sessions w !! b) as [x|] eqn:Hx;
      [|rewrite Hs; intros [= <-]; by rewrite Hnone].
    destruct (isSubscribed _ && _) eqn:Hc.
    + set (w1 := dispatchToaster _ _).
      destruct (stopTimeOut_counts b w1 sid) as (_ & _ & _ & _ & _ & H6).
      unfold upd_session at 1. cbn [sessions set_sessions]. rewrite H6.
      subst w1. unfold upd_session. cbn.
      destruct (decide (b = sid)) as [->|Hne].
      * rewrite !list_lookup_alter_eq, Hs. cbn. intros [= <-]. cbn.
        rewrite Hnone. exists r.
        rewrite Hs in Hx. injection Hx as <-.
        cbn -[Nat.ltb nothing_left] in Hc.
        apply andb_true_iff in Hc as [Hsub Hc].
        apply orb_true_iff in Hc as [Hc|Hc].
        -- split_and!; [done|done|by left].
        -- apply Nat.ltb_lt in Hc. split_and!; [done|done|by right].
      * rewrite !list_lookup_alter_ne, Hs by done. intros [= <-].
        by rewrite Hnone.
    + unfold assign_reFetch, reFetch, setTimeout, upd_session. cbn.
      destruct (decide (b = sid)) as [->|Hne].
      * rewrite !list_lookup_alter_eq, Hs. cbn. intros [= <-]. cbn.
        by rewrite Hnone.
      * rewrite !list_lookup_alter_ne, Hs by done. intros [= <-].
        by rewrite Hnone.
  - assert (sessions (fetchPrePackagedRules_resume o w) = sessions w) as ->
      by by destruct w as [[] ? ? ? ? ? ? ? ? ? ? ?], o.
    rewrite Hs. intros [= <-]. by rewrite Hnone.
Qed.

Lemma meaning_step (p : UsePrePackagedRuleProps) (w : Hook) (e : Event) :
  ids_ok w → wf w → acct w → (guard_open p = false → refusing w) →
  meaning p w → meaning p (step p w e).
Proof.
  intros Hi Hwf Ha Hclosed IH sid s' Hs'.
  destruct (session_after p w e sid s' Hi Hs')
    as [(Hs & -> & -> & ->)|(s & Hs & [[Hsame ->]|[[-> ->]|[Ht|Hr]]])].
  - destruct (guard_open p) eqn:Hg; [done|]. cbn.
    destruct (create_counts p w (length (sessions w))) as (_ & _ & _ & H4 & H5 & _).
    cbn [step]. rewrite H4, H5.
    rewrite decide_False by (intros [? _]; congruence).
    destruct (wf_fresh w Hwf (length (sessions w))) as [_ ->]; [done|].
    rewrite (acct_fresh w Ha) by done. done.
  - destruct Hsame as (_ & _ & _ & _ & E5 & _).
    destruct (step_calls p w e sid) as [E6 _].
    assert (trigger_calls sid (step p w e) = trigger_calls sid w) as E7.
    { rewrite E6. apply lookup_lt_Some in Hs.
      destruct e; try lia. rewrite decide_False by lia. lia. }
    rewrite E5, E7. by apply IH.
  - by apply (IH sid s).
  - destruct Ht as (pos & t & -> & Ht & Hsid & ->). cbn.
    rewrite (acct_pending w Ha sid s Hs); [done|].
    rewrite pending_eq. pose proof (delete_timer_counts w pos t sid Ht) as Hd.
    rewrite decide_True in Hd by done. lia.
  - destruct Hr as (pos & o & rq & -> & Hrq & Hown & _).
    destruct (delete_request_counts w pos rq sid Hrq) as [D1 D2].
    assert (resolved s = None) as Hnone.
    { apply (acct_pending w Ha sid s Hs). rewrite pending_eq.
      destruct Hown as [-> | ->].
      - rewrite decide_True in D1 by done. lia.
      - rewrite decide_True in D2 by done. lia. }
    cbn [step] in *. rewrite Hrq in *.
    set (w0 := set_inflight (delete pos (inflight w)) w) in *.
    pose proof (resume_resolves rq o w0 sid s s' Hs Hnone Hs') as Hres.
    destruct (resume_counts rq o w0 sid) as (_ & _ & _ & R4 & R5 & _).
    rewrite R4, R5.
    change (poll_calls sid w0) with (poll_calls sid w).
    change (trigger_calls sid w0) with (trigger_calls sid w).
    destruct (resolved s') as [[]|]; [| |done].
    + destruct Hres as (r & Hsub & Hresp & Hstop). exists r. split; [done|].
      destruct Hstop as [Hleft|Hgt]; [by left|right].
      rewrite (acct_iteration w Ha sid s Hs) in Hgt.
      pose proof (acct_budget w Ha sid Hsub). lia.
    + subst rq. rewrite decide_True in D2 by done.
      destruct (wf_trigger w Hwf sid) as [H0 H1]; [lia|].
      pose proof (acct_trigger w Ha sid) as Hle.
      split; [done|]. destruct (guard_open p) eqn:Hg; [lia|]. exfalso.
      destruct (Hclosed eq_refl) as [_ Hfl _ _ _ _].
      rewrite list.Forall_forall in Hfl.
      specialize (Hfl _ (list_elem_of_lookup_2 _ _ _ Hrq)). done.
Qed.

(** X14.  Whatever the events since the mount, a promise settled with [true]
    belongs to an invocation whose last status answer had nothing left, or
    which made exactly 101 status queries; a promise settled with [false]
    belongs to an invocation that made no status query, and that called
    [createPrepackagedRules] once when the guard is open, never when it is
    closed. *)
Theorem settled_value_is_sound
    (p : UsePrePackagedRuleProps) (evs : list Event) (sid : nat) (s : Session) :
  sessions (run p mount evs) !! sid = Some s →
  (resolved s = Some true →
   ∃ r, prePackagedRuleStatusResponse s = Some r
        ∧ (nothing_left r = true ∨ poll_calls sid (run p mount evs) = 101))
  ∧ (resolved s = Some false →
     poll_calls sid (run p mount evs) = 0
     ∧ trigger_calls sid (run p mount evs) = if guard_open p then 1 else 0).
Proof.
  assert (meaning p (run p mount evs)) as Hm.
  { induction evs as [|e evs IH] using rev_ind; [by intros ? ? ?|].
    rewrite run_snoc. destruct (reachable p evs) as (Hi & Hwf & Ha).
    apply meaning_step; try done. intros Hg. by apply refusing_run. }
  intros Hs. specialize (Hm sid s Hs).
  split; intros Hv; rewrite Hv in Hm; exact Hm.
Qed.

(** ** The flag of the installation *)

Lemma promises_keep (f : Session → Session) (b : nat) (ss : list Session) :
  (∀ s, resolved (f s) = resolved s) →
  resolved <$> alter f b ss = resolved <$> ss.
Proof.
  intros Hf. apply list_eq. intros i. rewrite !list_lookup_fmap.
  by apply resolved_alter.
Qed.

Lemma installing_step (p : UsePrePackagedRuleProps) (w : Hook) (e : Event) :
  (loadingCreatePrePackagedRules w = true → None ∈ promises w) →
  loadingCreatePrePackagedRules (step p w e) = true →
  None ∈ promises (step p w e).
Proof.
  intros IH. destruct w as [sub ab st lc ld ts ss tm nx fl ac ur].
  unfold promises in *. cbn in IH.
  destruct e as [| |pos|pos o|]; cbn [step]; unfold_ops; cbn.
  - destruct (guard_open p); cbn.
    + intros _. rewrite fmap_app. apply elem_of_app. right. by left.
    + intros Hl. rewrite alter_snoc, fmap_app. apply elem_of_app. left. auto.
  - done.
  - destruct (tm !! pos); cbn; [|done]. by rewrite promises_keep.
  - destruct (fl !! pos) as [[b|b|]|]; cbn; [| | |done].
    + destruct o, sub; cbn; try done. by rewrite !promises_keep.
    + destruct o as [r|]; [|done]. destruct (ss !! b); [|done]. cbn.
      destruct (sub && _); cbn.
      * rewrite list_lookup_alter_eq. destruct (ss !! b); cbn; [|done].
        by case_decide.
      * by rewrite !promises_keep.
    + by destruct o, sub.
  - done.
Qed.

(** X15.  [loadingCreatePrePackagedRules] is [true] only while the promise of
    some invocation is pending: once every promise handed out has settled,
    the flag is [false]. *)
Theorem installing_only_while_pending
    (p : UsePrePackagedRuleProps) (evs : list Event) :
  loadingCreatePrePackagedRules (run p mount evs) = true →
  None ∈ promises (run p mount evs).
Proof.
  induction evs as [|e evs IH] using rev_ind; [done|].
  rewrite run_snoc. by apply installing_step.
Qed.

(** ** The further theorems at concrete inputs *)

(** After the cleanup the pending status query of session 0 answers that
    nothing is left, the timer it re-arms fires, and the next query answers
    the same. *)
Lemma nothing_visible_after_cleanup_witness :
  isSubscribed unmounted_polling = false
  ∧ forallb passive
      [Settles 0 (Fulfilled (answer 0)); TimerFires 0;
       Settles 0 (Fulfilled (answer 0)); Cleanup] = true
  ∧ usePrePackagedRules
      (run all_granted unmounted_polling
         [Settles 0 (Fulfilled (answer 0)); TimerFires 0;
          Settles 0 (Fulfilled (answer 0)); Cleanup])
    = usePrePackagedRules unmounted_polling
  ∧ promises
      (run all_granted unmounted_polling
         [Settles 0 (Fulfilled (answer 0)); TimerFires 0;
          Settles 0 (Fulfilled (answer 0)); Cleanup])
    = promises unmounted_polling.
Proof.
  assert (isSubscribed unmounted_polling = false) as H1 by reflexivity.
  assert (forallb passive
      [Settles 0 (Fulfilled (answer 0)); TimerFires 0;
       Settles 0 (Fulfilled (answer 0)); Cleanup] = true) as H2 by reflexivity.
  split; [exact H1|]. split; [exact H2|].
  destruct (nothing_visible_after_cleanup all_granted unmounted_polling _ H1 H2)
    as (Ha & _ & Hb).
  split; [exact Ha|exact Hb].
Defined.

(** Session 0 just before its 101st answer. *)
Lemma poll_budget_while_subscribed_witness :
  isSubscribed (run all_granted mount to_query_101) = true
  ∧ poll_calls 0 (run all_granted mount to_query_101) ≤ 101.
Proof.
  assert (isSubscribed (run all_granted mount to_query_101) = true) as H1
    by (vm_compute; reflexivity).
  split; [exact H1|].
  exact (proj1 (poll_budget_while_subscribed all_granted to_query_101 0 H1)).
Defined.

(** Session 0 has converged on its first answer; then a second invocation
    starts and polls, and the hook is cleaned up. *)
Lemma settled_promise_is_final_witness :
  promises (run all_granted mount (first_poll ++ [Settles 0 (Fulfilled (answer 0))]))
    !! 0 = Some (Some true)
  ∧ sessions
      (run all_granted mount
         ((first_poll ++ [Settles 0 (Fulfilled (answer 0))])
          ++ [CallCreatePrePackagedRules; Settles 0 (Fulfilled (answer 0));
              TimerFires 0; Cleanup])) !! 0
    = sessions
        (run all_granted mount (first_poll ++ [Settles 0 (Fulfilled (answer 0))]))
        !! 0
  ∧ pending 0
      (run all_granted mount
         ((first_poll ++ [Settles 0 (Fulfilled (answer 0))])
          ++ [CallCreatePrePackagedRules; Settles 0 (Fulfilled (answer 0));
              TimerFires 0; Cleanup])) = 0.
Proof.
  assert (promises
            (run all_granted mount
               (first_poll ++ [Settles 0 (Fulfilled (answer 0))])) !! 0
          = Some (Some true)) as H1 by (vm_compute; reflexivity).
  split; [exact H1|].
  destruct (settled_promise_is_final all_granted
              (first_poll ++ [Settles 0 (Fulfilled (answer 0))])
              [CallCreatePrePackagedRules; Settles 0 (Fulfilled (answer 0));
               TimerFires 0; Cleanup] 0 true H1) as (Ha & Hb & _).
  split; [exact Ha|exact Hb].
Defined.

(** The first status query of session 0 rejects; then a refetch is asked
    for and answered. *)
Lemma rejected_poll_never_settles_witness :
  inflight (run all_granted mount first_poll) !! 0 = Some (ReqStatusPoll 0)
  ∧ promises
      (run all_granted (run all_granted mount first_poll)
         (Settles 0 Rejected
          :: [CallRefetchPrePackagedRulesStatus;
              Settles 0 (Fulfilled (answer 0)); TimerFires 0])) !! 0
    = Some None
  ∧ pending 0
      (run all_granted (run all_granted mount first_poll)
         (Settles 0 Rejected
          :: [CallRefetchPrePackagedRulesStatus;
              Settles 0 (Fulfilled (answer 0)); TimerFires 0])) = 0.
Proof.
  assert (inflight (run all_granted mount first_poll) !! 0
          = Some (ReqStatusPoll 0)) as H1 by (vm_compute; reflexivity).
  split; [exact H1|].
  destruct (rejected_poll_never_settles all_granted first_poll
              [CallRefetchPrePackagedRulesStatus;
               Settles 0 (Fulfilled (answer 0)); TimerFires 0] 0 0 H1)
    as (Ha & Hb & _).
  split; [exact Ha|exact Hb].
Defined.

(** The hook is cleaned up while the trigger of session 0 is pending; the
    trigger then resolves. *)
Lemma cancelled_trigger_never_settles_witness :
  0 < n_triggers 0
        (run all_granted mount
           [Settles 0 (Fulfilled (answer 3)); CallCreatePrePackagedRules])
  ∧ promises
      (run all_granted
         (step all_granted
            (run all_granted mount
               [Settles 0 (Fulfilled (answer 3)); CallCreatePrePackagedRules])
            Cleanup)
         [Settles 0 (Fulfilled (answer 0)); TimerFires 0]) !! 0 = Some None
  ∧ poll_calls 0
      (run all_granted
         (step all_granted
            (run all_granted mount
               [Settles 0 (Fulfilled (answer 3)); CallCreatePrePackagedRules])
            Cleanup)
         [Settles 0 (Fulfilled (answer 0)); TimerFires 0]) = 0.
Proof.
  assert (0 < n_triggers 0
            (run all_granted mount
               [Settles 0 (Fulfilled (answer 3)); CallCreatePrePackagedRules]))
    as H1 by (vm_compute; lia).
  split; [exact H1|].
  destruct (cancelled_trigger_never_settles all_granted
              [Settles 0 (Fulfilled (answer 3)); CallCreatePrePackagedRules]
              [Settles 0 (Fulfilled (answer 0)); TimerFires 0] 0 H1)
    as (Ha & Hb & _).
  split; [exact Ha|exact Hb].
Defined.

(** Session 0 stops on its first answer while the timer of session 1 is
    registered. *)
Lemma timers_leave_only_by_firing_witness :
  fires (run all_granted mount (two_sessions ++ [TimerFires 0]))
    (Settles 0 (Fulfilled (answer 0))) = false
  ∧ timers (run all_granted mount (two_sessions ++ [TimerFires 0]))
    `prefix_of`
      timers (step all_granted
                (run all_granted mount (two_sessions ++ [TimerFires 0]))
                (Settles 0 (Fulfilled (answer 0)))).
Proof.
  assert (fires (run all_granted mount (two_sessions ++ [TimerFires 0]))
            (Settles 0 (Fulfilled (answer 0))) = false) as H1 by reflexivity.
  split; [exact H1|].
  exact (timers_leave_only_by_firing all_granted
           (two_sessions ++ [TimerFires 0]) _ H1).
Defined.

(** Session 1 while session 0 polls and converges and a consumer asks for
    a refetch. *)
Lemma sessions_do_not_interfere_witness :
  is_Some (sessions (run all_granted mount two_sessions) !! 1)
  ∧ all_foreign all_granted 1 (run all_granted mount two_sessions)
      [TimerFires 0; Settles 0 (Fulfilled (answer 0));
       CallRefetchPrePackagedRulesStatus] = true
  ∧ same_for 1 (run all_granted mount two_sessions)
      (run all_granted (run all_granted mount two_sessions)
         [TimerFires 0; Settles 0 (Fulfilled (answer 0));
          CallRefetchPrePackagedRulesStatus]).
Proof.
  assert (is_Some (sessions (run all_granted mount two_sessions) !! 1)) as H1
    by (vm_compute; eexists; reflexivity).
  assert (all_foreign all_granted 1 (run all_granted mount two_sessions)
            [TimerFires 0; Settles 0 (Fulfilled (answer 0));
             CallRefetchPrePackagedRulesStatus] = true) as H2
    by (vm_compute; reflexivity).
  split; [exact H1|]. split; [exact H2|].
  exact (sessions_do_not_interfere all_granted two_sessions _ 1 H1 H2).
Defined.

(** A user who may not edit rules invokes [createPrePackagedRules] twice. *)
Lemma closed_guard_only_fetches_witness :
  guard_open read_only = false
  ∧ timers
      (run read_only mount
         [Settles 0 (Fulfilled (answer 3)); CallCreatePrePackagedRules;
          CallCreatePrePackagedRules; TimerFires 0]) = []
  ∧ Forall (λ v, v = Some false)
      (promises
         (run read_only mount
            [Settles 0 (Fulfilled (answer 3)); CallCreatePrePackagedRules;
             CallCreatePrePackagedRules; TimerFires 0])).
Proof.
  assert (guard_open read_only = false) as H1 by reflexivity.
  split; [exact H1|].
  destruct (closed_guard_only_fetches read_only
              [Settles 0 (Fulfilled (answer 3)); CallCreatePrePackagedRules;
               CallCreatePrePackagedRules; TimerFires 0] H1)
    as (_ & Ha & _ & _ & Hb).
  split; [exact Ha|exact Hb].
Defined.

(** A refetch is pending after the first status was stored. *)
Lemma loading_only_while_fetching_witness :
  isSubscribed
    (run all_granted mount
       [Settles 0 (Fulfilled (answer 3)); CallRefetchPrePackagedRulesStatus])
  = true
  ∧ loading
      (run all_granted mount
         [Settles 0 (Fulfilled (answer 3)); CallRefetchPrePackagedRulesStatus])
    = true
  ∧ ReqStatusFetch
    ∈ inflight
        (run all_granted mount
           [Settles 0 (Fulfilled (answer 3)); CallRefetchPrePackagedRulesStatus]).
Proof.
  assert (isSubscribed
    (run all_granted mount
       [Settles 0 (Fulfilled (answer 3)); CallRefetchPrePackagedRulesStatus])
    = true) as H1 by reflexivity.
  assert (loading
    (run all_granted mount
       [Settles 0 (Fulfilled (answer 3)); CallRefetchPrePackagedRulesStatus])
    = true) as H2 by reflexivity.
  split; [exact H1|]. split; [exact H2|].
  exact (loading_only_while_fetching all_granted _ H1 H2).
Defined.

(** Session 0 is exhausted: its 101st answer still has 1 rule left. *)
Lemma settled_value_is_sound_witness :
  sessions
    (run all_granted mount (to_query_101 ++ [Settles 0 (Fulfilled (answer 1))]))
    !! 0
  = Some {| iterationTryOfFetchingPrePackagedCount := 101; timeoutId := 101;
            prePackagedRuleStatusResponse := Some (answer 1);
            resolved := Some true |}
  ∧ ∃ r, Some (answer 1) = Some r
         ∧ (nothing_left r = true
            ∨ poll_calls 0
                (run all_granted mount
                   (to_query_101 ++ [Settles 0 (Fulfilled (answer 1))])) = 101).
Proof.
  assert (sessions
    (run all_granted mount (to_query_101 ++ [Settles 0 (Fulfilled (answer 1))]))
    !! 0
  = Some {| iterationTryOfFetchingPrePackagedCount := 101; timeoutId := 101;
            prePackagedRuleStatusResponse := Some (answer 1);
            resolved := Some true |}) as H1 by (vm_compute; reflexivity).
  split; [exact H1|].
  exact (proj1 (settled_value_is_sound all_granted
                  (to_query_101 ++ [Settles 0 (Fulfilled (answer 1))]) 0 _ H1)
           eq_refl).
Defined.

(** The trigger of session 0 is pending. *)
Lemma installing_only_while_pending_witness :
  loadingCreatePrePackagedRules
    (run all_granted mount
       [Settles 0 (Fulfilled (answer 3)); CallCreatePrePackagedRules]) = true
  ∧ None
    ∈ promises
        (run all_granted mount
           [Settles 0 (Fulfilled (answer 3)); CallCreatePrePackagedRules]).
Proof.
  assert (loadingCreatePrePackagedRules
    (run all_granted mount
       [Settles 0 (Fulfilled (answer 3)); CallCreatePrePackagedRules]) = true)
    as H1 by reflexivity.
  split; [exact H1|].
  exact (installing_only_while_pending all_granted _ H1).
Defined.
